(** * Task-MGMT: the workflow, audit and lockout logic of the backend

    A shallow embedding of the Express/Mongoose backend:

    - [models/User.js]      (lockout counters, [incLoginAttempts], ...)
    - [models/Task.js]      ([pre('save')] hook, [updateStatus])
    - [models/AuditLog.js]  ([logAction], [getSecurityLogs])
    - [routes/auth.js]      ([POST /api/auth/login])
    - [routes/tasks.js]     ([PUT /api/tasks/:id], [PUT /api/tasks/:id/status])
    - [routes/users.js]     ([PUT /api/users/:id])
    - [routes/audit.js]     ([GET /api/audit/security],
                             [DELETE /api/audit/logs/cleanup])
    - [middleware/auth.js]  ([authorize], [authorizeTeamAccess])

    and, for the second part of the definitions and of the properties,

    - [middleware/auth.js]  ([authenticate], [sensitiveOperationLimit])
    - [routes/auth.js]      (register, logout, change-password)
    - [routes/tasks.js]     ([GET /api/tasks], [GET /api/tasks/:id],
                             [POST /api/tasks])
    - [routes/users.js]     ([GET /api/users], [GET /api/users/:id],
                             [GET /api/users/:id/tasks], [POST /api/users],
                             [PUT /api/users/:id/activate])
    - [models/AuditLog.js]  ([getFailedLogins], [getActivitySummary],
                             [getDisplayMessage])
    - [models/User.js]      (the schema checks of a new user, [toSafeObject])
    - [models/Task.js]      ([isOverdue])

    Conventions of the embedding.

    - A MongoDB collection is a list of documents in insertion order; a
      document is a record.  An [ObjectId] is the string that
      [_id.toString()] yields, so the handlers' string comparisons of ids
      are comparisons of [ObjectId]s.
    - A JavaScript object used as a bag of keys (a request body) is a
      [gmap string JVal].
    - An [async] handler is a function from the database to an [Outcome]
      and the database it leaves behind: writes issued before an exception
      stay.  [try { .. } catch] is [try_catch].
    - One request sees one instant [now] (the handlers call [Date.now()]
      and [new Date()] several times within a request; the differences are
      not modelled).  Instants are milliseconds since the epoch, in [Z].
    - Library functions the handlers call but the repository does not
      define are class fields: [Bcrypt] for bcryptjs, [Externals] for
      validator.js' e-mail and phone checks, ISO-8601 date parsing and
      the regular-expression engine.
    - The primary store is taken to answer every query.  Two outside
      influences are inputs of a request ([World]): whether the driver
      rejects the write of a given audit entry ([audit_write_fails]) and
      what the notification gateway does ([gateway]).
    - A handler starts after [authenticate]: [req.user] is the actor.
    - Stored documents satisfy their schemas, and a task names an
      assignee (the tasks that a user deactivation leaves with
      [assignedTo: null] are outside the model).  A JSON number is an
      integer. *)

From Stdlib Require Import ZArith List Bool Ascii String Lia Sorted.
From stdpp Require Import base option list gmap strings pretty.

Local Open Scope string_scope.
Local Open Scope list_scope.
Local Open Scope Z_scope.

(** ** JavaScript values and helpers *)

Definition ObjectId := string.
Definition Date := Z.

(** The JSON values a request body carries in the fields the handlers
    read.  [JOther] stands for arrays and nested objects. *)
Inductive JVal :=
| JNull
| JBool (b : bool)
| JNum (n : Z)
| JStr (s : string)
| JOther.

(** [Object.keys(o)] *)
Definition Object_keys (o : gmap string JVal) : list string :=
  (map_to_list o).*1.

(** [a.includes(k)] on an array of strings *)
Definition includes (a : list string) (k : string) : bool :=
  bool_decide (k ∈ a).

(** Truthiness of a string that may be [undefined]. *)
Definition truthy (s : option string) : bool :=
  match s with
  | Some s => negb (String.eqb s "")
  | None => false
  end.

(** [parseInt(x) || d] for a query parameter that already passed
    [isInt]: [undefined] parses to [NaN], and [NaN] and [0] are falsy. *)
Definition parseInt_or (x : option Z) (d : Z) : Z :=
  match x with
  | Some n => if n =? 0 then d else n
  | None => d
  end.

(** validator.js [trim]: strips white space at both ends. *)
Definition is_space (c : ascii) : bool :=
  match nat_of_ascii c with
  | 9%nat | 10%nat | 11%nat | 12%nat | 13%nat | 32%nat => true
  | _ => false
  end.

Fixpoint ltrim_chars (l : list ascii) : list ascii :=
  match l with
  | c :: l' => if is_space c then ltrim_chars l' else l
  | [] => []
  end.

Definition trim (s : string) : string :=
  string_of_list_ascii
    (rev (ltrim_chars (rev (ltrim_chars (list_ascii_of_string s))))).

(** ** Enumerations of the schemas *)

Inductive Role := super_admin | manager | employee.
Inductive Status := pending | in_progress | completed | approved | rejected.
Inductive Severity := low | medium | high | critical.
Inductive Category := security | data | system | user_action.

#[global] Instance Role_eq_dec : EqDecision Role.
Proof. solve_decision. Defined.
#[global] Instance Status_eq_dec : EqDecision Status.
Proof. solve_decision. Defined.
#[global] Instance Severity_eq_dec : EqDecision Severity.
Proof. solve_decision. Defined.
#[global] Instance Category_eq_dec : EqDecision Category.
Proof. solve_decision. Defined.

Definition status_name (s : Status) : string :=
  match s with
  | pending => "pending"
  | in_progress => "in_progress"
  | completed => "completed"
  | approved => "approved"
  | rejected => "rejected"
  end.

(** [isIn(['pending', 'in_progress', 'completed', 'approved', 'rejected'])]
    together with the reading of the accepted string. *)
Definition status_of_string (s : string) : option Status :=
  if String.eqb s "pending" then Some pending
  else if String.eqb s "in_progress" then Some in_progress
  else if String.eqb s "completed" then Some completed
  else if String.eqb s "approved" then Some approved
  else if String.eqb s "rejected" then Some rejected
  else None.

Definition role_name (r : Role) : string :=
  match r with
  | super_admin => "super_admin"
  | manager => "manager"
  | employee => "employee"
  end.

Definition role_of_string (s : string) : option Role :=
  if String.eqb s "super_admin" then Some super_admin
  else if String.eqb s "manager" then Some manager
  else if String.eqb s "employee" then Some employee
  else None.

Definition severity_name (s : Severity) : string :=
  match s with
  | low => "low"
  | medium => "medium"
  | high => "high"
  | critical => "critical"
  end.

Definition category_name (c : Category) : string :=
  match c with
  | security => "security"
  | data => "data"
  | system => "system"
  | user_action => "user_action"
  end.

(** ** Exceptions, outcomes and HTTP responses *)

Inductive JsError :=
| TypeError         (* property read on [null] *)
| ValidationError   (* Mongoose validation or cast failure *)
| StorageError      (* the driver rejects a write *)
| GatewayError.     (* [sendNotification] rejects *)

Inductive Outcome (A : Type) :=
| Returned (a : A)
| Thrown (e : JsError).
Arguments Returned {A} a.
Arguments Thrown {A} e.

(** [res.status(code).json({ success, message, data })] *)
Record Response (A : Type) := mkResponse {
  code : Z;
  success : bool;
  message : string;
  payload : option A
}.
Arguments mkResponse {A} _ _ _ _.
Arguments code {A} _.
Arguments success {A} _.
Arguments message {A} _.
Arguments payload {A} _.

Definition reply {A} (c : Z) (ok : bool) (m : string) : Response A :=
  mkResponse c ok m None.

(** The clock and the process environment of one request. *)
Record Env := mkEnv {
  now : Date;
  MAX_LOGIN_ATTEMPTS : option Z;   (* [parseInt(process.env.MAX_LOGIN_ATTEMPTS)] *)
  LOCKOUT_TIME : option Z          (* [parseInt(process.env.LOCKOUT_TIME)] *)
}.

Class Bcrypt := {
  bcrypt_compare : string -> string -> bool   (* candidate, stored hash *)
}.

Class Externals := {
  isEmail : string -> bool;
  normalizeEmail : string -> string;
  isMobilePhone : string -> bool;
  parseDate : string -> option Date;          (* [isISO8601] and [new Date(s)] *)
  RegExp_test : string -> string -> bool      (* pattern, subject *)
}.

(** ** models/User.js *)

Module User.

Record t := mk {
  _id : ObjectId;
  name : string;
  email : string;
  password : string;               (* the bcrypt hash *)
  role : Role;
  managerId : option ObjectId;
  isActive : bool;
  lastLogin : option Date;
  loginAttempts : option Z;        (* [None]: path absent from the stored document *)
  lockUntil : option Date;         (* [None]: absent or [null] *)
  fcmToken : option string;
  phoneNumber : option string;
  department : option string
}.

(** Reading [this.loginAttempts] on a hydrated document: Mongoose fills
    in the schema default [0] where the stored document lacks the path. *)
Definition get_loginAttempts (u : t) : Z := default 0 (loginAttempts u).

Definition set_lockout (a : option Z) (l : option Date) (u : t) : t :=
  mk (_id u) (name u) (email u) (password u) (role u) (managerId u)
     (isActive u) (lastLogin u) a l (fcmToken u) (phoneNumber u)
     (department u).

Definition set_session (ll : option Date) (tok : option string) (u : t) : t :=
  mk (_id u) (name u) (email u) (password u) (role u) (managerId u)
     (isActive u) ll (loginAttempts u) (lockUntil u) tok (phoneNumber u)
     (department u).

Definition set_profile (n e : string) (r : Role) (act : bool)
    (ph dep : option string) (u : t) : t :=
  mk (_id u) n e (password u) r (managerId u) act (lastLogin u)
     (loginAttempts u) (lockUntil u) (fcmToken u) ph dep.

(** The [match] pattern of the [email] path. *)
Definition email_pattern : string :=
  "^\w+([.-]?\w+)*@\w+([.-]?\w+)*(\.\w{2,3})+$".

(** [userSchema.virtual('isLocked')] *)
Definition isLocked (env : Env) (u : t) : bool :=
  match lockUntil u with
  | Some l => now env <? l
  | None => false
  end.

(** [userSchema.methods.comparePassword] *)
Definition comparePassword `{Bcrypt} (u : t) (candidatePassword : string) : bool :=
  if String.eqb (password u) "" then false
  else bcrypt_compare candidatePassword (password u).

Definition maxAttempts (env : Env) : Z := parseInt_or (MAX_LOGIN_ATTEMPTS env) 5.
Definition lockoutTime (env : Env) : Z := parseInt_or (LOCKOUT_TIME env) 1800000.

(** The update document of [userSchema.methods.incLoginAttempts], as the
    function it applies to the stored document.  [this] is the document
    the handler loaded. *)
Definition incLoginAttempts (env : Env) (this : t) : t -> t :=
  if match lockUntil this with Some l => l <? now env | None => false end
  then
    (* { $unset: { lockUntil: 1 }, $set: { loginAttempts: 1 } } *)
    fun d => set_lockout (Some 1) None d
  else if (maxAttempts env <=? get_loginAttempts this + 1)
          && negb (isLocked env this)
  then
    (* { $inc: { loginAttempts: 1 }, $set: { lockUntil: now + lockoutTime } } *)
    fun d => set_lockout (Some (get_loginAttempts d + 1))
                         (Some (now env + lockoutTime env)) d
  else
    (* { $inc: { loginAttempts: 1 } } *)
    fun d => set_lockout (Some (get_loginAttempts d + 1)) (lockUntil d) d.

(** [userSchema.methods.resetLoginAttempts]:
    [{ $unset: { loginAttempts: 1, lockUntil: 1 } }] *)
Definition resetLoginAttempts : t -> t := set_lockout None None.

End User.

(** ** models/Task.js *)

Module StatusChange.
(** An element of [statusHistory]. *)
Record t := mk {
  status : Status;
  changedBy : ObjectId;
  changedAt : Date;
  comment : option string
}.
End StatusChange.

Module Task.

Record t := mk {
  _id : ObjectId;
  title : string;
  description : string;
  priority : string;
  status : Status;
  assignedBy : ObjectId;
  assignedTo : ObjectId;
  deadline : Date;
  completedAt : option Date;
  approvedAt : option Date;
  approvedBy : option ObjectId;
  estimatedHours : option Z;
  actualHours : option Z;
  statusHistory : list StatusChange.t;
  rejectionReason : option string
}.

Definition set_status (s : Status) (d : t) : t :=
  mk (_id d) (title d) (description d) (priority d) s (assignedBy d)
     (assignedTo d) (deadline d) (completedAt d) (approvedAt d)
     (approvedBy d) (estimatedHours d) (actualHours d) (statusHistory d)
     (rejectionReason d).

Definition set_completedAt (c : option Date) (d : t) : t :=
  mk (_id d) (title d) (description d) (priority d) (status d) (assignedBy d)
     (assignedTo d) (deadline d) c (approvedAt d)
     (approvedBy d) (estimatedHours d) (actualHours d) (statusHistory d)
     (rejectionReason d).

Definition set_approval (a : option Date) (by_ : option ObjectId) (d : t) : t :=
  mk (_id d) (title d) (description d) (priority d) (status d) (assignedBy d)
     (assignedTo d) (deadline d) (completedAt d) a
     by_ (estimatedHours d) (actualHours d) (statusHistory d)
     (rejectionReason d).

Definition set_statusHistory (h : list StatusChange.t) (d : t) : t :=
  mk (_id d) (title d) (description d) (priority d) (status d) (assignedBy d)
     (assignedTo d) (deadline d) (completedAt d) (approvedAt d)
     (approvedBy d) (estimatedHours d) (actualHours d) h
     (rejectionReason d).

Definition set_rejectionReason (r : option string) (d : t) : t :=
  mk (_id d) (title d) (description d) (priority d) (status d) (assignedBy d)
     (assignedTo d) (deadline d) (completedAt d) (approvedAt d)
     (approvedBy d) (estimatedHours d) (actualHours d) (statusHistory d) r.

Definition set_text (ti de pr : string) (d : t) : t :=
  mk (_id d) ti de pr (status d) (assignedBy d)
     (assignedTo d) (deadline d) (completedAt d) (approvedAt d)
     (approvedBy d) (estimatedHours d) (actualHours d) (statusHistory d)
     (rejectionReason d).

Definition set_deadline (dl : Date) (d : t) : t :=
  mk (_id d) (title d) (description d) (priority d) (status d) (assignedBy d)
     (assignedTo d) dl (completedAt d) (approvedAt d)
     (approvedBy d) (estimatedHours d) (actualHours d) (statusHistory d)
     (rejectionReason d).

Definition set_hours (e a : option Z) (d : t) : t :=
  mk (_id d) (title d) (description d) (priority d) (status d) (assignedBy d)
     (assignedTo d) (deadline d) (completedAt d) (approvedAt d)
     (approvedBy d) e a (statusHistory d)
     (rejectionReason d).

(** A document in memory between [findById] and [save]: the fields as
    assigned so far, the status it was loaded with (what
    [isModified('status')] compares against) and the two transient
    properties [updateStatus] leaves for the hook. *)
Record doc := mkdoc {
  fields : t;
  loaded_status : Status;
  _statusChangedBy : option ObjectId;
  _statusChangeComment : option string
}.

Definition load (d : t) : doc := mkdoc d (status d) None None.

Definition isModified_status (this : doc) : bool :=
  negb (bool_decide (status (fields this) = loaded_status this)).

(** [taskSchema.pre('save')] on a document that is not new. *)
Definition pre_save (env : Env) (this : doc) : t :=
  let d := fields this in
  let d :=
    if isModified_status this then
      set_statusHistory
        (statusHistory d ++
           [StatusChange.mk (status d)
              (default (assignedBy d) (_statusChangedBy this))
              (now env)
              (if truthy (_statusChangeComment this)
               then _statusChangeComment this else None)])
        d
    else d in
  let d :=
    if isModified_status this
       && bool_decide (status d = completed)
       && negb (bool_decide (is_Some (completedAt d)))
    then set_completedAt (Some (now env)) d
    else d in
  let d :=
    if isModified_status this
       && bool_decide (status d = approved)
       && negb (bool_decide (is_Some (approvedAt d)))
    then set_approval (Some (now env)) (approvedBy d) d
    else d in
  d.

(** [taskSchema.methods.updateStatus], up to the [save()] it ends
    with: the fields the hook hands to the driver. *)
Definition updateStatus (env : Env) (this : doc) (newStatus : Status)
    (changedBy : ObjectId) (comment : option string) : t :=
  let this :=
    mkdoc (set_status newStatus (fields this)) (loaded_status this)
          (Some changedBy) comment in
  let this :=
    if bool_decide (newStatus = approved)
    then mkdoc (set_approval (Some (now env)) (Some changedBy) (fields this))
               (loaded_status this) (_statusChangedBy this)
               (_statusChangeComment this)
    else this in
  pre_save env this.

End Task.

(** ** A fragment of the MongoDB query language *)

Module Query.

Inductive Value :=
| VNull
| VBool (b : bool)
| VStr (s : string)
| VDate (d : Date).

Inductive Cond :=
| Eq (v : Value)                (* { path: v } *)
| In_ (vs : list Value)         (* { path: { $in: vs } } *)
| Nin (vs : list Value)         (* { path: { $nin: vs } } *)
| Gte (v : Value)               (* { path: { $gte: v } } *)
| Lt (v : Value).               (* { path: { $lt: v } } *)

(** A filter object: its keys are conjoined ([All]); [$or] takes a list
    of filter objects. *)
#[local] Unset Elimination Schemes.
Inductive t :=
| Field (path : string) (c : Cond)
| Or (qs : list t)
| All (qs : list t).
#[local] Set Elimination Schemes.

Definition value_eqb (a b : Value) : bool :=
  match a, b with
  | VNull, VNull => true
  | VBool x, VBool y => Bool.eqb x y
  | VStr x, VStr y => String.eqb x y
  | VDate x, VDate y => x =? y
  | _, _ => false
  end.

Definition holds (c : Cond) (v : Value) : bool :=
  match c with
  | Eq w => value_eqb v w
  | In_ ws => existsb (value_eqb v) ws
  | Nin ws => negb (existsb (value_eqb v) ws)
  | Gte w => match v, w with VDate x, VDate y => y <=? x | _, _ => false end
  | Lt w => match v, w with VDate x, VDate y => x <? y | _, _ => false end
  end.

(** [doc] reads a path of the document under test. *)
Fixpoint matches (doc : string -> Value) (q : t) : bool :=
  match q with
  | Field path c => holds c (doc path)
  | Or qs => existsb (matches doc) qs
  | All qs => forallb (matches doc) qs
  end.

End Query.

(** ** models/AuditLog.js *)

Inductive Mixed :=
| MNull
| MStr (s : string)
| MNum (n : Z)
| MDate (d : Date)               (* a date or its [toISOString()] *)
| MList (l : list string).

Module AuditLog.

Record t := mk {
  user : option ObjectId;
  action : string;
  resource : string;
  resourceId : option ObjectId;
  details : list (string * Mixed);
  ipAddress : option string;
  userAgent : option string;
  success : bool;
  severity : Severity;
  category : Category;
  createdAt : Date
}.

(** The object a caller hands to [logAction]; an absent key is [None]. *)
Record logData := mkData {
  d_user : option ObjectId;
  d_action : string;
  d_resource : string;
  d_resourceId : option ObjectId;
  d_details : list (string * Mixed);
  d_ipAddress : option string;
  d_userAgent : option string;
  d_success : option bool;
  d_severity : option Severity;
  d_category : option Category
}.

Definition action_enum : list string :=
  [ "login"; "logout"; "failed_login"; "password_change"; "user_created";
    "user_updated"; "user_deleted"; "task_created"; "task_updated";
    "task_deleted"; "task_assigned"; "task_completed"; "task_approved";
    "task_rejected"; "comment_added"; "attachment_uploaded";
    "notification_sent"; "report_generated"; "role_changed";
    "team_updated"; "settings_changed"; "data_export"; "system_access" ].

Definition resource_enum : list string :=
  [ "user"; "task"; "notification"; "report"; "system"; "auth" ].

(** [new this(logData)]: schema defaults and the [timestamps] option. *)
Definition construct (env : Env) (l : logData) : t :=
  mk (d_user l) (d_action l) (d_resource l) (d_resourceId l) (d_details l)
     (d_ipAddress l) (d_userAgent l)
     (default true (d_success l))
     (default low (d_severity l))
     (default user_action (d_category l))
     (now env).

(** The schema's validators: [user], [resource] and [ipAddress] are
    [required], [action] is required and, like [resource], an enum. *)
Definition validate (a : t) : bool :=
  bool_decide (is_Some (user a))
  && includes action_enum (action a)
  && includes resource_enum (resource a)
  && truthy (ipAddress a).

(** [auditLog.save()]; [write_fails] tells whether the driver rejects
    the write of an entry that passed validation. *)
Definition save (write_fails : t -> bool) (a : t) (coll : list t)
    : Outcome unit * list t :=
  if negb (validate a) then (Thrown ValidationError, coll)
  else if write_fails a then (Thrown StorageError, coll)
  else (Returned tt, coll ++ [a]).

(** [auditLogSchema.statics.logAction] *)
Definition logAction (write_fails : t -> bool) (env : Env) (l : logData)
    (coll : list t) : Outcome (option t) * list t :=
  let auditLog := construct env l in
  match save write_fails auditLog coll with
  | (Returned _, coll') => (Returned (Some auditLog), coll')
  | (Thrown _, coll') => (Returned None, coll')
  end.

(** Reading a path of a stored entry, for [Query.matches]. *)
Definition get (a : t) (path : string) : Query.Value :=
  if String.eqb path "user" then
    match user a with Some u => Query.VStr u | None => Query.VNull end
  else if String.eqb path "action" then Query.VStr (action a)
  else if String.eqb path "resource" then Query.VStr (resource a)
  else if String.eqb path "success" then Query.VBool (success a)
  else if String.eqb path "severity" then Query.VStr (severity_name (severity a))
  else if String.eqb path "category" then Query.VStr (category_name (category a))
  else if String.eqb path "createdAt" then Query.VDate (createdAt a)
  else Query.VNull.

Definition find (q : Query.t) (coll : list t) : list t :=
  List.filter (fun a => Query.matches (get a) q) coll.

Definition countDocuments (q : Query.t) (coll : list t) : Z :=
  Z.of_nat (length (find q coll)).

(** [deleteMany(q)]: the collection left and [deletedCount]. *)
Definition deleteMany (q : Query.t) (coll : list t) : list t * Z :=
  (List.filter (fun a => negb (Query.matches (get a) q)) coll,
   countDocuments q coll).

(** [.sort({ createdAt: -1 })]: newest first; entries of one instant
    keep their insertion order. *)
Fixpoint insert_desc (a : t) (l : list t) : list t :=
  match l with
  | [] => [a]
  | b :: l' => if createdAt b <? createdAt a then a :: l
               else b :: insert_desc a l'
  end.

Definition sort_desc (l : list t) : list t := foldr insert_desc [] l.

Definition skip_limit (skip limit : Z) (l : list t) : list t :=
  take (Z.to_nat limit) (drop (Z.to_nat skip) l).


End AuditLog.

(** ** The database and the handler monad *)

Record DB := mkDB {
  users : list User.t;
  tasks : list Task.t;
  auditlogs : list AuditLog.t
}.

Definition M (A : Type) : Type := DB -> Outcome A * DB.

Definition ret {A} (a : A) : M A := fun db => (Returned a, db).

Definition throw {A} (e : JsError) : M A := fun db => (Thrown e, db).

Definition bind {A B} (m : M A) (k : A -> M B) : M B :=
  fun db =>
    match m db with
    | (Returned a, db') => k a db'
    | (Thrown e, db') => (Thrown e, db')
    end.

Notation "'let*' x ':=' m 'in' k" := (bind m (fun x => k))
  (at level 10, x name, m at level 100, k at level 200).
Notation "'do*' m 'in' k" := (bind m (fun _ => k))
  (at level 10, m at level 100, k at level 200).

(** [try { body } catch (error) { handler }] *)
Definition try_catch {A} (body : M A) (handler : JsError -> A) : DB -> A * DB :=
  fun db =>
    match body db with
    | (Returned a, db') => (a, db')
    | (Thrown e, db') => (handler e, db')
    end.

(** What the notification gateway does with one [sendNotification]. *)
Inductive Gateway :=
| Quiet       (* returns early: Firebase not configured, no FCM token,
                 or the user disabled the notification type *)
| Delivered (messageId : string)   (* [admin.messaging().send] resolved *)
| Raises.     (* an exception inside the [try] block *)

Record World := mkWorld {
  env :> Env;
  audit_write_fails : AuditLog.t -> bool;
  gateway : Gateway
}.

(** [await AuditLog.logAction(logData)] inside a handler *)
Definition logAction (w : World) (l : AuditLog.logData) : M (option AuditLog.t) :=
  fun db =>
    let '(r, coll) := AuditLog.logAction (audit_write_fails w) w l (auditlogs db) in
    (r, mkDB (users db) (tasks db) coll).

(** [sendNotification(options)] of [utils/notifications.js], seen from
    the calling handler.  A delivery is followed by a [notification_sent]
    audit entry.  The [catch] block of the function reads [userId], a
    [const] of the [try] block, so an exception leaves it as a rejection. *)
Definition sendNotification (w : World) (userId : ObjectId) (title type : string)
    : M unit :=
  match gateway w with
  | Quiet => ret tt
  | Delivered messageId =>
      do* logAction w
            (AuditLog.mkData (Some userId) "notification_sent" "notification"
               None
               [("title", MStr title); ("type", MStr type);
                ("messageId", MStr messageId)]
               (Some "127.0.0.1") (Some "Firebase Admin SDK")
               None None (Some system)) in
      ret tt
  | Raises => throw GatewayError
  end.

(** *** Collection primitives *)

Fixpoint update_first {A} (p : A -> bool) (f : A -> A) (l : list A) : list A :=
  match l with
  | [] => []
  | a :: l' => if p a then f a :: l' else a :: update_first p f l'
  end.

Definition has_id (id : ObjectId) (u : User.t) : bool := String.eqb (User._id u) id.

(** [User.findById(id)] *)
Definition User_findById (id : ObjectId) : M (option User.t) :=
  fun db => (Returned (List.find (has_id id) (users db)), db).

(** [User.findOne({ email })] *)
Definition User_findOne_email (email : string) : M (option User.t) :=
  fun db =>
    (Returned (List.find (fun u => String.eqb (User.email u) email) (users db)), db).

(** [doc.updateOne(update)] and [doc.save()] of a user document: the
    update is applied to the stored document with the same [_id]. *)
Definition User_updateOne (id : ObjectId) (update : User.t -> User.t) : M unit :=
  fun db =>
    (Returned tt,
     mkDB (update_first (has_id id) update (users db)) (tasks db) (auditlogs db)).

Definition task_has_id (id : ObjectId) (t : Task.t) : bool := String.eqb (Task._id t) id.

(** [Task.findById(id)] *)
Definition Task_findById (id : ObjectId) : M (option Task.t) :=
  fun db => (Returned (List.find (task_has_id id) (tasks db)), db).

(** The write that ends [task.save()]. *)
Definition Task_store (t : Task.t) : M unit :=
  fun db =>
    (Returned tt,
     mkDB (users db)
          (update_first (task_has_id (Task._id t)) (fun _ => t) (tasks db))
          (auditlogs db)).

(** A referenced user as [populate(path, select)] attaches it: [_id] and
    the selected paths; a path that was not selected reads [undefined]. *)
Module Populated.
Record t := mk {
  _id : ObjectId;
  name : option string;
  email : option string;
  role : option Role;
  managerId : option ObjectId
}.
End Populated.

Definition project (select : list string) (u : User.t) : Populated.t :=
  Populated.mk (User._id u)
    (if includes select "name" then Some (User.name u) else None)
    (if includes select "email" then Some (User.email u) else None)
    (if includes select "role" then Some (User.role u) else None)
    (if includes select "managerId" then User.managerId u else None).

(** [.populate(path, select)]; a dangling reference populates to [null]. *)
Definition populate (select : list string) (ref : ObjectId) : M (option Populated.t) :=
  fun db => (Returned (project select <$> List.find (has_id ref) (users db)), db).

(** Reading a property of a value that may be [null]. *)
Definition deref {A} (o : option A) : M A :=
  match o with
  | Some a => ret a
  | None => throw TypeError
  end.

(** What a handler reads of the request besides its body. *)
Record Request := mkRequest {
  user : User.t;                    (* [req.user], set by [authenticate] *)
  ip : option string;               (* [req.ip || req.connection.remoteAddress] *)
  userAgent : option string;        (* [req.get('User-Agent')] *)
  query_userId : option string;     (* [req.query.userId] *)
  originalUrl : string;
  method : string
}.

(** ** routes/auth.js: POST /api/auth/login *)

Module Auth.

Record loginBody := mkBody {
  email : string;
  password : string;
  fcmToken : option string
}.

Definition failed_login (ip ua : option string) (u : option ObjectId)
    (email reason : string) (sev : Severity) : AuditLog.logData :=
  AuditLog.mkData u "failed_login" "auth" None
    [("email", MStr email); ("reason", MStr reason)]
    ip ua (Some false) (Some sev) (Some security).

Definition login `{Externals} `{Bcrypt} (w : World) (ip ua : option string)
    (body : loginBody) : DB -> Response ObjectId * DB :=
  try_catch
    (if negb (isEmail (email body)) || String.eqb (password body) ""
     then ret (reply 400 false "Validation failed")
     else
       let email := normalizeEmail (email body) in
       let password := password body in
       let* user := User_findOne_email email in
       match user with
       | None =>
           do* logAction w (failed_login ip ua None email "user_not_found" medium) in
           ret (reply 401 false "Invalid credentials")
       | Some user =>
           if User.isLocked w user then
             do* logAction w
                   (failed_login ip ua (Some (User._id user)) email
                      "account_locked" high) in
             ret (reply 423 false
                    "Account is temporarily locked due to multiple failed login attempts")
           else if negb (User.isActive user) then
             do* logAction w
                   (failed_login ip ua (Some (User._id user)) email
                      "account_inactive" medium) in
             ret (reply 401 false "Account is deactivated")
           else if negb (User.comparePassword user password) then
             do* User_updateOne (User._id user) (User.incLoginAttempts w user) in
             do* logAction w
                   (failed_login ip ua (Some (User._id user)) email
                      "invalid_password" medium) in
             ret (reply 401 false "Invalid credentials")
           else
             do* (if 0 <? User.get_loginAttempts user
                  then User_updateOne (User._id user) User.resetLoginAttempts
                  else ret tt) in
             (* user.lastLogin = new Date(); if (fcmToken) ...; user.save() *)
             do* User_updateOne (User._id user)
                   (fun d => User.set_session (Some (now w))
                               (if truthy (fcmToken body) then fcmToken body
                                else User.fcmToken d) d) in
             do* logAction w
                   (AuditLog.mkData (Some (User._id user)) "login" "auth" None
                      [("email", MStr email)] ip ua None None (Some security)) in
             ret (mkResponse 200 true "Login successful" (Some (User._id user)))
       end)
    (fun _ => reply 500 false "Login failed").

End Auth.

(** ** routes/tasks.js *)

Module TaskRoutes.

Definition same_id (a b : ObjectId) : bool := String.eqb a b.

(** [task.assignedTo.managerId?.toString() === req.user._id.toString()] *)
Definition managed_by (assignedTo : Populated.t) (user : User.t) : bool :=
  match Populated.managerId assignedTo with
  | Some m => same_id m (User._id user)
  | None => false
  end.

Definition is_role (r : Role) (user : User.t) : bool :=
  bool_decide (User.role user = r).

Definition selected : list string := ["name"; "email"; "role"].

(** *** PUT /api/tasks/:id/status *)

Record statusBody := mkStatusBody {
  status : string;
  comment : option string;
  rejectionReason : option string
}.

(** [.optional().trim().isLength({ max })] on a field that is a string
    when present: the sanitized value, or [None] when it is too long. *)
Definition optional_trim_max (max : nat) (v : option string)
    : option (option string) :=
  match v with
  | None => Some None
  | Some s =>
      if (String.length (trim s) <=? max)%nat then Some (Some (trim s)) else None
  end.

(** The permission branch of the handler. *)
Definition hasPermission (user : User.t) (status : Status)
    (assignedBy assignedTo : option Populated.t) : M bool :=
  match status with
  | in_progress | completed =>
      let* a := deref assignedTo in
      ret (same_id (Populated._id a) (User._id user))
  | approved | rejected =>
      if is_role super_admin user then ret true
      else
        let* b := deref assignedBy in
        if same_id (Populated._id b) (User._id user) then ret true
        else if is_role manager user then
          let* a := deref assignedTo in
          ret (managed_by a user)
        else ret false
  | pending =>
      if is_role super_admin user then ret true
      else
        let* b := deref assignedBy in
        if same_id (Populated._id b) (User._id user) then ret true
        else
          let* a := deref assignedTo in
          if same_id (Populated._id a) (User._id user) then ret true
          else if is_role manager user then ret (managed_by a user)
          else ret false
  end.

(** The [switch (status)] that notifies the counterpart. *)
Definition notify (w : World) (status : Status)
    (assignedBy assignedTo : option Populated.t) : M unit :=
  match status with
  | in_progress =>
      let* b := deref assignedBy in
      sendNotification w (Populated._id b) "Task Started" "task_started"
  | completed =>
      let* b := deref assignedBy in
      sendNotification w (Populated._id b) "Task Completed" "task_completed"
  | approved =>
      let* a := deref assignedTo in
      sendNotification w (Populated._id a) "Task Approved" "task_approved"
  | rejected =>
      let* a := deref assignedTo in
      sendNotification w (Populated._id a) "Task Rejected" "task_rejected"
  | pending => ret tt
  end.

(** [task.statusHistory[task.statusHistory.length - 2]?.status || 'pending'] *)
Definition previousStatus (t : Task.t) : Status :=
  let h := Task.statusHistory t in
  match (2 <=? length h)%nat, h !! (length h - 2)%nat with
  | true, Some e => StatusChange.status e
  | _, _ => pending
  end.

Definition update_status (w : World) (req : Request) (taskId : ObjectId)
    (body : statusBody) : DB -> Response Task.t * DB :=
  try_catch
    (match status_of_string (status body),
           optional_trim_max 200 (comment body),
           optional_trim_max 500 (rejectionReason body) with
     | Some status, Some comment, Some rejectionReason =>
         let* found := Task_findById taskId in
         match found with
         | None => ret (reply 404 false "Task not found")
         | Some stored =>
             let* assignedBy := populate selected (Task.assignedBy stored) in
             let* assignedTo := populate selected (Task.assignedTo stored) in
             let* permitted := hasPermission (user req) status assignedBy assignedTo in
             if negb permitted then
               ret (reply 403 false
                      "You do not have permission to change this task status")
             else
               let task := Task.load stored in
               let task :=
                 if bool_decide (status = rejected) && truthy rejectionReason
                 then Task.mkdoc
                        (Task.set_rejectionReason rejectionReason (Task.fields task))
                        (Task.loaded_status task) (Task._statusChangedBy task)
                        (Task._statusChangeComment task)
                 else task in
               let saved :=
                 Task.updateStatus w task status (User._id (user req)) comment in
               do* Task_store saved in
               do* notify w status assignedBy assignedTo in
               do* logAction w
                     (AuditLog.mkData (Some (User._id (user req)))
                        ("task_" +:+ status_name status) "task"
                        (Some (Task._id saved))
                        [("taskTitle", MStr (Task.title saved));
                         ("previousStatus", MStr (status_name (previousStatus saved)));
                         ("newStatus", MStr (status_name status));
                         ("comment", match comment with
                                     | Some c => MStr c
                                     | None => MNull
                                     end)]
                        (ip req) (userAgent req) None None (Some data)) in
               ret (mkResponse 200 true
                      ("Task " +:+ status_name status +:+ " successfully")
                      (Some saved))
         end
     | _, _, _ => ret (reply 400 false "Validation failed")
     end)
    (fun _ => reply 500 false "Failed to update task status").

(** *** PUT /api/tasks/:id *)

(** One [body(key).optional()...] chain: an absent key passes; a
    present value is checked and replaced by its sanitized form. *)
Definition check_key (key : string) (check : JVal -> option JVal)
    (body : option (gmap string JVal)) : option (gmap string JVal) :=
  match body with
  | None => None
  | Some b =>
      match b !! key with
      | None => Some b
      | Some v =>
          match check v with
          | Some v' => Some (<[key := v']> b)
          | None => None
          end
      end
  end.

(** [.trim().isLength({ min, max })] *)
Definition trimmed_length (min max : nat) (v : JVal) : option JVal :=
  match v with
  | JStr s =>
      if ((min <=? String.length (trim s)) && (String.length (trim s) <=? max))%nat
      then Some (JStr (trim s)) else None
  | _ => None
  end.

Definition isISO8601 `{Externals} (v : JVal) : option JVal :=
  match v with
  | JStr s => if bool_decide (is_Some (parseDate s)) then Some v else None
  | _ => None
  end.

Definition isIn (allowed : list string) (v : JVal) : option JVal :=
  match v with
  | JStr s => if includes allowed s then Some v else None
  | _ => None
  end.

(** [.isFloat({ min: 0 })] *)
Definition isFloat_min0 (v : JVal) : option JVal :=
  match v with
  | JNum n => if 0 <=? n then Some v else None
  | _ => None
  end.

Definition isArray (v : JVal) : option JVal :=
  match v with
  | JOther => Some v
  | _ => None
  end.

(** The validator chains of the route; [None] is the 400 answer. *)
Definition validate_update `{Externals} (body : gmap string JVal)
    : option (gmap string JVal) :=
  check_key "tags" isArray
    (check_key "actualHours" isFloat_min0
       (check_key "estimatedHours" isFloat_min0
          (check_key "priority" (isIn ["low"; "medium"; "high"; "urgent"])
             (check_key "deadline" isISO8601
                (check_key "description" (trimmed_length 10 1000)
                   (check_key "title" (trimmed_length 3 100) (Some body))))))).

(** [canEdit] *)
Definition canEdit (user : User.t) (assignedBy assignedTo : option Populated.t)
    : M bool :=
  if is_role super_admin user then ret true
  else
    let* b := deref assignedBy in
    if same_id (Populated._id b) (User._id user) then ret true
    else if is_role manager user then
      let* a := deref assignedTo in
      ret (managed_by a user)
    else ret false.

(** [updateKeys.some(key => !allowedFields.includes(key))] *)
Definition hasUnauthorizedFields (allowedFields : list string)
    (updates : gmap string JVal) : bool :=
  existsb (fun key => negb (includes allowedFields key)) (Object_keys updates).

(** Casting a JSON value to a [Date] path. *)
Definition cast_date `{Externals} (v : JVal) : option (option Date) :=
  match v with
  | JNull => Some None
  | JStr s => match parseDate s with Some d => Some (Some d) | None => None end
  | JNum n => Some (Some n)
  | _ => None
  end.

Definition assign_key (updates : gmap string JVal) (key : string)
    (set : JVal -> Task.t -> option Task.t) (d : option Task.t) : option Task.t :=
  match d, updates !! key with
  | Some d, Some v => set v d
  | _, _ => d
  end.

(** [Object.keys(updates).forEach(key => { task[key] = updates[key]; })],
    for the keys the route validates and for [status], [completedAt]
    and [approvedAt]; the source assigns every other key of the body in
    the same way, which is not modelled.  [None]: a value that Mongoose
    cannot cast or that the schema rejects, which [save()] reports. *)
Definition assign `{Externals} (updates : gmap string JVal) (d : Task.t)
    : option Task.t :=
  assign_key updates "approvedAt"
    (fun v d => a ← cast_date v; Some (Task.set_approval a (Task.approvedBy d) d))
  (assign_key updates "completedAt"
    (fun v d => c ← cast_date v; Some (Task.set_completedAt c d))
  (assign_key updates "status"
    (fun v d => match v with
                | JStr s => st ← status_of_string s; Some (Task.set_status st d)
                | _ => None
                end)
  (assign_key updates "actualHours"
    (fun v d => match v with
                | JNum n => Some (Task.set_hours (Task.estimatedHours d) (Some n) d)
                | _ => None
                end)
  (assign_key updates "estimatedHours"
    (fun v d => match v with
                | JNum n => Some (Task.set_hours (Some n) (Task.actualHours d) d)
                | _ => None
                end)
  (assign_key updates "priority"
    (fun v d => match v with
                | JStr s => Some (Task.set_text (Task.title d) (Task.description d) s d)
                | _ => None
                end)
  (assign_key updates "deadline"
    (fun v d => match v with
                | JStr s => dl ← parseDate s; Some (Task.set_deadline dl d)
                | _ => None
                end)
  (assign_key updates "description"
    (fun v d => match v with
                | JStr s => Some (Task.set_text (Task.title d) s (Task.priority d) d)
                | _ => None
                end)
  (assign_key updates "title"
    (fun v d => match v with
                | JStr s => Some (Task.set_text s (Task.description d) (Task.priority d) d)
                | _ => None
                end)
    (Some d))))))))).

(** [updates.deadline && new Date(updates.deadline) <= new Date()] *)
Definition deadline_not_future `{Externals} (w : World) (updates : gmap string JVal)
    : bool :=
  match updates !! "deadline" with
  | Some (JStr s) =>
      match parseDate s with
      | Some d => d <=? now w
      | None => false
      end
  | _ => false
  end.

Definition update_task `{Externals} (w : World) (req : Request) (taskId : ObjectId)
    (body : gmap string JVal) : DB -> Response Task.t * DB :=
  try_catch
    (match validate_update body with
     | None => ret (reply 400 false "Validation failed")
     | Some updates =>
         let* found := Task_findById taskId in
         match found with
         | None => ret (reply 404 false "Task not found")
         | Some stored =>
             let* assignedBy := populate selected (Task.assignedBy stored) in
             let* assignedTo := populate selected (Task.assignedTo stored) in
             let* editable := canEdit (user req) assignedBy assignedTo in
             if negb editable then
               ret (reply 403 false "You do not have permission to edit this task")
             else
               let* own :=
                 (if is_role employee (user req) then
                    let* a := deref assignedTo in
                    ret (same_id (Populated._id a) (User._id (user req)))
                  else ret false) in
               if own && hasUnauthorizedFields ["actualHours"] updates then
                 ret (reply 403 false "Employees can only update actual hours")
               else if deadline_not_future w updates then
                 ret (reply 400 false "Deadline must be in the future")
               else
                 match assign updates stored with
                 | None => throw ValidationError
                 | Some assigned =>
                     let saved :=
                       Task.pre_save w
                         (Task.mkdoc assigned (Task.status stored) None None) in
                     do* Task_store saved in
                     do* logAction w
                           (AuditLog.mkData (Some (User._id (user req)))
                              "task_updated" "task" (Some (Task._id saved))
                              [("updatedFields", MList (Object_keys updates));
                               ("taskTitle", MStr (Task.title saved))]
                              (ip req) (userAgent req) None None (Some data)) in
                     ret (mkResponse 200 true "Task updated successfully" (Some saved))
                 end
         end
     end)
    (fun _ => reply 500 false "Failed to update task").

End TaskRoutes.

(** ** middleware/auth.js *)

(** [authorize(...roles)]: [true] stands for [next()], [false] for the
    403 answer. *)
Definition authorize (w : World) (req : Request) (roles : list Role) : M bool :=
  if bool_decide (User.role (user req) ∈ roles) then ret true
  else
    do* logAction w
          (AuditLog.mkData (Some (User._id (user req))) "system_access" "system"
             None
             [("attempted_role", MList (role_name <$> roles));
              ("user_role", MStr (role_name (User.role (user req))));
              ("endpoint", MStr (originalUrl req));
              ("method", MStr (method req))]
             (ip req) (userAgent req) (Some false) (Some medium) (Some security)) in
    ret false.

(** Truthiness of a JSON value and its use as an id. *)
Definition js_truthy (v : JVal) : bool :=
  match v with
  | JNull => false
  | JBool b => b
  | JNum n => negb (n =? 0)
  | JStr s => negb (String.eqb s "")
  | JOther => true
  end.

(** [authorizeTeamAccess] on a route whose parameter is [:id], so that
    [req.params.userId] is [undefined]: [None] stands for [next()]. *)
Definition authorizeTeamAccess {A} (req : Request) (body : gmap string JVal)
    : DB -> option (Response A) * DB :=
  try_catch
    (if bool_decide (User.role (user req) = super_admin) then ret None
     else
       (* req.params.userId || req.body.assignedTo || req.query.userId *)
       let* targetUserId :=
         match body !! "assignedTo" with
         | Some v =>
             if js_truthy v then
               match v with
               | JStr s => ret (Some s)
               | _ => throw ValidationError   (* not castable to an ObjectId *)
               end
             else ret (if truthy (query_userId req) then query_userId req else None)
         | None => ret (if truthy (query_userId req) then query_userId req else None)
         end in
       match User.role (user req), targetUserId with
       | manager, Some target =>
           let* targetUser := User_findById target in
           match targetUser with
           | None => ret (Some (reply 404 false "User not found."))
           | Some targetUser =>
               if negb (bool_decide (User.managerId targetUser = Some (User._id (user req))))
                  && negb (String.eqb target (User._id (user req)))
               then ret (Some (reply 403 false
                                 "Access denied. You can only access your team members data."))
               else ret None
           end
       | employee, Some target =>
           if negb (String.eqb target (User._id (user req)))
           then ret (Some (reply 403 false
                             "Access denied. You can only access your own data."))
           else ret None
       | _, _ => ret None
       end)
    (fun _ => Some (reply 500 false "Authorization failed.")).

(** ** routes/users.js: PUT /api/users/:id *)

Module UserRoutes.

Definition lower (c : ascii) : ascii :=
  let n := nat_of_ascii c in
  if ((65 <=? n) && (n <=? 90))%nat then ascii_of_nat (n + 32) else c.

(** The [lowercase: true] setter of a schema string. *)
Definition toLowerCase (s : string) : string :=
  string_of_list_ascii (lower <$> list_ascii_of_string s).

Definition isEmail_normalize `{Externals} (v : JVal) : option JVal :=
  match v with
  | JStr s => if isEmail s then Some (JStr (normalizeEmail s)) else None
  | _ => None
  end.

Definition isMobilePhone_ok `{Externals} (v : JVal) : option JVal :=
  match v with
  | JStr s => if isMobilePhone s then Some v else None
  | _ => None
  end.

(** validator.js [isBoolean] on the string form of the value. *)
Definition isBoolean (v : JVal) : option JVal :=
  match v with
  | JBool _ => Some v
  | JNum n => if (n =? 0) || (n =? 1) then Some v else None
  | JStr s => if includes ["true"; "false"; "1"; "0"] s then Some v else None
  | _ => None
  end.

(** The validator chains of the route; [None] is the 400 answer. *)
Definition validate_update `{Externals} (body : gmap string JVal)
    : option (gmap string JVal) :=
  TaskRoutes.check_key "isActive" isBoolean
    (TaskRoutes.check_key "phoneNumber" isMobilePhone_ok
       (TaskRoutes.check_key "department" (TaskRoutes.trimmed_length 0 50)
          (TaskRoutes.check_key "role"
             (TaskRoutes.isIn ["super_admin"; "manager"; "employee"])
             (TaskRoutes.check_key "email" isEmail_normalize
                (TaskRoutes.check_key "name" (TaskRoutes.trimmed_length 2 50)
                   (Some body)))))).

(** Mongoose's cast of a JSON value to a [Boolean] path. *)
Definition cast_bool (v : JVal) : option bool :=
  match v with
  | JBool b => Some b
  | JNum n => if n =? 1 then Some true else if n =? 0 then Some false else None
  | JStr s =>
      if includes ["true"; "1"; "yes"] s then Some true
      else if includes ["false"; "0"; "no"] s then Some false
      else None
  | _ => None
  end.

(** Cast of a JSON value to an optional [String] path. *)
Definition cast_string (v : JVal) : option (option string) :=
  match v with
  | JNull => Some None
  | JStr s => Some (Some s)
  | _ => None
  end.

(** [{ $set: updates }] under [runValidators], for the paths [name],
    [email], [role], [isActive], [phoneNumber] and [department]: the
    update as a function on the stored document, or [None] when a value
    cannot be cast or fails a schema validator.  Other paths of the
    schema are not modelled. *)
Definition cast_update `{Externals} (updates : gmap string JVal)
    : option (User.t -> User.t) :=
  name ← match updates !! "name" with
         | None => Some None
         | Some (JStr s) =>
             if negb (String.eqb (trim s) "")
                && (String.length (trim s) <=? 50)%nat
             then Some (Some (trim s)) else None
         | Some _ => None
         end;
  email ← match updates !! "email" with
          | None => Some None
          | Some (JStr s) =>
              if negb (String.eqb (trim (toLowerCase s)) "")
                 && RegExp_test User.email_pattern (trim (toLowerCase s))
              then Some (Some (trim (toLowerCase s))) else None
          | Some _ => None
          end;
  role ← match updates !! "role" with
         | None => Some None
         | Some (JStr s) => Some <$> role_of_string s
         | Some _ => None
         end;
  isActive ← match updates !! "isActive" with
             | None => Some None
             | Some v => Some <$> cast_bool v
             end;
  phoneNumber ← match updates !! "phoneNumber" with
                | None => Some None
                | Some v => Some <$> cast_string v
                end;
  department ← match updates !! "department" with
               | None => Some None
               | Some v => Some <$> cast_string v
               end;
  Some (fun d =>
          User.set_profile
            (default (User.name d) name)
            (default (User.email d) email)
            (default (User.role d) role)
            (default (User.isActive d) isActive)
            (default (User.phoneNumber d) phoneNumber)
            (default (User.department d) department)
            d).

(** [User.findOne({ email, _id: { $ne: userId } })] *)
Definition User_findOne_email_ne (email : string) (userId : ObjectId)
    : M (option User.t) :=
  fun db =>
    (Returned
       (List.find
          (fun u => String.eqb (User.email u) email && negb (has_id userId u))
          (users db)),
     db).

(** [User.findByIdAndUpdate(userId, { $set: updates },
    { new: true, runValidators: true })] *)
Definition User_findByIdAndUpdate `{Externals} (userId : ObjectId)
    (updates : gmap string JVal) : M (option User.t) :=
  match cast_update updates with
  | None => throw ValidationError
  | Some update =>
      let* found := User_findById userId in
      match found with
      | None => ret None
      | Some u =>
          do* User_updateOne userId update in
          ret (Some (update u))
      end
  end.

(** The route handler, after [authenticate] and [authorizeTeamAccess]. *)
Definition handler `{Externals} (w : World) (req : Request) (userId : ObjectId)
    (body : gmap string JVal) : DB -> Response User.t * DB :=
  try_catch
    (match validate_update body with
     | None => ret (reply 400 false "Validation failed")
     | Some updates =>
         let updates :=
           delete "twoFactorSecret"
             (delete "lockUntil"
                (delete "loginAttempts" (delete "password" updates))) in
         if bool_decide (User.role (user req) = employee)
            && (TaskRoutes.hasUnauthorizedFields
                  ["name"; "phoneNumber"; "notificationSettings"] updates
                || negb (String.eqb userId (User._id (user req))))
         then ret (reply 403 false
                     "Employees can only update their own basic information")
         else
           let updates :=
             if bool_decide (User.role (user req) = manager)
             then delete "isActive" (delete "role" updates)
             else updates in
           let* existingUser :=
             match updates !! "email" with
             | Some (JStr e) =>
                 if negb (String.eqb e "") then User_findOne_email_ne e userId
                 else ret None
             | _ => ret None
             end in
           match existingUser with
           | Some _ => ret (reply 400 false "Email already exists")
           | None =>
               let* updated := User_findByIdAndUpdate userId updates in
               match updated with
               | None => ret (reply 404 false "User not found")
               | Some updated =>
                   do* logAction w
                         (AuditLog.mkData (Some (User._id (user req)))
                            "user_updated" "user" (Some (User._id updated))
                            [("updatedFields", MList (Object_keys updates));
                             ("updatedBy", MStr (role_name (User.role (user req))))]
                            (ip req) (userAgent req) None None (Some data)) in
                   ret (mkResponse 200 true "User updated successfully"
                          (Some updated))
               end
           end
     end)
    (fun _ => reply 500 false "Failed to update user").


End UserRoutes.

(** ** routes/audit.js *)

Module AuditRoutes.

(** [.optional().isInt({ min, max })] *)
Definition optional_int (min max : Z) (v : option Z) : bool :=
  match v with
  | None => true
  | Some n => (min <=? n) && (n <=? max)
  end.

Definition optional_int_min (min : Z) (v : option Z) : bool :=
  match v with
  | None => true
  | Some n => min <=? n
  end.

Definition Audit_find (q : Query.t) : M (list AuditLog.t) :=
  fun db => (Returned (AuditLog.find q (auditlogs db)), db).

Definition Audit_countDocuments (q : Query.t) : M Z :=
  fun db => (Returned (AuditLog.countDocuments q (auditlogs db)), db).

Definition Audit_deleteMany (q : Query.t) : M Z :=
  fun db =>
    let '(remaining, deletedCount) := AuditLog.deleteMany q (auditlogs db) in
    (Returned deletedCount, mkDB (users db) (tasks db) remaining).

(** *** GET /api/audit/security *)

Definition security_filter (since : Date) : Query.t :=
  Query.All
    [ Query.Or
        [ Query.Field "category" (Query.Eq (Query.VStr "security"));
          Query.Field "action"
            (Query.In_ [ Query.VStr "login"; Query.VStr "logout";
                         Query.VStr "failed_login";
                         Query.VStr "password_change" ]);
          Query.Field "success" (Query.Eq (Query.VBool false));
          Query.Field "severity"
            (Query.In_ [ Query.VStr "high"; Query.VStr "critical" ]) ];
      Query.Field "createdAt" (Query.Gte (Query.VDate since)) ].

Record securityData := mkSecurityData {
  logs : list AuditLog.t;
  total : Z;
  current : Z;
  limit : Z
}.

(** The handler without the two aggregations ([summary],
    [failedLoginsByIP]) that do not feed [logs] and [total]. *)
Definition security (w : World) (req : Request) (page limit hours : option Z)
    : DB -> Response securityData * DB :=
  try_catch
    (let* authorized := authorize w req [super_admin] in
     if negb authorized then
       ret (reply 403 false "Access denied. Insufficient permissions.")
     else if negb (optional_int_min 1 page && optional_int 1 100 limit
                   && optional_int 1 168 hours)
     then ret (reply 400 false "Validation failed")
     else
       let page := parseInt_or page 1 in
       let limit := parseInt_or limit 50 in
       let skip := (page - 1) * limit in
       let hours := parseInt_or hours 24 in
       let since := now w - hours * 60 * 60 * 1000 in
       let* matching := Audit_find (security_filter since) in
       let securityLogs := AuditLog.skip_limit skip limit (AuditLog.sort_desc matching) in
       let* total := Audit_countDocuments (security_filter since) in
       do* logAction w
             (AuditLog.mkData (Some (User._id (user req))) "system_access" "system"
                None
                [("endpoint", MStr "security_audit");
                 ("timeframe", MStr (pretty hours +:+ " hours"));
                 ("totalResults", MNum total)]
                (ip req) (userAgent req) None None (Some security)) in
       ret (mkResponse 200 true ""
              (Some (mkSecurityData securityLogs total page limit))))
    (fun _ => reply 500 false "Failed to retrieve security logs").

(** *** DELETE /api/audit/logs/cleanup *)

Definition cleanup_filter (cutoffDate : Date) : Query.t :=
  Query.All
    [ Query.Field "createdAt" (Query.Lt (Query.VDate cutoffDate));
      Query.Field "severity"
        (Query.Nin [ Query.VStr "high"; Query.VStr "critical" ]) ].

Record cleanupData := mkCleanupData {
  logsDeleted : Z;
  cutoffDate : Date;
  retentionDays : Z
}.

Definition cleanup_entry (req : Request) (cutoffDate : Date) (deletedCount days : Z)
    : AuditLog.logData :=
  AuditLog.mkData (Some (User._id (user req)))
    "data_export" "system" None
    [("action", MStr "audit_log_cleanup");
     ("cutoffDate", MDate cutoffDate);
     ("logsDeleted", MNum deletedCount);
     ("retentionDays", MNum days)]
    (ip req) (userAgent req) None (Some medium) (Some system).

Definition cleanup (w : World) (req : Request) (days : option Z)
    : DB -> Response cleanupData * DB :=
  try_catch
    (let* authorized := authorize w req [super_admin] in
     if negb authorized then
       ret (reply 403 false "Access denied. Insufficient permissions.")
     else if negb (optional_int 30 365 days) then
       ret (reply 400 false "Validation failed")
     else
       let days := parseInt_or days 90 in
       let cutoffDate := now w - days * 24 * 60 * 60 * 1000 in
       let* logsToDelete := Audit_countDocuments (cleanup_filter cutoffDate) in
       let* deletedCount := Audit_deleteMany (cleanup_filter cutoffDate) in
       do* logAction w (cleanup_entry req cutoffDate deletedCount days) in
       ret (mkResponse 200 true "Audit log cleanup completed"
              (Some (mkCleanupData deletedCount cutoffDate days))))
    (fun _ => reply 500 false "Failed to cleanup audit logs").

End AuditRoutes.

(** ** Vocabulary of the properties *)

(** The four-way disjunction, in the spec's words. *)
Definition security_relevant (e : AuditLog.t) : bool :=
  bool_decide (AuditLog.category e = security)
  || bool_decide (AuditLog.action e ∈ ["login"; "logout"; "failed_login"; "password_change"])
  || negb (AuditLog.success e)
  || bool_decide (AuditLog.severity e = high)
  || bool_decide (AuditLog.severity e = critical).

(** What the retention cleanup may delete, in the spec's words: strictly
    older than the cutoff, and of severity neither high nor critical. *)
Definition expendable (cutoff : Date) (e : AuditLog.t) : bool :=
  (AuditLog.createdAt e <? cutoff)
  && negb (bool_decide (AuditLog.severity e = high))
  && negb (bool_decide (AuditLog.severity e = critical)).

(** Two runs agree when they answer alike and leave the same users and
    tasks. *)
Definition primary (db : DB) : list User.t * list Task.t := (users db, tasks db).

Definition agree {A} (r1 r2 : A * DB) : Prop :=
  fst r1 = fst r2 /\ primary (snd r1) = primary (snd r2).

Definition sim {A} (m1 m2 : M A) : Prop :=
  forall db1 db2, primary db1 = primary db2 -> agree (m1 db1) (m2 db2).

(** The same world with another pattern of audit-write failures. *)
Definition with_audit_faults (fails : AuditLog.t -> bool) (w : World) : World :=
  mkWorld (env w) fails (gateway w).

(** A run of login requests against the evolving database. *)
Fixpoint logins `{Externals} `{Bcrypt} (ip ua : option string)
    (attempts : list (World * Auth.loginBody)) (db : DB) : DB :=
  match attempts with
  | [] => db
  | (w, body) :: rest => logins ip ua rest (snd (Auth.login w ip ua body db))
  end.

(** The stored user with a given e-mail address. *)
Definition user_by_email (email : string) (db : DB) : option User.t :=
  List.find (fun u => String.eqb (User.email u) email) (users db).

(** Ids are unique in the users collection. *)
Definition well_keyed (db : DB) : Prop := NoDup (User._id <$> users db).

(** [u] is the stored user that a login with [email] finds. *)
Definition tracks (db : DB) (email : string) (u : User.t) : Prop :=
  well_keyed db /\ user_by_email email db = Some u.



(** The same sets without the owning Manager. *)
Definition allowed_directly (target : Status) (actor : User.t) (t : Task.t) : Prop :=
  match target with
  | in_progress | completed => User._id actor = Task.assignedTo t
  | approved | rejected =>
      User.role actor = super_admin \/ User._id actor = Task.assignedBy t
  | pending =>
      User.role actor = super_admin
      \/ User._id actor = Task.assignedBy t
      \/ User._id actor = Task.assignedTo t
  end.

(** [hasPermission] when both references resolve. *)
Definition permitted (user : User.t) (status : Status) (b a : Populated.t) : bool :=
  match status with
  | in_progress | completed => TaskRoutes.same_id (Populated._id a) (User._id user)
  | approved | rejected =>
      TaskRoutes.is_role super_admin user
      || TaskRoutes.same_id (Populated._id b) (User._id user)
      || (TaskRoutes.is_role manager user && TaskRoutes.managed_by a user)
  | pending =>
      TaskRoutes.is_role super_admin user
      || TaskRoutes.same_id (Populated._id b) (User._id user)
      || TaskRoutes.same_id (Populated._id a) (User._id user)
      || (TaskRoutes.is_role manager user && TaskRoutes.managed_by a user)
  end.

(** The document that [update_status] hands to [save()]. *)
Definition transition (w : World) (t : Task.t) (status : Status) (actor : ObjectId)
    (comment rejectionReason : option string) : Task.t :=
  Task.updateStatus w
    (if bool_decide (status = rejected) && truthy rejectionReason
     then Task.mkdoc (Task.set_rejectionReason rejectionReason t) (Task.status t) None None
     else Task.load t)
    status actor comment.

(** The task stored under an id. *)
Definition task_by_id (id : ObjectId) (db : DB) : option Task.t :=
  List.find (task_has_id id) (tasks db).

Definition user_by_id (id : ObjectId) (db : DB) : option User.t :=
  List.find (has_id id) (users db).


(** [m] leaves [P] of the database as it finds it. *)
Definition preserves {A} (P : DB -> Prop) (m : M A) : Prop :=
  forall db, P db -> P (snd (m db)).



(** ** Sample data *)

Module Sample.

Definition admin : User.t :=
  User.mk "64b000000000000000000001" "Asha" "asha@example.com" "$2a$12$hashA"
    super_admin None true None None None None None None.

Definition lead : User.t :=
  User.mk "64b000000000000000000002" "Mio" "mio@example.com" "$2a$12$hashM"
    manager None true None None None None None None.

Definition worker : User.t :=
  User.mk "64b000000000000000000003" "Eli" "eli@example.com" "$2a$12$hashE"
    employee (Some "64b000000000000000000002") true None None None None None None.

(** A task that [lead] assigned to [worker], still pending. *)
Definition task : Task.t :=
  Task.mk "64c000000000000000000001" "Quarterly report"
    "Compile the figures of the quarter" "medium" pending
    "64b000000000000000000002" "64b000000000000000000003"
    1900000000000 None None None None None [] None.

(** The same task once [worker] has handed it in. *)
Definition submitted : Task.t :=
  Task.mk "64c000000000000000000002" "Inventory"
    "Count the stock of the warehouse" "high" completed
    "64b000000000000000000002" "64b000000000000000000003"
    1900000000000 (Some 1750000000000) None None None None
    [StatusChange.mk in_progress "64b000000000000000000003" 1740000000000 None;
     StatusChange.mk completed "64b000000000000000000003" 1750000000000 None]
    None.

Definition db : DB := mkDB [admin; lead; worker] [task; submitted] [].

Definition world (t : Date) : World :=
  mkWorld (mkEnv t None None) (fun _ => false) Quiet.

Definition request (u : User.t) : Request :=
  mkRequest u (Some "203.0.113.7") (Some "Mozilla/5.0") None "/api" "PUT".

(** Stand-ins for the libraries: a hash is "$2a$12$" followed by the
    password; every string with an "@" is an e-mail address. *)
Definition bcrypt : Bcrypt :=
  {| bcrypt_compare candidate hash := String.eqb ("$2a$12$" +:+ candidate) hash |}.

Definition externals : Externals :=
  {| isEmail s := bool_decide ("@"%char ∈ list_ascii_of_string s);
     normalizeEmail s := s;
     isMobilePhone s := negb (String.eqb s "");
     parseDate s := None;
     RegExp_test p s := bool_decide ("@"%char ∈ list_ascii_of_string s) |}.

(** A security entry of long ago, and a critical entry that is neither
    of category security nor a failure. *)
Definition old_login : AuditLog.t :=
  AuditLog.mk (Some "64b000000000000000000003") "login" "auth" None []
    (Some "203.0.113.7") None true low security 1000.

Definition severe : AuditLog.t :=
  AuditLog.mk (Some "64b000000000000000000001") "user_deleted" "user" None []
    (Some "203.0.113.7") None true critical data 1700000000000.

End Sample.

(** * The other routes and middleware *)

(** ** middleware/auth.js: [sensitiveOperationLimit] *)

Module RateLimit.

Definition windowMs : Z := 15 * 60 * 1000.
Definition maxAttempts : nat := 5.

(** [`${req.ip}-${req.user?._id || 'anonymous'}`]; [ip] is [req.ip]. *)
Definition key (ip : option string) (user : option User.t) : string :=
  default "undefined" ip +:+ "-" +:+
  match user with
  | Some u => User._id u
  | None => "anonymous"
  end.

(** [userAttempts.filter(time => now - time < windowMs)] *)
Definition recent (now : Date) (userAttempts : list Date) : list Date :=
  List.filter (fun time => now - time <? windowMs) userAttempts.

(** The middleware: [true] stands for [next()], [false] for the 429
    answer.  [store] is [global.rateLimitStore], a [Map] from keys to
    arrays of instants; a store that was never created reads like the
    empty map. *)
Definition sensitiveOperationLimit (now : Date) (ip : option string)
    (user : option User.t) (store : gmap string (list Date))
    : bool * gmap string (list Date) :=
  let key := key ip user in
  let userAttempts := default [] (store !! key) in
  let recentAttempts := recent now userAttempts in
  if (maxAttempts <=? length recentAttempts)%nat then (false, store)
  else (true, <[key := recentAttempts ++ [now]]> store).

End RateLimit.

(** ** middleware/auth.js: [authenticate] *)

(** [jwt.verify(token, process.env.JWT_SECRET)]: the [userId] of the
    payload, or the exception that the library raises. *)
Inductive Verified :=
| Payload (userId : ObjectId)
| JsonWebTokenError
| TokenExpiredError
| NotBeforeError.

Class Jwt := {
  jwt_verify : string -> Verified
}.

(** [s.replace(pattern, replacement)] with a string pattern: the first
    occurrence is replaced. *)
Definition String_replace (pattern replacement s : string) : string :=
  match String.index 0 pattern s with
  | Some i =>
      String.substring 0 i s +:+ replacement
      +:+ String.substring (i + String.length pattern)
            (String.length s - (i + String.length pattern)) s
  | None => s
  end.

(** [parseInt(process.env.SESSION_TIMEOUT) || 900000] *)
Definition sessionTimeout (SESSION_TIMEOUT : option Z) : Z :=
  parseInt_or SESSION_TIMEOUT 900000.

(** [authenticate]: the answer it sends, or the user it stores in
    [req.user] before [next()].  [authorization] is the header of that
    name.  The exceptions of [jwt.verify] go to the [catch] block, which
    tells them apart by name. *)
Definition authenticate `{Jwt} (w : World) (SESSION_TIMEOUT : option Z)
    (authorization ip ua : option string)
    : DB -> (Response unit + User.t) * DB :=
  try_catch
    (let token := String_replace "Bearer " "" <$> authorization in
     if negb (truthy token) then
       ret (inl (reply 401 false "Access denied. No token provided."))
     else
       match jwt_verify (default "" token) with
       | Payload userId =>
           let* user := User_findById userId in
           match user with
           | None => ret (inl (reply 401 false "Invalid token. User not found."))
           | Some user =>
               if negb (User.isActive user) then
                 ret (inl (reply 401 false "Account is deactivated."))
               else if User.isLocked w user then
                 ret (inl (reply 423 false
                             "Account is temporarily locked due to multiple failed login attempts."))
               else if match User.lastLogin user with
                       | Some lastLogin =>
                           sessionTimeout SESSION_TIMEOUT <? now w - lastLogin
                       | None => false
                       end
               then
                 do* logAction w
                       (AuditLog.mkData (Some (User._id user)) "logout" "auth" None
                          [("reason", MStr "session_timeout")]
                          ip ua None None (Some security)) in
                 ret (inl (reply 401 false "Session expired. Please login again."))
               else ret (inr user)
           end
       | JsonWebTokenError => ret (inl (reply 401 false "Invalid token."))
       | TokenExpiredError =>
           ret (inl (reply 401 false "Token expired. Please login again."))
       | NotBeforeError => ret (inl (reply 500 false "Authentication failed."))
       end)
    (fun _ => inl (reply 500 false "Authentication failed.")).

(** ** routes/auth.js: the other routes *)

(** [bcrypt.hash(password, salt)] of the [pre('save')] hook of
    [models/User.js]. *)
Class BcryptHash := {
  bcrypt_hash : string -> string
}.

(** validator.js' [isMongoId]. *)
Class Validator := {
  isMongoId : string -> bool
}.

Definition set_password (p : string) (u : User.t) : User.t :=
  User.mk (User._id u) (User.name u) (User.email u) p (User.role u)
    (User.managerId u) (User.isActive u) (User.lastLogin u)
    (User.loginAttempts u) (User.lockUntil u) (User.fcmToken u)
    (User.phoneNumber u) (User.department u).

Definition set_isActive (b : bool) (u : User.t) : User.t :=
  User.mk (User._id u) (User.name u) (User.email u) (User.password u)
    (User.role u) (User.managerId u) b (User.lastLogin u)
    (User.loginAttempts u) (User.lockUntil u) (User.fcmToken u)
    (User.phoneNumber u) (User.department u).

(** [userSchema.methods.toSafeObject]: the object without [password],
    [twoFactorSecret], [loginAttempts] and [lockUntil].  A deleted
    [password] reads as the empty string here. *)
Definition toSafeObject (this : User.t) : User.t :=
  User.set_lockout None None (set_password "" this).

(** [new User(data)] followed by [user.save()]: the setters and
    validators of the schema, the hook that hashes the password, and the
    insertion, which the unique index on [email] can reject.  [newId]
    is the [_id] that the constructor generates.  [teamMembers] and
    [notificationSettings] are not modelled. *)
Definition User_create `{Externals} `{BcryptHash} (newId : ObjectId)
    (name email password : string) (role : Role) (managerId : option ObjectId)
    (department phoneNumber : option string) : M User.t :=
  let name := trim name in
  let email := trim (UserRoutes.toLowerCase email) in
  if String.eqb name "" || negb (String.length name <=? 50)%nat
     || String.eqb email "" || negb (RegExp_test User.email_pattern email)
     || negb (6 <=? String.length password)%nat
  then throw ValidationError
  else
    fun db =>
      if existsb (fun u => String.eqb (User.email u) email || has_id newId u) (users db)
      then (Thrown StorageError, db)
      else
        let user :=
          User.mk newId name email (bcrypt_hash password) role managerId true
            None (Some 0) None None phoneNumber department in
        (Returned user, mkDB (users db ++ [user]) (tasks db) (auditlogs db)).

Module AuthRoutes.

(** The pattern of the [matches] validator of a password. *)
Definition password_pattern : string := "^(?=.*[a-z])(?=.*[A-Z])(?=.*\d)".

(** The validator chain of a new password:
    [.isLength({ min: 6 }).matches(password_pattern)]. *)
Definition strong `{Externals} (password : string) : bool :=
  (6 <=? String.length password)%nat && RegExp_test password_pattern password.

(** *** POST /api/auth/logout *)

Definition logout (w : World) (req : Request) : DB -> Response unit * DB :=
  try_catch
    ((* User.findByIdAndUpdate(req.user._id, { $unset: { fcmToken: 1 } }) *)
     do* User_updateOne (User._id (user req))
           (fun d => User.set_session (User.lastLogin d) None d) in
     do* logAction w
           (AuditLog.mkData (Some (User._id (user req))) "logout" "auth" None []
              (ip req) (userAgent req) None None (Some security)) in
     ret (reply 200 true "Logout successful"))
    (fun _ => reply 500 false "Logout failed").

(** *** PUT /api/auth/change-password *)

(** The fields of the body; a field that the request lacks reads as the
    empty string, which no validator of the route accepts. *)
Record passwordBody := mkPasswordBody {
  currentPassword : string;
  newPassword : string
}.

(** The handler, after [authenticate] and [sensitiveOperationLimit].
    [user.password = newPassword] marks the path as modified unless the
    new value is the stored one; the hook hashes a modified password. *)
Definition change_password `{Externals} `{Bcrypt} `{BcryptHash} (w : World)
    (req : Request) (body : passwordBody) : DB -> Response unit * DB :=
  try_catch
    (if String.eqb (currentPassword body) "" || negb (strong (newPassword body))
     then ret (reply 400 false "Validation failed")
     else
       let* found := User_findById (User._id (user req)) in
       let* user := deref found in
       if negb (User.comparePassword user (currentPassword body)) then
         do* logAction w
               (AuditLog.mkData (Some (User._id user)) "password_change" "auth" None
                  [("reason", MStr "invalid_current_password")]
                  (ip req) (userAgent req) (Some false) (Some medium)
                  (Some security)) in
         ret (reply 400 false "Current password is incorrect")
       else
         do* (if String.eqb (newPassword body) (User.password user) then ret tt
              else User_updateOne (User._id user)
                     (set_password (bcrypt_hash (newPassword body)))) in
         do* logAction w
               (AuditLog.mkData (Some (User._id user)) "password_change" "auth" None
                  [] (ip req) (userAgent req) None None (Some security)) in
         ret (reply 200 true "Password changed successfully"))
    (fun _ => reply 500 false "Failed to change password").

(** The route: the limiter runs before the validators and the handler.
    [req_ip] is [req.ip], which the limiter reads. *)
Definition change_password_route `{Externals} `{Bcrypt} `{BcryptHash} (w : World)
    (req : Request) (req_ip : option string) (body : passwordBody)
    (store : gmap string (list Date)) (db : DB)
    : Response unit * DB * gmap string (list Date) :=
  match RateLimit.sensitiveOperationLimit (now w) req_ip (Some (user req)) store with
  | (false, store') =>
      (reply 429 false "Too many attempts. Please try again later.", db, store')
  | (true, store') => (change_password w req body db, store')
  end.

(** *** POST /api/auth/register *)

(** The fields of the body; [name], [email] and [password] read as the
    empty string when the request lacks them. *)
Record registerBody := mkRegisterBody {
  name : string;
  email : string;
  password : string;
  role : option string;
  managerId : option string
}.

(** The handler.  Of the answer, the user is modelled and the token is
    not; [teamMembers] of the manager is not modelled. *)
Definition register `{Externals} `{BcryptHash} `{Validator} (w : World)
    (ip ua : option string) (newId : ObjectId) (body : registerBody)
    : DB -> Response User.t * DB :=
  try_catch
    (let name := trim (name body) in
     if negb ((2 <=? String.length name)%nat && (String.length name <=? 50)%nat)
        || negb (isEmail (email body))
        || negb (strong (password body))
        || match role body with
           | Some r => negb (includes ["super_admin"; "manager"; "employee"] r)
           | None => false
           end
        || match managerId body with
           | Some m => negb (isMongoId m)
           | None => false
           end
     then ret (reply 400 false "Validation failed")
     else
       let email := normalizeEmail (email body) in
       let role := default employee (role body ≫= role_of_string) in
       let* existingUser := User_findOne_email email in
       match existingUser with
       | Some _ => ret (reply 400 false "User with this email already exists")
       | None =>
           let* valid_manager :=
             (if truthy (managerId body) then
                let* found := User_findById (default "" (managerId body)) in
                ret (match found with
                     | Some m => bool_decide (User.role m = manager)
                     | None => false
                     end)
              else ret true) in
           if negb valid_manager then
             ret (reply 400 false "Invalid manager specified")
           else
             let* user :=
               User_create newId name email (password body) role
                 (if truthy (managerId body) then managerId body else None)
                 None None in
             do* logAction w
                   (AuditLog.mkData (Some (User._id user)) "user_created" "user"
                      (Some (User._id user))
                      [("role", MStr (role_name role));
                       ("managerId", match managerId body with
                                     | Some m => MStr m
                                     | None => MNull
                                     end)]
                      ip ua None None (Some data)) in
             ret (mkResponse 201 true "User registered successfully"
                    (Some (toSafeObject user)))
       end)
    (fun _ => reply 500 false "Registration failed").

End AuthRoutes.

(** ** Filter objects that the list routes build *)

(** MongoDB's [{ $regex: pattern, $options: 'i' }] on a string. *)
Class Regex := {
  regex_test_i : string -> string -> bool   (* pattern, subject *)
}.

Module Filter.

(** A condition on one path. *)
Inductive Clause :=
| Plain (c : Query.Cond)
| Matching (pattern : string).   (* { $regex: pattern, $options: 'i' } *)

(** What a filter object holds under one key: a condition on the path
    of that name, the alternatives of [$or], or the conjuncts of
    [$and], each of which is an [$or] here. *)
Inductive Entry :=
| On (c : Clause)
| Alternatives (alts : list (string * Clause))
| Conjuncts (cs : list (list (string * Clause))).

Definition holds `{Regex} (c : Clause) (v : Query.Value) : bool :=
  match c with
  | Plain c => Query.holds c v
  | Matching pattern =>
      match v with
      | Query.VStr s => regex_test_i pattern s
      | _ => false
      end
  end.

Definition any `{Regex} (doc : string -> Query.Value) (alts : list (string * Clause))
    : bool :=
  existsb (fun alt => holds (snd alt) (doc (fst alt))) alts.

Definition entry_matches `{Regex} (doc : string -> Query.Value) (key : string)
    (e : Entry) : bool :=
  match e with
  | On c => holds c (doc key)
  | Alternatives alts => any doc alts
  | Conjuncts cs => forallb (any doc) cs
  end.

(** A filter object is a map from keys to entries: assigning to a key
    that the object has replaces what was under it.  A document matches
    when it satisfies every entry. *)
Definition matches `{Regex} (doc : string -> Query.Value)
    (query : gmap string Entry) : bool :=
  forallb (fun kv => entry_matches doc (fst kv) (snd kv)) (map_to_list query).

Definition equals (v : string) : Entry := On (Plain (Query.Eq (Query.VStr v))).

(** [.sort({ key: -1 })]: greatest [key] first; documents of one [key]
    keep their order. *)
Fixpoint insert_desc {A} (key : A -> Z) (a : A) (l : list A) : list A :=
  match l with
  | [] => [a]
  | b :: l' =>
      if key b <? key a then a :: l
      else b :: insert_desc key a l'
  end.

Definition sort_desc {A} (key : A -> Z) (l : list A) : list A :=
  foldr (insert_desc key) [] l.

Definition page {A} (skip limit : Z) (l : list A) : list A :=
  take (Z.to_nat limit) (drop (Z.to_nat skip) l).

End Filter.

(** ** models/Task.js: the [isOverdue] virtual *)

Definition isOverdue (env : Env) (this : Task.t) : bool :=
  (Task.deadline this <? now env)
  && negb (bool_decide (Task.status this = completed))
  && negb (bool_decide (Task.status this = approved)).

(** ** routes/tasks.js: creating, reading and listing *)

Module TaskCollection.

(** Reading a path of a stored task, for [Filter.matches]. *)
Definition get (t : Task.t) (path : string) : Query.Value :=
  if String.eqb path "assignedTo" then Query.VStr (Task.assignedTo t)
  else if String.eqb path "assignedBy" then Query.VStr (Task.assignedBy t)
  else if String.eqb path "status" then Query.VStr (status_name (Task.status t))
  else if String.eqb path "priority" then Query.VStr (Task.priority t)
  else if String.eqb path "deadline" then Query.VDate (Task.deadline t)
  else if String.eqb path "title" then Query.VStr (Task.title t)
  else if String.eqb path "description" then Query.VStr (Task.description t)
  else Query.VNull.

(** [Task.find(query)] *)
Definition Task_find `{Regex} (query : gmap string Filter.Entry) : M (list Task.t) :=
  fun db => (Returned (List.filter (fun t => Filter.matches (get t) query) (tasks db)), db).

(** *** GET /api/tasks *)

(** The parameters of the query string that the route reads. *)
Record listQuery := mkListQuery {
  q_status : option string;
  q_priority : option string;
  q_search : option string;
  q_assignedTo : option string;
  q_overdue : option string;
  q_page : option Z;
  q_limit : option Z
}.

Definition optional (check : string -> bool) (v : option string) : bool :=
  match v with
  | Some s => check s
  | None => true
  end.

Definition valid_list `{Validator} (q : listQuery) : bool :=
  optional (includes ["pending"; "in_progress"; "completed"; "approved"; "rejected"])
           (q_status q)
  && optional (includes ["low"; "medium"; "high"; "urgent"]) (q_priority q)
  && AuditRoutes.optional_int_min 1 (q_page q)
  && AuditRoutes.optional_int 1 100 (q_limit q)
  && optional (fun s => (1 <=? String.length s)%nat) (q_search q)
  && optional isMongoId (q_assignedTo q)
  && optional (includes ["true"; "false"; "1"; "0"]) (q_overdue q).

(** [User.find({ managerId: req.user._id }).select('_id')] and the
    [map] to the ids. *)
Definition teamMemberIds (user : User.t) : M (list ObjectId) :=
  fun db =>
    (Returned
       (User._id <$>
        List.filter (fun u => bool_decide (User.managerId u = Some (User._id user)))
                    (users db)),
     db).

Definition set_if (present : bool) (key : string) (e : Filter.Entry)
    (query : gmap string Filter.Entry) : gmap string Filter.Entry :=
  if present then <[key := e]> query else query.

(** The filter object of the route. *)
Definition list_filter (w : World) (user : User.t) (team : list ObjectId)
    (q : listQuery) : gmap string Filter.Entry :=
  let query : gmap string Filter.Entry :=
    match User.role user with
    | super_admin => ∅
    | manager =>
        {[ "$or" :=
             Filter.Alternatives
               [ ("assignedTo", Filter.Plain (Query.Eq (Query.VStr (User._id user))));
                 ("assignedBy", Filter.Plain (Query.Eq (Query.VStr (User._id user))));
                 ("assignedTo", Filter.Plain (Query.In_ (Query.VStr <$> team))) ] ]}
    | employee => {[ "assignedTo" := Filter.equals (User._id user) ]}
    end in
  let query := set_if (truthy (q_status q)) "status"
                 (Filter.equals (default "" (q_status q))) query in
  let query := set_if (truthy (q_priority q)) "priority"
                 (Filter.equals (default "" (q_priority q))) query in
  let query := set_if (truthy (q_assignedTo q)) "assignedTo"
                 (Filter.equals (default "" (q_assignedTo q))) query in
  let query := set_if (truthy (q_search q)) "$and"
                 (Filter.Conjuncts
                    [[ ("title", Filter.Matching (default "" (q_search q)));
                       ("description", Filter.Matching (default "" (q_search q))) ]])
                 query in
  if bool_decide (q_overdue q = Some "true") then
    <["status" := Filter.On (Filter.Plain
                               (Query.Nin [Query.VStr "completed"; Query.VStr "approved"]))]>
      (<["deadline" := Filter.On (Filter.Plain (Query.Lt (Query.VDate (now w))))]> query)
  else query.

Record listData := mkListData {
  listed : list Task.t;      (* [tasks] *)
  total : Z;
  current : Z;
  limit : Z
}.

(** The handler, after [authenticate].  [createdAt] tells the time of
    creation that the [timestamps] option keeps with each task. *)
Definition list_tasks `{Validator} `{Regex} (createdAt : Task.t -> Date) (w : World)
    (req : Request) (q : listQuery) : DB -> Response listData * DB :=
  try_catch
    (if negb (valid_list q) then ret (reply 400 false "Validation failed")
     else
       let page := parseInt_or (q_page q) 1 in
       let limit := parseInt_or (q_limit q) 10 in
       let skip := (page - 1) * limit in
       let* team :=
         (if bool_decide (User.role (user req) = manager)
          then teamMemberIds (user req) else ret []) in
       let query := list_filter w (user req) team q in
       let* found := Task_find query in
       let tasks := Filter.page skip limit (Filter.sort_desc createdAt found) in
       let* counted := Task_find query in
       ret (mkResponse 200 true ""
              (Some (mkListData tasks (Z.of_nat (length counted)) page limit))))
    (fun _ => reply 500 false "Failed to retrieve tasks").

(** *** GET /api/tasks/:id *)

Definition hasAccess (user : User.t) (assignedBy assignedTo : option Populated.t)
    : M bool :=
  if TaskRoutes.is_role super_admin user then ret true
  else
    let* a := deref assignedTo in
    if TaskRoutes.same_id (Populated._id a) (User._id user) then ret true
    else
      let* b := deref assignedBy in
      if TaskRoutes.same_id (Populated._id b) (User._id user) then ret true
      else ret (TaskRoutes.is_role manager user && TaskRoutes.managed_by a user).

Definition get_task (req : Request) (taskId : ObjectId) : DB -> Response Task.t * DB :=
  try_catch
    (let* found := Task_findById taskId in
     match found with
     | None => ret (reply 404 false "Task not found")
     | Some task =>
         let* assignedBy := populate TaskRoutes.selected (Task.assignedBy task) in
         let* assignedTo := populate TaskRoutes.selected (Task.assignedTo task) in
         let* allowed := hasAccess (user req) assignedBy assignedTo in
         if negb allowed then ret (reply 403 false "Access denied")
         else ret (mkResponse 200 true "" (Some task))
     end)
    (fun _ => reply 500 false "Failed to retrieve task").

(** *** POST /api/tasks *)

(** The fields of the body that the route reads, but for [tags], which
    the body is taken to lack; [title], [description], [assignedTo] and
    [deadline] read as the empty string when the request lacks them. *)
Record taskBody := mkTaskBody {
  title : string;
  description : string;
  assignedTo : string;
  deadline : string;
  priority : option string;
  estimatedHours : option Z
}.

Definition within (min max : nat) (s : string) : bool :=
  ((min <=? String.length s) && (String.length s <=? max))%nat.

(** [new Task(data)] followed by [task.save()]: the setters of the
    schema, the [pre('save')] hook, which leaves a new document as it
    is, and the insertion.  [newId] is the [_id] that the constructor
    generates. *)
Definition Task_create (newId : ObjectId) (title description : string)
    (assignedBy assignedTo : ObjectId) (deadline : Date) (priority : string)
    (estimatedHours : option Z) : M Task.t :=
  let title := trim title in
  let description := trim description in
  if String.eqb title "" || negb (String.length title <=? 100)%nat
     || String.eqb description "" || negb (String.length description <=? 1000)%nat
     || negb (includes ["low"; "medium"; "high"; "urgent"] priority)
     || match estimatedHours with Some h => h <? 0 | None => false end
  then throw ValidationError
  else
    fun db =>
      if existsb (task_has_id newId) (tasks db) then (Thrown StorageError, db)
      else
        let task :=
          Task.mk newId title description priority pending assignedBy assignedTo
            deadline None None None estimatedHours None [] None in
        (Returned task, mkDB (users db) (tasks db ++ [task]) (auditlogs db)).

(** The route: [authorize('super_admin', 'manager')], the validators and
    the handler. *)
Definition create_task `{Externals} `{Validator} (w : World) (req : Request)
    (newId : ObjectId) (body : taskBody) : DB -> Response Task.t * DB :=
  try_catch
    (let* authorized := authorize w req [super_admin; manager] in
     if negb authorized then
       ret (reply 403 false "Access denied. Insufficient permissions.")
     else
       let title := trim (title body) in
       let description := trim (description body) in
       match parseDate (deadline body) with
       | Some due =>
           if negb (within 3 100 title && within 10 1000 description
                    && isMongoId (assignedTo body)
                    && optional (includes ["low"; "medium"; "high"; "urgent"])
                                (priority body)
                    && match estimatedHours body with
                       | Some h => 0 <=? h
                       | None => true
                       end)
           then ret (reply 400 false "Validation failed")
           else
             let* assignee := User_findById (assignedTo body) in
             match assignee with
             | None => ret (reply 400 false "Assigned user not found")
             | Some assignee =>
                 if bool_decide (User.role (user req) = manager)
                    && negb (bool_decide (User.managerId assignee
                                          = Some (User._id (user req))))
                    && negb (String.eqb (assignedTo body) (User._id (user req)))
                 then ret (reply 403 false
                             "You can only assign tasks to your team members")
                 else if due <=? now w then
                   ret (reply 400 false "Deadline must be in the future")
                 else
                   let* task :=
                     Task_create newId title description (User._id (user req))
                       (assignedTo body) due
                       (if truthy (priority body) then default "" (priority body)
                        else "medium")
                       (estimatedHours body) in
                   do* sendNotification w (assignedTo body) "New Task Assigned"
                         "task_assigned" in
                   do* logAction w
                         (AuditLog.mkData (Some (User._id (user req))) "task_created"
                            "task" (Some (Task._id task))
                            [("title", MStr title);
                             ("assignedTo", MStr (User.name assignee));
                             ("priority", match priority body with
                                          | Some p => MStr p
                                          | None => MNull
                                          end);
                             ("deadline", MStr (deadline body))]
                            (ip req) (userAgent req) None None (Some data)) in
                   ret (mkResponse 201 true "Task created successfully" (Some task))
             end
       | None => ret (reply 400 false "Validation failed")
       end)
    (fun _ => reply 500 false "Failed to create task").

End TaskCollection.

(** ** routes/users.js: the other routes *)

Module UserCollection.

(** Reading a path of a stored user, for [Filter.matches]. *)
Definition get (u : User.t) (path : string) : Query.Value :=
  if String.eqb path "_id" then Query.VStr (User._id u)
  else if String.eqb path "managerId" then
    match User.managerId u with
    | Some m => Query.VStr m
    | None => Query.VNull
    end
  else if String.eqb path "role" then Query.VStr (role_name (User.role u))
  else if String.eqb path "isActive" then Query.VBool (User.isActive u)
  else if String.eqb path "name" then Query.VStr (User.name u)
  else if String.eqb path "email" then Query.VStr (User.email u)
  else Query.VNull.

(** [User.find(query)] *)
Definition User_find `{Regex} (query : gmap string Filter.Entry) : M (list User.t) :=
  fun db => (Returned (List.filter (fun u => Filter.matches (get u) query) (users db)), db).

(** *** GET /api/users *)

Record listQuery := mkListQuery {
  q_role : option string;
  q_search : option string;
  q_isActive : option string;
  q_page : option Z;
  q_limit : option Z
}.

Definition valid_list (q : listQuery) : bool :=
  AuditRoutes.optional_int_min 1 (q_page q)
  && AuditRoutes.optional_int 1 100 (q_limit q)
  && TaskCollection.optional (includes ["super_admin"; "manager"; "employee"]) (q_role q)
  && TaskCollection.optional (fun s => (1 <=? String.length s)%nat) (q_search q).

(** The filter object of the route. *)
Definition list_filter (user : User.t) (q : listQuery) : gmap string Filter.Entry :=
  let query : gmap string Filter.Entry :=
    if bool_decide (User.role user = manager) then
      {[ "$or" :=
           Filter.Alternatives
             [ ("managerId", Filter.Plain (Query.Eq (Query.VStr (User._id user))));
               ("_id", Filter.Plain (Query.Eq (Query.VStr (User._id user)))) ] ]}
    else ∅ in
  let query := TaskCollection.set_if (truthy (q_role q)) "role"
                 (Filter.equals (default "" (q_role q))) query in
  let query := TaskCollection.set_if (bool_decide (is_Some (q_isActive q))) "isActive"
                 (Filter.On (Filter.Plain
                    (Query.Eq (Query.VBool (bool_decide (q_isActive q = Some "true"))))))
                 query in
  TaskCollection.set_if (truthy (q_search q)) "$or"
    (Filter.Alternatives
       [ ("name", Filter.Matching (default "" (q_search q)));
         ("email", Filter.Matching (default "" (q_search q))) ])
    query.

Record listData := mkListData {
  listed : list User.t;      (* [users] *)
  total : Z;
  current : Z;
  limit : Z
}.

(** The route after [authenticate]: [authorize('super_admin',
    'manager')], the validators and the handler.  [createdAt] tells the
    time of creation that the [timestamps] option keeps with each user.
    [.select('-password -twoFactorSecret')] leaves the answer without
    the password, which reads as the empty string here. *)
Definition list_users `{Regex} (createdAt : User.t -> Date) (w : World)
    (req : Request) (q : listQuery) : DB -> Response listData * DB :=
  try_catch
    (let* authorized := authorize w req [super_admin; manager] in
     if negb authorized then
       ret (reply 403 false "Access denied. Insufficient permissions.")
     else if negb (valid_list q) then ret (reply 400 false "Validation failed")
     else
       let page := parseInt_or (q_page q) 1 in
       let limit := parseInt_or (q_limit q) 10 in
       let skip := (page - 1) * limit in
       let query := list_filter (user req) q in
       let* found := User_find query in
       let users :=
         set_password "" <$> Filter.page skip limit (Filter.sort_desc createdAt found) in
       let* counted := User_find query in
       ret (mkResponse 200 true ""
              (Some (mkListData users (Z.of_nat (length counted)) page limit))))
    (fun _ => reply 500 false "Failed to retrieve users").

(** *** GET /api/users/:id *)

(** The route after [authenticate]; [body] is [req.body], which
    [authorizeTeamAccess] reads. *)
Definition get_user (req : Request) (body : gmap string JVal) (id : ObjectId)
    : DB -> Response User.t * DB :=
  fun db =>
    match authorizeTeamAccess req body db with
    | (Some denied, db') => (denied, db')
    | (None, db') =>
        try_catch
          (let* user := User_findById id in
           match user with
           | None => ret (reply 404 false "User not found")
           | Some user => ret (mkResponse 200 true "" (Some (set_password "" user)))
           end)
          (fun _ => reply 500 false "Failed to retrieve user")
          db'
    end.

(** *** GET /api/users/:id/tasks *)

Record tasksData := mkTasksData {
  tasks_listed : list Task.t;
  tasks_total : Z
}.

Definition user_tasks `{Regex} (createdAt : Task.t -> Date) (req : Request)
    (body : gmap string JVal) (userId : ObjectId) (status : option string)
    (page limit : option Z) : DB -> Response tasksData * DB :=
  fun db =>
    match authorizeTeamAccess req body db with
    | (Some denied, db') => (denied, db')
    | (None, db') =>
        try_catch
          (if negb (TaskCollection.optional
                      (includes ["pending"; "in_progress"; "completed"; "approved";
                                 "rejected"]) status
                    && AuditRoutes.optional_int_min 1 page
                    && AuditRoutes.optional_int 1 100 limit)
           then ret (reply 400 false "Validation failed")
           else
             let page := parseInt_or page 1 in
             let limit := parseInt_or limit 10 in
             let skip := (page - 1) * limit in
             let query :=
               TaskCollection.set_if (truthy status) "status"
                 (Filter.equals (default "" status))
                 {[ "assignedTo" := Filter.equals userId ]} in
             let* found := TaskCollection.Task_find query in
             let tasks := Filter.page skip limit (Filter.sort_desc createdAt found) in
             let* counted := TaskCollection.Task_find query in
             ret (mkResponse 200 true ""
                    (Some (mkTasksData tasks (Z.of_nat (length counted))))))
          (fun _ => reply 500 false "Failed to retrieve user tasks")
          db'
    end.

(** *** POST /api/users *)

(** The fields of the body; [name], [email], [password] and [role] read
    as the empty string when the request lacks them.  The nested objects
    of the [details] of an audit entry are written with dotted keys. *)
Record userBody := mkUserBody {
  name : string;
  email : string;
  password : string;
  role : string;
  department : option string;
  phoneNumber : option string
}.

Definition create_user `{Externals} `{BcryptHash} (w : World) (req : Request)
    (newId : ObjectId) (body : userBody) : DB -> Response User.t * DB :=
  try_catch
    (let* authorized := authorize w req [super_admin; manager] in
     if negb authorized then
       ret (reply 403 false "Access denied. Insufficient permissions.")
     else
       let name := trim (name body) in
       match TaskRoutes.optional_trim_max 50 (department body) with
       | Some department =>
           if negb (TaskCollection.within 2 50 name
                    && isEmail (email body)
                    && AuthRoutes.strong (password body)
                    && includes ["manager"; "employee"] (role body)
                    && TaskCollection.optional isMobilePhone (phoneNumber body))
           then ret (reply 400 false "Validation failed")
           else
             let email := normalizeEmail (email body) in
             let* existingUser := User_findOne_email email in
             match existingUser with
             | Some _ => ret (reply 400 false "User with this email already exists")
             | None =>
                 if bool_decide (User.role (user req) = manager)
                    && negb (String.eqb (role body) "employee")
                 then ret (reply 403 false "Managers can only create employee accounts")
                 else
                   let managerId :=
                     if bool_decide (User.role (user req) = manager)
                        && String.eqb (role body) "employee"
                     then Some (User._id (user req)) else None in
                   let* created :=
                     User_create newId name email (password body)
                       (default employee (role_of_string (role body)))
                       managerId department (phoneNumber body) in
                   do* logAction w
                         (AuditLog.mkData (Some (User._id (user req))) "user_created"
                            "user" (Some (User._id created))
                            [("createdUser.name", MStr name);
                             ("createdUser.email", MStr email);
                             ("createdUser.role", MStr (role body));
                             ("createdBy", MStr (role_name (User.role (user req))))]
                            (ip req) (userAgent req) None None (Some data)) in
                   ret (mkResponse 201 true "User created successfully"
                          (Some (toSafeObject created)))
             end
       | None => ret (reply 400 false "Validation failed")
       end)
    (fun _ => reply 500 false "Failed to create user").

(** *** PUT /api/users/:id/activate *)

(** The route after [authenticate]; [isActive] is the value of the body
    under that key. *)
Definition activate (w : World) (req : Request) (userId : ObjectId)
    (isActive : option JVal) : DB -> Response User.t * DB :=
  try_catch
    (let* authorized := authorize w req [super_admin] in
     if negb authorized then
       ret (reply 403 false "Access denied. Insufficient permissions.")
     else
       match isActive ≫= UserRoutes.isBoolean with
       | None => ret (reply 400 false "Validation failed")
       | Some isActive =>
           (* User.findByIdAndUpdate(userId, { isActive }, { new: true }) *)
           match UserRoutes.cast_bool isActive with
           | None => throw ValidationError
           | Some flag =>
               let* found := User_findById userId in
               match found with
               | None => ret (reply 404 false "User not found")
               | Some stored =>
                   do* User_updateOne userId (set_isActive flag) in
                   let updated := set_isActive flag stored in
                   let done :=
                     if js_truthy isActive then "activated" else "deactivated" in
                   do* logAction w
                         (AuditLog.mkData (Some (User._id (user req)))
                            "user_updated" "user" (Some (User._id updated))
                            [("action", MStr done);
                             ("targetUser.name", MStr (User.name updated));
                             ("targetUser.email", MStr (User.email updated))]
                            (ip req) (userAgent req) None (Some medium) (Some data)) in
                   ret (mkResponse 200 true ("User " +:+ done +:+ " successfully")
                          (Some (toSafeObject updated)))
               end
           end
       end)
    (fun _ => reply 500 false "Failed to update user status").

End UserCollection.

(** ** models/AuditLog.js: the other statics and [getDisplayMessage] *)

Module AuditStatics.

(** [auditLogSchema.statics.getFailedLogins] *)
Definition getFailedLogins (env : Env) (timeframe : Z) (coll : list AuditLog.t)
    : list AuditLog.t :=
  let since := now env - timeframe * 60 * 60 * 1000 in
  AuditLog.sort_desc
    (AuditLog.find
       (Query.All
          [ Query.Field "action" (Query.Eq (Query.VStr "failed_login"));
            Query.Field "createdAt" (Query.Gte (Query.VDate since)) ])
       coll).

(** A group of [getActivitySummary]. *)
Record summary := mkSummary {
  _id : string;
  count : Z;
  successCount : Z;
  failureCount : Z
}.

(** The [$group] stage for one action. *)
Definition group (matched : list AuditLog.t) (action : string) : summary :=
  let members :=
    List.filter (fun e => String.eqb (AuditLog.action e) action) matched in
  mkSummary action
    (Z.of_nat (length members))
    (Z.of_nat (length (List.filter (fun e => Bool.eqb (AuditLog.success e) true) members)))
    (Z.of_nat (length (List.filter (fun e => Bool.eqb (AuditLog.success e) false) members))).

(** [auditLogSchema.statics.getActivitySummary].  MongoDB leaves open in
    which order [$group] emits the groups and [$sort] puts groups of one
    count; here the groups come in the order in which their actions first
    occur. *)
Definition getActivitySummary (env : Env) (timeframe : Z) (coll : list AuditLog.t)
    : list summary :=
  let since := now env - timeframe * 60 * 60 * 1000 in
  let matched :=
    AuditLog.find (Query.Field "createdAt" (Query.Gte (Query.VDate since))) coll in
  Filter.sort_desc count (group matched <$> remove_dups (AuditLog.action <$> matched)).

Definition actionMessages : list (string * string) :=
  [ ("login", "User logged in");
    ("logout", "User logged out");
    ("failed_login", "Failed login attempt");
    ("password_change", "Password changed");
    ("user_created", "User account created");
    ("user_updated", "User account updated");
    ("user_deleted", "User account deleted");
    ("task_created", "Task created");
    ("task_updated", "Task updated");
    ("task_deleted", "Task deleted");
    ("task_assigned", "Task assigned");
    ("task_completed", "Task completed");
    ("task_approved", "Task approved");
    ("task_rejected", "Task rejected");
    ("comment_added", "Comment added to task");
    ("attachment_uploaded", "File attachment uploaded");
    ("notification_sent", "Notification sent");
    ("report_generated", "Report generated");
    ("role_changed", "User role changed");
    ("team_updated", "Team membership updated");
    ("settings_changed", "Settings modified");
    ("data_export", "Data exported");
    ("system_access", "System accessed") ].

(** [auditLogSchema.methods.getDisplayMessage]:
    [actionMessages[this.action] || this.action] *)
Definition getDisplayMessage (this : AuditLog.t) : string :=
  match (list_to_map actionMessages : gmap string string) !! AuditLog.action this with
  | Some message => if String.eqb message "" then AuditLog.action this else message
  | None => AuditLog.action this
  end.

End AuditStatics.

(** ** Vocabulary of the further properties *)

(** A run of requests of one client through the limiter, at the given
    instants: the instants of the admitted requests and the store left. *)
Fixpoint limited (ip : option string) (user : option User.t) (times : list Date)
    (store : gmap string (list Date)) : list Date * gmap string (list Date) :=
  match times with
  | [] => ([], store)
  | now :: rest =>
      let '(admitted, store') := RateLimit.sensitiveOperationLimit now ip user store in
      let '(later, store'') := limited ip user rest store' in
      (if admitted then now :: later else later, store'')
  end.

(** The instants of [l] in the window of fifteen minutes that ends at [t]. *)
Definition within_window (t : Date) (l : list Date) : list Date :=
  List.filter (fun a => (t - RateLimit.windowMs <? a) && (a <=? t)) l.

(** Every window of the stored list holds at most five instants. *)
Definition sparse (l : list Date) : Prop :=
  forall t, (length (within_window t l) <= 5)%nat.

(** What identifies a user and decides what the user may do. *)
Definition identity (u : User.t)
    : ObjectId * string * string * Role * option ObjectId * bool :=
  (User._id u, User.email u, User.password u, User.role u, User.managerId u,
   User.isActive u).

Definition identities (db : DB)
    : list (ObjectId * string * string * Role * option ObjectId * bool) :=
  identity <$> users db.

(** A run of requests to change the password, through the limiter. *)
Fixpoint password_changes `{Externals} `{Bcrypt} `{BcryptHash} (req : Request)
    (req_ip : option string) (attempts : list (World * AuthRoutes.passwordBody))
    (store : gmap string (list Date)) (db : DB) : DB * gmap string (list Date) :=
  match attempts with
  | [] => (db, store)
  | (w, body) :: rest =>
      let '(_, db', store') :=
        AuthRoutes.change_password_route w req req_ip body store db in
      password_changes req req_ip rest store' db'
  end.

(** One request to [PUT /api/tasks/:id/status] that the route admits. *)
Record change := mkChange {
  c_world : World;
  c_status : Status;
  c_actor : ObjectId;
  c_comment : option string;
  c_reason : option string
}.





(** The audit entry of a status change. *)
Definition status_entry (req : Request) (saved : Task.t) (status : Status)
    (comment : option string) : AuditLog.logData :=
  AuditLog.mkData (Some (User._id (user req)))
    ("task_" +:+ status_name status) "task" (Some (Task._id saved))
    [("taskTitle", MStr (Task.title saved));
     ("previousStatus", MStr (status_name (TaskRoutes.previousStatus saved)));
     ("newStatus", MStr (status_name status));
     ("comment", match comment with
                 | Some c => MStr c
                 | None => MNull
                 end)]
    (ip req) (userAgent req) None None (Some data).

(** The parameters without [status]. *)
Definition without_status (q : TaskCollection.listQuery) : TaskCollection.listQuery :=
  TaskCollection.mkListQuery None (TaskCollection.q_priority q)
    (TaskCollection.q_search q) (TaskCollection.q_assignedTo q)
    (TaskCollection.q_overdue q) (TaskCollection.q_page q) (TaskCollection.q_limit q).

(** The users that a Manager leads. *)
Definition team_of (user : User.t) (db : DB) : list ObjectId :=
  User._id <$>
  List.filter (fun u => bool_decide (User.managerId u = Some (User._id user))) (users db).

(** ** Further sample data *)

Module Demo.

(** Stand-ins for the other libraries: the token of a user is "tok:"
    followed by the id; a hash is "$2a$12$" followed by the password; an
    id has 24 characters; a pattern matches the strings that contain it,
    whatever the case of the letters. *)
Definition jwt : Jwt :=
  {| jwt_verify token :=
       if String.prefix "tok:" token
       then Payload (String.substring 4 (String.length token - 4) token)
       else JsonWebTokenError |}.

Definition hash : BcryptHash :=
  {| bcrypt_hash password := "$2a$12$" +:+ password |}.

Definition validator : Validator :=
  {| isMongoId s := (String.length s =? 24)%nat |}.

Fixpoint contains (pattern s : string) : bool :=
  String.prefix pattern s
  || match s with
     | EmptyString => false
     | String _ rest => contains pattern rest
     end.

Definition regex : Regex :=
  {| regex_test_i pattern s :=
       contains (UserRoutes.toLowerCase pattern) (UserRoutes.toLowerCase s) |}.

Definition has (class : ascii -> bool) (s : string) : bool :=
  existsb class (list_ascii_of_string s).

Definition between (low high : nat) (c : ascii) : bool :=
  ((low <=? nat_of_ascii c) && (nat_of_ascii c <=? high))%nat.

(** The password pattern asks for a small letter, a capital and a digit;
    every other pattern for an "@".  One date is understood. *)
Definition externals : Externals :=
  {| isEmail s := has (Ascii.eqb "@") s;
     normalizeEmail s := s;
     isMobilePhone s := negb (String.eqb s "");
     parseDate s :=
       if String.eqb s "2030-03-17T17:46:40.000Z" then Some 1900000000000 else None;
     RegExp_test pattern s :=
       if String.eqb pattern AuthRoutes.password_pattern
       then has (between 97 122) s && has (between 65 90) s && has (between 48 57) s
       else has (Ascii.eqb "@") s |}.

Definition address : option string := Some "203.0.113.7".

(** [worker] with a lock that ran out at instant 1805000. *)
Definition locked : User.t :=
  User.set_lockout (Some 5) (Some 1805000) Sample.worker.

(** [worker] once logged in at instant 1000. *)
Definition logged_in : User.t :=
  User.set_session (Some 1000) (Some "fcm-token") Sample.worker.

Definition with_worker (u : User.t) : DB :=
  mkDB [Sample.admin; Sample.lead; u] [Sample.task; Sample.submitted] [].

Definition createdAt (t : Task.t) : Date := Task.deadline t.

End Demo.

(** * Properties *)

(** ** The audit recorder *)

Section Recorder.

Lemma logAction_returns (w : World) (l : AuditLog.logData) (db : DB) :
  exists r coll,
    logAction w l db = (Returned r, mkDB (users db) (tasks db) coll).
Proof.
  unfold logAction, AuditLog.logAction, AuditLog.save.
  destruct (negb (AuditLog.validate (AuditLog.construct w l))); [eauto |].
  destruct (audit_write_fails w (AuditLog.construct w l)); eauto.
Qed.

Lemma validate_requires_user (a : AuditLog.t) :
  AuditLog.user a = None -> AuditLog.validate a = false.
Proof.
  intros Hu. unfold AuditLog.validate. rewrite Hu.
  rewrite bool_decide_eq_false_2; [reflexivity |].
  intros [x Hx]. discriminate.
Qed.

Lemma logAction_null_user (fails : AuditLog.t -> bool) (e : Env)
    (l : AuditLog.logData) (coll : list AuditLog.t) :
  AuditLog.d_user l = None ->
  AuditLog.logAction fails e l coll = (Returned None, coll).
Proof.
  intros Hu. unfold AuditLog.logAction, AuditLog.save.
  rewrite validate_requires_user; [reflexivity | exact Hu].
Qed.

End Recorder.

(** C10: an audit write whose payload has a null actor fails the schema's
    [required] validator for [user], so [logAction] returns [null] and the
    collection is left as it was; the login handler issues such a write
    when the e-mail address matches no user, hence that failed login
    answers 401 and leaves no audit entry. *)
Theorem null_actor_entry_is_dropped `{Externals} `{Bcrypt} (w : World)
    (l : AuditLog.logData) (coll : list AuditLog.t)
    (ip ua : option string) (body : Auth.loginBody) (db : DB) :
  AuditLog.d_user l = None ->
  isEmail (Auth.email body) = true ->
  Auth.password body <> "" ->
  List.find (fun u => String.eqb (User.email u) (normalizeEmail (Auth.email body)))
            (users db) = None ->
  AuditLog.validate (AuditLog.construct w l) = false
  /\ AuditLog.logAction (audit_write_fails w) w l coll = (Returned None, coll)
  /\ Auth.login w ip ua body db
     = (reply 401 false "Invalid credentials", db).
Proof.
  intros Hu He Hp Hf. split; [| split].
  - apply validate_requires_user. exact Hu.
  - apply logAction_null_user. exact Hu.
  - unfold Auth.login, try_catch. rewrite He. simpl.
    destruct (String.eqb_spec (Auth.password body) "") as [E | _]; [contradiction |].
    unfold bind at 1. unfold User_findOne_email. rewrite Hf.
    unfold bind, logAction. rewrite logAction_null_user by reflexivity.
    destruct db; reflexivity.
Qed.

(** ** Fault isolation of the audit write *)

Section Isolation.

Lemma sim_ret {A} (a : A) : sim (ret a) (ret a).
Proof. intros db1 db2 Hp. split; [reflexivity | exact Hp]. Qed.

Lemma sim_throw {A} (e : JsError) : sim (@throw A e) (throw e).
Proof. intros db1 db2 Hp. split; [reflexivity | exact Hp]. Qed.

Lemma sim_bind {A B} (m1 m2 : M A) (k1 k2 : A -> M B) :
  sim m1 m2 -> (forall a, sim (k1 a) (k2 a)) -> sim (bind m1 k1) (bind m2 k2).
Proof.
  intros Hm Hk db1 db2 Hp. unfold bind.
  destruct (Hm db1 db2 Hp) as [Ho Hs].
  destruct (m1 db1) as [[a1 | e1] d1], (m2 db2) as [[a2 | e2] d2];
    simpl in *; try discriminate.
  - injection Ho as ->. apply Hk. exact Hs.
  - injection Ho as ->. split; [reflexivity | exact Hs].
Qed.

(** The recorder's answer is discarded by every caller, and its only
    trace is in the audit collection. *)
Lemma sim_logAction {B} (w1 w2 : World) (l1 l2 : AuditLog.logData) (k1 k2 : M B) :
  sim k1 k2 ->
  sim (bind (logAction w1 l1) (fun _ => k1)) (bind (logAction w2 l2) (fun _ => k2)).
Proof.
  intros Hk db1 db2 Hp. unfold bind.
  destruct (logAction_returns w1 l1 db1) as (r1 & c1 & ->).
  destruct (logAction_returns w2 l2 db2) as (r2 & c2 & ->).
  apply Hk. exact Hp.
Qed.


Lemma sim_users {A} (f : list User.t -> A) :
  sim (fun db => (Returned (f (users db)), db)) (fun db => (Returned (f (users db)), db)).
Proof.
  intros db1 db2 Hp. split; [| exact Hp]. simpl.
  unfold primary in Hp. injection Hp as Hu _. rewrite Hu. reflexivity.
Qed.

Lemma sim_tasks {A} (f : list Task.t -> A) :
  sim (fun db => (Returned (f (tasks db)), db)) (fun db => (Returned (f (tasks db)), db)).
Proof.
  intros db1 db2 Hp. split; [| exact Hp]. simpl.
  unfold primary in Hp. injection Hp as _ Ht. rewrite Ht. reflexivity.
Qed.

Lemma sim_User_updateOne (id : ObjectId) (f : User.t -> User.t) :
  sim (User_updateOne id f) (User_updateOne id f).
Proof.
  intros db1 db2 Hp. unfold primary in Hp. injection Hp as Hu Ht.
  split; [reflexivity |]. unfold User_updateOne, primary. simpl.
  rewrite Hu, Ht. reflexivity.
Qed.

Lemma sim_Task_store (t : Task.t) : sim (Task_store t) (Task_store t).
Proof.
  intros db1 db2 Hp. unfold primary in Hp. injection Hp as Hu Ht.
  split; [reflexivity |]. unfold Task_store, primary. simpl.
  rewrite Hu, Ht. reflexivity.
Qed.

Lemma sim_deref {A} (o : option A) : sim (deref o) (deref o).
Proof. destruct o; [apply sim_ret | apply sim_throw]. Qed.

Ltac sim_step :=
  first
    [ apply sim_ret
    | apply sim_throw
    | apply sim_logAction
    | apply sim_deref
    | apply sim_User_updateOne
    | apply sim_Task_store
    | apply (sim_users (List.find _))
    | apply (sim_users (fun us => _ <$> List.find _ us))
    | apply (sim_tasks (List.find _))
    | apply sim_bind; [| intros ?] ].

Ltac sim_auto := repeat (first [ sim_step | case_match ]).

Lemma sim_sendNotification (w : World) (fails : AuditLog.t -> bool)
    (userId : ObjectId) (title type : string) :
  sim (sendNotification w userId title type)
      (sendNotification (with_audit_faults fails w) userId title type).
Proof. unfold sendNotification. simpl. sim_auto. Qed.


End Isolation.

Section IsolationRoutes.

Ltac sim_step :=
  first
    [ apply sim_ret
    | apply sim_throw
    | apply sim_logAction
    | apply sim_deref
    | apply sim_User_updateOne
    | apply sim_Task_store
    | apply sim_sendNotification
    | apply (sim_users (List.find _))
    | apply (sim_users (fun us => _ <$> List.find _ us))
    | apply (sim_tasks (List.find _))
    | apply sim_bind; [| intros ?] ].

Ltac sim_auto := repeat (first [ sim_step | case_match ]).




Ltac settle_logAction :=
  repeat match goal with
         | |- context [logAction ?w1 ?l ?d] =>
             let r := fresh "r" in
             let c := fresh "c" in
             destruct (logAction_returns w1 l d) as (r & c & ->)
         end.



End IsolationRoutes.


(** ** The audit queries *)

Section AuditQueries.

Lemma matches_security_filter (since : Date) (e : AuditLog.t) :
  Query.matches (AuditLog.get e) (AuditRoutes.security_filter since)
  = security_relevant e && (since <=? AuditLog.createdAt e).
Proof.
  unfold AuditRoutes.security_filter, security_relevant. cbn.
  rewrite andb_true_r, !orb_false_r. f_equal.
  assert (Hm : forall x l, existsb (String.eqb x) l = bool_decide (x ∈ l)).
  { intros x l. induction l as [| y l IH]; cbn.
    - symmetry. apply bool_decide_eq_false_2. apply not_elem_of_nil.
    - rewrite IH. destruct (String.eqb_spec x y) as [-> | Hne]; cbn.
      + symmetry. apply bool_decide_eq_true_2. left.
      + apply bool_decide_ext. rewrite elem_of_cons. tauto. }
  specialize (Hm (AuditLog.action e)
                ["login"; "logout"; "failed_login"; "password_change"]).
  cbn in Hm. rewrite !orb_false_r in Hm. rewrite <- !orb_assoc, <- Hm.
  destruct (AuditLog.category e), (AuditLog.severity e), (AuditLog.success e);
    cbn; rewrite ?orb_true_r, ?orb_false_r; reflexivity.
Qed.

Lemma matches_cleanup_filter (cutoff : Date) (e : AuditLog.t) :
  Query.matches (AuditLog.get e) (AuditRoutes.cleanup_filter cutoff)
  = expendable cutoff e.
Proof.
  unfold AuditRoutes.cleanup_filter, expendable. cbn.
  destruct (AuditLog.severity e); cbn;
    rewrite ?andb_true_r, ?andb_false_r; reflexivity.
Qed.

Lemma filter_ext_eq {A} (f g : A -> bool) (l : list A) :
  (forall a, f a = g a) -> List.filter f l = List.filter g l.
Proof.
  intros E. induction l as [| a l IH]; cbn; [reflexivity |].
  rewrite E, IH. reflexivity.
Qed.

Lemma find_cleanup_filter (cutoff : Date) (coll : list AuditLog.t) :
  AuditLog.find (AuditRoutes.cleanup_filter cutoff) coll
  = List.filter (expendable cutoff) coll.
Proof. apply filter_ext_eq. intros a. apply matches_cleanup_filter. Qed.

Lemma deleteMany_cleanup_filter (cutoff : Date) (coll : list AuditLog.t) :
  AuditLog.deleteMany (AuditRoutes.cleanup_filter cutoff) coll
  = (List.filter (fun e => negb (expendable cutoff e)) coll,
     Z.of_nat (length (List.filter (expendable cutoff) coll))).
Proof.
  unfold AuditLog.deleteMany, AuditLog.countDocuments.
  rewrite find_cleanup_filter. f_equal.
  apply filter_ext_eq. intros a. f_equal. apply matches_cleanup_filter.
Qed.

Lemma cleanup_entry_valid (w : World) (req : Request) (c n d : Z) :
  truthy (ip req) = true ->
  AuditLog.validate (AuditLog.construct w (AuditRoutes.cleanup_entry req c n d)) = true.
Proof.
  intros Hip. unfold AuditLog.validate. cbn. rewrite Hip.
  rewrite andb_true_r. reflexivity.
Qed.

End AuditQueries.

(** C8: for an accepted retention window (absent, or 30 to 365 days) the
    cleanup by a SuperAdmin deletes exactly the entries strictly older than
    the cutoff whose severity is neither high nor critical, so entries of
    severity high or critical and entries at or after the cutoff survive;
    it answers with the count, and, the audit write succeeding, appends one
    entry carrying cutoff date, count and retention days.  A window below
    30 days is answered 400 and nothing is deleted. *)
Theorem cleanup_spares_recent_and_severe (w : World) (req : Request)
    (days : option Z) (db : DB) :
  User.role (user req) = super_admin ->
  AuditRoutes.optional_int 30 365 days = true ->
  truthy (ip req) = true ->
  (forall e, audit_write_fails w e = false) ->
  let retention := parseInt_or days 90 in
  let cutoff := now w - retention * 24 * 60 * 60 * 1000 in
  let deleted := Z.of_nat (length (List.filter (expendable cutoff) (auditlogs db))) in
  let entry := AuditLog.construct w (AuditRoutes.cleanup_entry req cutoff deleted retention) in
  AuditRoutes.cleanup w req days db
  = (mkResponse 200 true "Audit log cleanup completed"
       (Some (AuditRoutes.mkCleanupData deleted cutoff retention)),
     mkDB (users db) (tasks db)
       (List.filter (fun e => negb (expendable cutoff e)) (auditlogs db) ++ [entry]))
  /\ 30 <= retention
  /\ AuditLog.details entry
     = [("action", MStr "audit_log_cleanup"); ("cutoffDate", MDate cutoff);
        ("logsDeleted", MNum deleted); ("retentionDays", MNum retention)]
  /\ (forall e, In e (auditlogs db) ->
        AuditLog.severity e = high \/ AuditLog.severity e = critical
        \/ cutoff <= AuditLog.createdAt e ->
        In e (List.filter (fun e => negb (expendable cutoff e)) (auditlogs db)))
  /\ (forall d, d < 30 ->
        AuditRoutes.cleanup w req (Some d) db
        = (reply 400 false "Validation failed", db)).
Proof.
  intros Hrole Hdays Hip Hok retention cutoff deleted entry.
  assert (Hauth : forall db', authorize w req [super_admin] db' = (Returned true, db')).
  { intros db'. unfold authorize. rewrite Hrole.
    rewrite bool_decide_eq_true_2 by (left). reflexivity. }
  split; [| split; [| split; [| split]]].
  - unfold AuditRoutes.cleanup, try_catch, bind. rewrite Hauth. cbn [negb].
    rewrite Hdays. cbn [negb].
    unfold AuditRoutes.Audit_countDocuments, AuditRoutes.Audit_deleteMany.
    fold retention. fold cutoff.
    rewrite deleteMany_cleanup_filter. fold deleted.
    unfold logAction, AuditLog.logAction, AuditLog.save.
    cbn [users tasks auditlogs].
    rewrite cleanup_entry_valid by exact Hip. cbn [negb].
    rewrite Hok. reflexivity.
  - unfold retention, AuditRoutes.optional_int in *.
    destruct days as [d |]; cbn; [| lia].
    apply andb_true_iff in Hdays as [H1 H2]. apply Z.leb_le in H1.
    destruct (Z.eqb_spec d 0); lia.
  - reflexivity.
  - intros e Hin Hsev. apply filter_In. split; [exact Hin |].
    unfold expendable.
    destruct Hsev as [Hs | [Hs | Hc]].
    + rewrite Hs. cbn. rewrite andb_false_r. reflexivity.
    + rewrite Hs. cbn. rewrite andb_false_r. reflexivity.
    + apply Z.ltb_ge in Hc. rewrite Hc. reflexivity.
  - intros d Hd. unfold AuditRoutes.cleanup, try_catch, bind. rewrite Hauth.
    cbn [negb]. unfold AuditRoutes.optional_int.
    replace (30 <=? d) with false by (symmetry; apply Z.leb_gt; exact Hd).
    reflexivity.
Qed.

Section SecurityQuery.

Lemma insert_desc_perm (a : AuditLog.t) (l : list AuditLog.t) :
  Permutation (AuditLog.insert_desc a l) (a :: l).
Proof.
  induction l as [| b l IH]; cbn; [reflexivity |].
  destruct (AuditLog.createdAt b <? AuditLog.createdAt a); [reflexivity |].
  rewrite IH. apply perm_swap.
Qed.

Lemma sort_desc_perm (l : list AuditLog.t) : Permutation (AuditLog.sort_desc l) l.
Proof.
  induction l as [| a l IH]; cbn; [reflexivity |].
  rewrite insert_desc_perm, IH. reflexivity.
Qed.



End SecurityQuery.


(** ** Account lockout *)

Section Lockout.

Context `{Externals}.

Lemma find_update_first (pe : User.t -> bool) (f : User.t -> User.t)
    (l : list User.t) (u : User.t) :
  NoDup (User._id <$> l) ->
  List.find pe l = Some u ->
  (forall d, pe (f d) = pe d) ->
  List.find pe (update_first (has_id (User._id u)) f l) = Some (f u).
Proof.
  intros Hnd Hf Hpe. induction l as [| a l IH]; cbn in *; [discriminate |].
  apply NoDup_cons in Hnd as [Hna Hnd].
  destruct (pe a) eqn:Ea.
  - injection Hf as ->. unfold has_id at 1. rewrite String.eqb_refl. cbn.
    rewrite Hpe, Ea. reflexivity.
  - assert (Hin : In u l) by (apply find_some in Hf; tauto).
    unfold has_id at 1.
    destruct (String.eqb_spec (User._id a) (User._id u)) as [E | _].
    + exfalso. apply Hna. rewrite E. apply list_elem_of_fmap_2.
      apply list_elem_of_In. exact Hin.
    + cbn. rewrite Ea. apply IH; assumption.
Qed.

Lemma update_first_ids (id : ObjectId) (f : User.t -> User.t) (l : list User.t) :
  (forall d, User._id (f d) = User._id d) ->
  User._id <$> update_first (has_id id) f l = User._id <$> l.
Proof.
  intros Hf. induction l as [| a l IH]; cbn; [reflexivity |].
  destruct (has_id id a); cbn; [rewrite Hf | rewrite IH]; reflexivity.
Qed.

Lemma tracks_update (db : DB) (email : string) (u : User.t)
    (f : User.t -> User.t) (coll : list AuditLog.t) :
  tracks db email u ->
  (forall d, User._id (f d) = User._id d) ->
  (forall d, User.email (f d) = User.email d) ->
  tracks (mkDB (update_first (has_id (User._id u)) f (users db)) (tasks db) coll)
         email (f u).
Proof.
  intros [Hnd Hf] Hid Hem. split.
  - unfold well_keyed. cbn. rewrite update_first_ids by exact Hid. exact Hnd.
  - unfold user_by_email. cbn. apply find_update_first; [exact Hnd | exact Hf |].
    intros d. rewrite Hem. reflexivity.
Qed.

Lemma tracks_audit (db : DB) (email : string) (u : User.t) (coll : list AuditLog.t) :
  tracks db email u -> tracks (mkDB (users db) (tasks db) coll) email u.
Proof. intros [Hnd Hf]. split; assumption. Qed.

Ltac settle_logAction :=
  repeat match goal with
         | |- context [logAction ?w1 ?l ?d] =>
             let r := fresh "r" in
             let c := fresh "c" in
             destruct (logAction_returns w1 l d) as (r & c & ->)
         end.

(** The account is locked: 423, whatever the password and whatever
    bcrypt would say of it. *)
Lemma login_locked (B : Bcrypt) (w : World) (ip ua : option string)
    (body : Auth.loginBody) (db : DB) (u : User.t) :
  isEmail (Auth.email body) = true ->
  Auth.password body <> "" ->
  user_by_email (normalizeEmail (Auth.email body)) db = Some u ->
  User.isLocked w u = true ->
  exists coll,
    Auth.login w ip ua body db
    = (reply 423 false
         "Account is temporarily locked due to multiple failed login attempts",
       mkDB (users db) (tasks db) coll).
Proof.
  intros He Hp Hf Hl. unfold Auth.login, try_catch. rewrite He. cbn [negb orb].
  destruct (String.eqb_spec (Auth.password body) "") as [E | _]; [contradiction |].
  unfold bind at 1. unfold User_findOne_email.
  unfold user_by_email in Hf. rewrite Hf. rewrite Hl.
  unfold bind. settle_logAction. eexists. reflexivity.
Qed.

(** A wrong password on an unlocked, active account: 401 and the
    update of [incLoginAttempts]. *)
Lemma login_wrong_password `{Bcrypt} (w : World) (ip ua : option string)
    (body : Auth.loginBody) (db : DB) (u : User.t) :
  isEmail (Auth.email body) = true ->
  Auth.password body <> "" ->
  user_by_email (normalizeEmail (Auth.email body)) db = Some u ->
  User.isLocked w u = false ->
  User.isActive u = true ->
  User.comparePassword u (Auth.password body) = false ->
  exists coll,
    Auth.login w ip ua body db
    = (reply 401 false "Invalid credentials",
       mkDB (update_first (has_id (User._id u)) (User.incLoginAttempts w u) (users db))
            (tasks db) coll).
Proof.
  intros He Hp Hf Hl Ha Hc. unfold Auth.login, try_catch. rewrite He. cbn [negb orb].
  destruct (String.eqb_spec (Auth.password body) "") as [E | _]; [contradiction |].
  unfold bind at 1. unfold User_findOne_email.
  unfold user_by_email in Hf. rewrite Hf. rewrite Hl, Ha, Hc. cbn [negb].
  unfold bind, User_updateOne. settle_logAction. eexists. reflexivity.
Qed.

(** The right password on an unlocked, active account with failures on
    record: 200, the counters reset, the session stamped. *)
Lemma login_success `{Bcrypt} (w : World) (ip ua : option string)
    (body : Auth.loginBody) (db : DB) (u : User.t) :
  isEmail (Auth.email body) = true ->
  Auth.password body <> "" ->
  user_by_email (normalizeEmail (Auth.email body)) db = Some u ->
  User.isLocked w u = false ->
  User.isActive u = true ->
  User.comparePassword u (Auth.password body) = true ->
  0 < User.get_loginAttempts u ->
  exists coll,
    Auth.login w ip ua body db
    = (mkResponse 200 true "Login successful" (Some (User._id u)),
       mkDB (update_first (has_id (User._id u))
               (fun d => User.set_session (Some (now w))
                           (if truthy (Auth.fcmToken body) then Auth.fcmToken body
                            else User.fcmToken d) d)
               (update_first (has_id (User._id u)) User.resetLoginAttempts (users db)))
            (tasks db) coll).
Proof.
  intros He Hp Hf Hl Ha Hc Hn. unfold Auth.login, try_catch. rewrite He. cbn [negb orb].
  destruct (String.eqb_spec (Auth.password body) "") as [E | _]; [contradiction |].
  unfold bind at 1. unfold User_findOne_email.
  unfold user_by_email in Hf. rewrite Hf. rewrite Hl, Ha, Hc. cbn [negb].
  apply Z.ltb_lt in Hn. rewrite Hn.
  unfold bind, User_updateOne. cbn [users tasks auditlogs].
  settle_logAction. eexists. reflexivity.
Qed.

(** One failed attempt on an account without a lock on record. *)
Lemma failed_attempt `{Bcrypt} (w : World) (ip ua : option string)
    (body : Auth.loginBody) (db : DB) (u : User.t) (n : Z) :
  tracks db (normalizeEmail (Auth.email body)) u ->
  isEmail (Auth.email body) = true ->
  Auth.password body <> "" ->
  User.isActive u = true ->
  User.comparePassword u (Auth.password body) = false ->
  MAX_LOGIN_ATTEMPTS w = None ->
  User.get_loginAttempts u = n ->
  User.lockUntil u = None ->
  tracks (snd (Auth.login w ip ua body db)) (normalizeEmail (Auth.email body))
    (User.set_lockout (Some (n + 1))
       (if 5 <=? n + 1 then Some (now w + User.lockoutTime w) else None) u).
Proof.
  intros Ht He Hp Ha Hc Hmax Hn Hlock.
  assert (Hl : User.isLocked w u = false) by (unfold User.isLocked; rewrite Hlock; reflexivity).
  destruct (login_wrong_password w ip ua body db u He Hp (proj2 Ht) Hl Ha Hc)
    as [coll ->].
  cbn [snd].
  replace (User.set_lockout _ _ u) with (User.incLoginAttempts w u u).
  - apply tracks_update; [exact Ht | |];
      intros d; unfold User.incLoginAttempts;
      repeat case_match; reflexivity.
  - unfold User.incLoginAttempts. rewrite Hlock, Hl.
    unfold User.maxAttempts. rewrite Hmax. cbn [parseInt_or negb].
    rewrite andb_true_r, Hn. destruct (5 <=? n + 1); cbn beta.
    + rewrite Hn. reflexivity.
    + rewrite Hn, Hlock. reflexivity.
Qed.

End Lockout.

(** C4: from a user without failures on record, five logins with a wrong
    password lock the account: [loginAttempts] is 5 and [lockUntil] is the
    instant of the fifth attempt plus the lockout time (1800000 ms unless
    configured).  A sixth login before [lockUntil] answers 423 whatever the
    password and whatever bcrypt would say of it.  A login with the right
    password at or after [lockUntil] answers 200 and leaves [loginAttempts]
    and [lockUntil] unset, which reads as 0 attempts and no lock. *)
Theorem lockout_after_five_failures `{Externals} `{Bcrypt}
    (ip ua : option string) (email good : string) (token : option string)
    (w1 w2 w3 w4 w5 w6 w7 : World) (p1 p2 p3 p4 p5 : string)
    (db : DB) (u : User.t) :
  tracks db (normalizeEmail email) u ->
  isEmail email = true ->
  User.isActive u = true ->
  User.get_loginAttempts u = 0 ->
  User.lockUntil u = None ->
  Forall (fun w : World => MAX_LOGIN_ATTEMPTS w = None) [w1; w2; w3; w4; w5] ->
  Forall (fun p => p <> "" /\ User.comparePassword u p = false) [p1; p2; p3; p4; p5] ->
  good <> "" ->
  User.comparePassword u good = true ->
  now w6 < now w5 + User.lockoutTime w5 ->
  now w5 + User.lockoutTime w5 <= now w7 ->
  let body p := Auth.mkBody email p token in
  let db5 :=
    logins ip ua
      [(w1, body p1); (w2, body p2); (w3, body p3); (w4, body p4); (w5, body p5)]
      db in
  let db6 := snd (Auth.login w6 ip ua (body good) db5) in
  let db7 := snd (Auth.login w7 ip ua (body good) db6) in
  (exists u5,
     user_by_email (normalizeEmail email) db5 = Some u5
     /\ User.get_loginAttempts u5 = 5
     /\ User.lockUntil u5 = Some (now w5 + User.lockoutTime w5))
  /\ (LOCKOUT_TIME w5 = None -> User.lockoutTime w5 = 1800000)
  /\ (forall (B : Bcrypt) (p6 : string), p6 <> "" ->
        exists coll,
          @Auth.login _ B w6 ip ua (body p6) db5
          = (reply 423 false
               "Account is temporarily locked due to multiple failed login attempts",
             mkDB (users db5) (tasks db5) coll))
  /\ fst (Auth.login w7 ip ua (body good) db6)
     = mkResponse 200 true "Login successful" (Some (User._id u))
  /\ (exists u7,
        user_by_email (normalizeEmail email) db7 = Some u7
        /\ User.loginAttempts u7 = None
        /\ User.get_loginAttempts u7 = 0
        /\ User.lockUntil u7 = None).
Proof.
  intros Ht He Ha Hn Hl Hmax Hbad Hgood Hc H6 H7 body db5 db6 db7.
  repeat match goal with
         | F : Forall _ (_ :: _) |- _ => apply Forall_cons in F as [? F]
         end.
  repeat match goal with
         | C : _ /\ _ |- _ => destruct C
         end.
  (* the five failures *)
  pose proof (failed_attempt w1 ip ua (body p1) db u 0) as T1.
  cbn [Auth.email Auth.password body] in T1.
  specialize (T1 Ht He ltac:(assumption) Ha ltac:(assumption) ltac:(assumption) Hn Hl).
  cbn [Z.add Z.leb Z.compare Pos.compare Pos.compare_cont] in T1.
  set (db1 := snd (Auth.login w1 ip ua (body p1) db)) in *.
  pose proof (failed_attempt w2 ip ua (body p2) db1 _ 1 T1 He) as T2.
  cbn [Auth.email Auth.password body] in T2.
  specialize (T2 ltac:(assumption) Ha ltac:(assumption) ltac:(assumption) eq_refl eq_refl).
  cbn in T2.
  set (db2 := snd (Auth.login w2 ip ua (body p2) db1)) in *.
  pose proof (failed_attempt w3 ip ua (body p3) db2 _ 2 T2 He) as T3.
  cbn [Auth.email Auth.password body] in T3.
  specialize (T3 ltac:(assumption) Ha ltac:(assumption) ltac:(assumption) eq_refl eq_refl).
  cbn in T3.
  set (db3 := snd (Auth.login w3 ip ua (body p3) db2)) in *.
  pose proof (failed_attempt w4 ip ua (body p4) db3 _ 3 T3 He) as T4.
  cbn [Auth.email Auth.password body] in T4.
  specialize (T4 ltac:(assumption) Ha ltac:(assumption) ltac:(assumption) eq_refl eq_refl).
  cbn in T4.
  set (db4 := snd (Auth.login w4 ip ua (body p4) db3)) in *.
  pose proof (failed_attempt w5 ip ua (body p5) db4 _ 4 T4 He) as T5.
  cbn [Auth.email Auth.password body] in T5.
  specialize (T5 ltac:(assumption) Ha ltac:(assumption) ltac:(assumption) eq_refl eq_refl).
  cbn in T5.
  change (snd (Auth.login w5 ip ua (body p5) db4)) with db5 in T5.
  set (u5 := User.set_lockout (Some 5) (Some (now w5 + User.lockoutTime w5)) u) in *.
  assert (Hlocked : User.isLocked w6 u5 = true).
  { unfold User.isLocked. cbn. apply Z.ltb_lt. exact H6. }
  split; [| split; [| split; [| split]]].
  - exists u5. split; [apply T5 | split; reflexivity].
  - intros HL. unfold User.lockoutTime. rewrite HL. reflexivity.
  - intros B p6 Hp6.
    apply (login_locked B w6 ip ua (body p6) db5 u5 He Hp6 (proj2 T5) Hlocked).
  - destruct (login_locked _ w6 ip ua (body good) db5 u5 He Hgood (proj2 T5) Hlocked)
      as [coll6 E6].
    assert (T6 : tracks db6 (normalizeEmail email) u5).
    { unfold db6. rewrite E6. cbn [snd]. apply tracks_audit. exact T5. }
    destruct (login_success w7 ip ua (body good) db6 u5 He Hgood (proj2 T6))
      as [coll7 E7].
    + unfold User.isLocked. cbn. apply Z.ltb_ge. exact H7.
    + exact Ha.
    + exact Hc.
    + cbn. lia.
    + rewrite E7. reflexivity.
  - destruct (login_locked _ w6 ip ua (body good) db5 u5 He Hgood (proj2 T5) Hlocked)
      as [coll6 E6].
    assert (T6 : tracks db6 (normalizeEmail email) u5).
    { unfold db6. rewrite E6. cbn [snd]. apply tracks_audit. exact T5. }
    destruct (login_success w7 ip ua (body good) db6 u5 He Hgood (proj2 T6))
      as [coll7 E7].
    + unfold User.isLocked. cbn. apply Z.ltb_ge. exact H7.
    + exact Ha.
    + exact Hc.
    + cbn. lia.
    + pose proof (tracks_update _ _ _ User.resetLoginAttempts (auditlogs db6) T6
                    (fun d => eq_refl) (fun d => eq_refl)) as T7.
      pose proof (tracks_update _ _ _
                    (fun d => User.set_session (Some (now w7))
                                (if truthy (Auth.fcmToken (body good))
                                 then Auth.fcmToken (body good)
                                 else User.fcmToken d) d)
                    coll7 T7 (fun d => eq_refl) (fun d => eq_refl)) as T8.
      cbn [users tasks] in T8.
      change (User._id (User.resetLoginAttempts u5)) with (User._id u5) in T8.
      eexists. split; [unfold db7; rewrite E7; apply T8 |].
      split; [| split]; reflexivity.
Qed.

(** ** Task transitions *)

Section Transitions.

Lemma bind_step {A B} (m : M A) (k : A -> M B) (db : DB) (a : A) (db' : DB) :
  m db = (Returned a, db') -> bind m k db = k a db'.
Proof. intros E. unfold bind. rewrite E. reflexivity. Qed.

Lemma find_replace {A} (p : A -> bool) (s t : A) (l : list A) :
  List.find p l = Some t -> p s = true ->
  List.find p (update_first p (fun _ => s) l) = Some s.
Proof.
  intros Hf Hs. induction l as [| a l IH]; cbn in *; [discriminate |].
  destruct (p a) eqn:Ea; cbn.
  - rewrite Hs. reflexivity.
  - rewrite Ea. apply IH. exact Hf.
Qed.

Lemma find_has_id (id : ObjectId) (l : list User.t) (u : User.t) :
  List.find (has_id id) l = Some u -> User._id u = id.
Proof.
  intros Hf. apply find_some in Hf as [_ Hf]. apply String.eqb_eq. exact Hf.
Qed.

Lemma find_task_has_id (id : ObjectId) (l : list Task.t) (t : Task.t) :
  List.find (task_has_id id) l = Some t -> Task._id t = id.
Proof.
  intros Hf. apply find_some in Hf as [_ Hf]. apply String.eqb_eq. exact Hf.
Qed.

Lemma hasPermission_resolved (user : User.t) (status : Status)
    (b a : Populated.t) (db : DB) :
  TaskRoutes.hasPermission user status (Some b) (Some a) db
  = (Returned (permitted user status b a), db).
Proof.
  unfold TaskRoutes.hasPermission, permitted, bind, deref, ret.
  destruct status; cbn;
    destruct (TaskRoutes.is_role super_admin user);
    destruct (TaskRoutes.same_id (Populated._id b) (User._id user));
    destruct (TaskRoutes.same_id (Populated._id a) (User._id user));
    destruct (TaskRoutes.is_role manager user);
    cbn; reflexivity.
Qed.

(** The owning-Manager clause reads [managerId] of a document that was
    populated with [name email role] only. *)
Lemma managed_by_unselected (assignee actor : User.t) :
  TaskRoutes.managed_by (project TaskRoutes.selected assignee) actor = false.
Proof. reflexivity. Qed.



Lemma transition_status (w : World) (t : Task.t) (status : Status)
    (actor : ObjectId) (c r : option string) :
  Task.status (transition w t status actor c r) = status
  /\ Task._id (transition w t status actor c r) = Task._id t.
Proof.
  unfold transition, Task.updateStatus, Task.pre_save.
  repeat case_match; cbn; split; reflexivity.
Qed.


End Transitions.

Section TransitionRules.

Lemma permitted_iff (actor : User.t) (status : Status) (t : Task.t)
    (by_ to_ : User.t) (db : DB) :
  user_by_id (Task.assignedBy t) db = Some by_ ->
  user_by_id (Task.assignedTo t) db = Some to_ ->
  permitted actor status (project TaskRoutes.selected by_)
            (project TaskRoutes.selected to_) = true
  <-> allowed_directly status actor t.
Proof.
  intros Hby Hto. apply find_has_id in Hby, Hto.
  unfold permitted, allowed_directly, TaskRoutes.same_id, TaskRoutes.is_role.
  rewrite managed_by_unselected, andb_false_r, !orb_false_r. cbn [Populated._id project].
  rewrite Hby, Hto.
  destruct status;
    rewrite ?orb_true_iff, ?bool_decide_eq_true, ?String.eqb_eq;
    intuition congruence.
Qed.


(** [completedAt] survives every transition once it is set. *)
Lemma completedAt_kept (w : World) (t : Task.t) (status : Status)
    (actor : ObjectId) (c r : option string) (d : Date) :
  Task.completedAt t = Some d ->
  Task.completedAt (transition w t status actor c r) = Some d.
Proof.
  intros Hd.
  unfold transition, Task.updateStatus, Task.pre_save.
  repeat case_match; cbn in *; rewrite ?Hd in *; try reflexivity;
    try discriminate;
    match goal with
    | E : _ && negb (bool_decide (is_Some (Some d))) = true |- _ =>
        apply andb_true_iff in E as [_ E];
        apply negb_true_iff, bool_decide_eq_false in E;
        exfalso; apply E; eauto
    end.
Qed.

(** [approvedAt] is stamped anew by every approval. *)
Lemma approvedAt_restamped (w : World) (t : Task.t) (actor : ObjectId)
    (c r : option string) :
  Task.approvedAt (transition w t approved actor c r) = Some (now w)
  /\ Task.approvedBy (transition w t approved actor c r) = Some actor.
Proof.
  unfold transition.
  rewrite (bool_decide_eq_false_2 (approved = rejected)) by discriminate.
  unfold Task.updateStatus.
  rewrite (bool_decide_eq_true_2 (approved = approved)) by reflexivity.
  unfold Task.pre_save. cbn.
  repeat case_match; cbn; split; reflexivity.
Qed.

End TransitionRules.



Section TaskEdits.

Context `{Externals}.

(** Whoever is neither SuperAdmin nor the assigner is refused by
    [canEdit], the assignee and the assignee's Manager included. *)
Lemma update_task_refuses_all_but_admin_and_assigner (w : World) (req : Request)
    (taskId : ObjectId) (body updates : gmap string JVal) (db : DB)
    (t : Task.t) (by_ to_ : User.t) :
  TaskRoutes.validate_update body = Some updates ->
  task_by_id taskId db = Some t ->
  user_by_id (Task.assignedBy t) db = Some by_ ->
  user_by_id (Task.assignedTo t) db = Some to_ ->
  User.role (user req) <> super_admin ->
  User._id (user req) <> Task.assignedBy t ->
  TaskRoutes.update_task w req taskId body db
  = (reply 403 false "You do not have permission to edit this task", db).
Proof.
  intros Hv Ht Hby Hto Hrole Hid.
  unfold TaskRoutes.update_task, try_catch. rewrite Hv.
  rewrite (bind_step _ _ db (Some t) db)
    by (unfold Task_findById; f_equal; f_equal; exact Ht).
  rewrite (bind_step _ _ db (Some (project TaskRoutes.selected by_)) db)
    by (unfold populate; f_equal; f_equal; unfold user_by_id in Hby;
        rewrite Hby; reflexivity).
  rewrite (bind_step _ _ db (Some (project TaskRoutes.selected to_)) db)
    by (unfold populate; f_equal; f_equal; unfold user_by_id in Hto;
        rewrite Hto; reflexivity).
  rewrite (bind_step _ _ db false db); [reflexivity |].
  unfold TaskRoutes.canEdit, TaskRoutes.is_role.
  rewrite (bool_decide_eq_false_2 (User.role (user req) = super_admin))
    by exact Hrole.
  unfold bind, deref, ret. cbn [Populated._id project].
  unfold TaskRoutes.same_id.
  destruct (String.eqb_spec (User._id by_) (User._id (user req))) as [E | _].
  - exfalso. apply Hid. rewrite <- E. apply (find_has_id _ _ _ Hby).
  - destruct (bool_decide (User.role (user req) = manager)); reflexivity.
Qed.

End TaskEdits.

(** ** User updates by a Manager *)

Section ManagerUpdates.

Context `{Externals}.

Lemma check_key_None (key : string) (chk : JVal -> option JVal) :
  TaskRoutes.check_key key chk None = None.
Proof. reflexivity. Qed.


Lemma check_key_same (key : string) (chk : JVal -> option JVal)
    (b b' : gmap string JVal) :
  TaskRoutes.check_key key chk (Some b) = Some b' ->
  TaskRoutes.check_key key chk (Some (delete key b)) = Some (delete key b')
  /\ (forall k, k <> key -> b' !! k = b !! k).
Proof.
  cbn. rewrite lookup_delete_eq. intros Hc.
  destruct (b !! key) as [v |].
  - destruct (chk v) as [v' |]; [| discriminate]. injection Hc as <-.
    rewrite delete_insert_eq. split; [reflexivity |].
    intros k Hk. apply lookup_insert_ne. congruence.
  - injection Hc as <-. split; [reflexivity | reflexivity].
Qed.

Lemma check_key_lookup (key : string) (chk : JVal -> option JVal)
    (b b' : gmap string JVal) (k : string) :
  TaskRoutes.check_key key chk (Some b) = Some b' -> k <> key ->
  b' !! k = b !! k.
Proof. intros Hc. apply (check_key_same key chk b b' Hc). Qed.







(** *** The frame *)










End ManagerUpdates.

Section ManagerFrame.

Context `{Externals}.




Lemma find_update_first_self (id : ObjectId) (f : User.t -> User.t)
    (l : list User.t) (u : User.t) :
  List.find (has_id id) l = Some u ->
  User._id (f u) = User._id u ->
  List.find (has_id id) (update_first (has_id id) f l) = Some (f u).
Proof.
  intros Hf Hid. induction l as [| a l IH]; cbn in *; [discriminate |].
  destruct (has_id id a) eqn:Ea; cbn.
  - injection Hf as ->. unfold has_id in *. rewrite Hid, Ea. reflexivity.
  - rewrite Ea. apply IH. exact Hf.
Qed.



End ManagerFrame.


(** ** Behaviour on sample data *)



(** C3: a second approval replaces the [approvedAt] of the first. *)
Theorem second_approval_restamps_approvedAt :
  let first :=
    TaskRoutes.update_status (Sample.world 1760000000000)
      (Sample.request Sample.lead) "64c000000000000000000002"
      (TaskRoutes.mkStatusBody "approved" None None) Sample.db in
  let second :=
    TaskRoutes.update_status (Sample.world 1770000000000)
      (Sample.request Sample.admin) "64c000000000000000000002"
      (TaskRoutes.mkStatusBody "approved" None None) (snd first) in
  code (fst first) = 200
  /\ (Task.approvedAt <$> task_by_id "64c000000000000000000002" (snd first)
      = Some (Some 1760000000000))
  /\ code (fst second) = 200
  /\ (Task.approvedAt <$> task_by_id "64c000000000000000000002" (snd second)
      = Some (Some 1770000000000)).
Proof. vm_compute. repeat split. Qed.

(** A patch may name [completedAt]: the SuperAdmin clears the timestamp
    of the submitted task. *)
Lemma patch_overwrites_completedAt :
  let result :=
    TaskRoutes.update_task (H := Sample.externals) (Sample.world 1800000000000)
      (Sample.request Sample.admin) "64c000000000000000000002"
      {[ "completedAt" := JNull ]} Sample.db in
  code (fst result) = 200
  /\ (Task.completedAt <$> task_by_id "64c000000000000000000002" Sample.db
      = Some (Some 1750000000000))
  /\ (Task.completedAt <$> task_by_id "64c000000000000000000002" (snd result)
      = Some None).
Proof. vm_compute. repeat split. Qed.

(** C6: the assignee, an Employee, sends a patch with [actualHours]
    alone and is refused by the [canEdit] check. *)
Theorem assignee_cannot_record_actual_hours :
  TaskRoutes.update_task (H := Sample.externals) (Sample.world 1800000000000)
    (Sample.request Sample.worker) "64c000000000000000000001"
    {[ "actualHours" := JNum 3 ]} Sample.db
  = (reply 403 false "You do not have permission to edit this task", Sample.db).
Proof. vm_compute. reflexivity. Qed.


(** ** Instances on the sample data *)



(** Five wrong guesses, one second apart, then the right password
    after the lockout has run out. *)
Lemma lockout_after_five_failures_witness :
  let body p := Auth.mkBody "eli@example.com" p None in
  let at_ t := Sample.world t in
  let db5 :=
    logins (H := Sample.externals) (H0 := Sample.bcrypt) None None
      [(at_ 1000, body "guess1"); (at_ 2000, body "guess2");
       (at_ 3000, body "guess3"); (at_ 4000, body "guess4");
       (at_ 5000, body "guess5")]
      Sample.db in
  let db6 :=
    snd (Auth.login (H := Sample.externals) (H0 := Sample.bcrypt)
           (at_ 6000) None None (body "hashE") db5) in
  (exists u5,
     user_by_email "eli@example.com" db5 = Some u5
     /\ User.get_loginAttempts u5 = 5
     /\ User.lockUntil u5 = Some 1805000)
  /\ fst (Auth.login (H := Sample.externals) (H0 := Sample.bcrypt)
            (at_ 1805000) None None (body "hashE") db6)
     = mkResponse 200 true "Login successful" (Some "64b000000000000000000003").
Proof.
  cbv zeta.
  destruct (lockout_after_five_failures (H := Sample.externals) (H0 := Sample.bcrypt)
              None None "eli@example.com" "hashE" None
              (Sample.world 1000) (Sample.world 2000) (Sample.world 3000)
              (Sample.world 4000) (Sample.world 5000) (Sample.world 6000)
              (Sample.world 1805000)
              "guess1" "guess2" "guess3" "guess4" "guess5"
              Sample.db Sample.worker)
    as (H5 & _ & _ & H7 & _).
  - split; [| reflexivity]. unfold well_keyed.
    apply (bool_decide_unpack _). vm_compute. exact I.
  - reflexivity.
  - reflexivity.
  - reflexivity.
  - reflexivity.
  - repeat constructor.
  - repeat constructor; try discriminate.
  - discriminate.
  - reflexivity.
  - vm_compute. reflexivity.
  - vm_compute. discriminate.
  - split; [exact H5 | exact H7].
Defined.


(** A cleanup with a window of 30 days. *)
Lemma cleanup_spares_recent_and_severe_witness :
  let db := mkDB [Sample.admin] [] [Sample.old_login; Sample.severe] in
  exists entry,
    AuditRoutes.cleanup (Sample.world 1800000000000) (Sample.request Sample.admin)
      (Some 30) db
    = (mkResponse 200 true "Audit log cleanup completed"
         (Some (AuditRoutes.mkCleanupData 1 1797408000000 30)),
       mkDB [Sample.admin] [] [Sample.severe; entry]).
Proof.
  cbv zeta.
  destruct (cleanup_spares_recent_and_severe (Sample.world 1800000000000)
              (Sample.request Sample.admin) (Some 30)
              (mkDB [Sample.admin] [] [Sample.old_login; Sample.severe]))
    as (Hres & _); [reflexivity | reflexivity | reflexivity | reflexivity |].
  eexists. exact Hres.
Defined.


(** A login for an address that no user has. *)
Lemma null_actor_entry_is_dropped_witness :
  let body := Auth.mkBody "nobody@example.com" "Secret1" None in
  Auth.login (H := Sample.externals) (H0 := Sample.bcrypt)
    (Sample.world 1800000000000) (Some "203.0.113.7") None body Sample.db
  = (reply 401 false "Invalid credentials", Sample.db).
Proof.
  cbv zeta.
  apply (null_actor_entry_is_dropped (H := Sample.externals) (H0 := Sample.bcrypt)
           (Sample.world 1800000000000)
           (Auth.failed_login (Some "203.0.113.7") None None "nobody@example.com"
              "user_not_found" medium)
           [] (Some "203.0.113.7") None
           (Auth.mkBody "nobody@example.com" "Secret1" None) Sample.db);
    [reflexivity | reflexivity | discriminate | reflexivity].
Defined.

(** * Further properties *)

(** ** The limiter of sensitive operations *)

Section Limiter.

Lemma filter_length_le {A} (f : A -> bool) (l : list A) :
  (length (List.filter f l) <= length l)%nat.
Proof. induction l as [| a l IH]; simpl; [lia |]. destruct (f a); simpl; lia. Qed.

Lemma filter_filter_imp {A} (f g : A -> bool) (l : list A) :
  (forall a, f a = true -> g a = true) ->
  List.filter f (List.filter g l) = List.filter f l.
Proof.
  intros Hfg. induction l as [| a l IH]; simpl; [reflexivity |].
  destruct (g a) eqn:Hg; simpl.
  - destruct (f a); [f_equal |]; exact IH.
  - destruct (f a) eqn:Hf; [| exact IH].
    apply Hfg in Hf. congruence.
Qed.

Lemma filter_none {A} (f : A -> bool) (l : list A) :
  (forall a, In a l -> f a = false) -> List.filter f l = [].
Proof.
  induction l as [| a l IH]; simpl; intros Hf; [reflexivity |].
  rewrite (Hf a) by (left; reflexivity). apply IH. intros b Hb. apply Hf. right. exact Hb.
Qed.

Lemma within_window_app (t : Date) (l1 l2 : list Date) :
  within_window t (l1 ++ l2) = within_window t l1 ++ within_window t l2.
Proof. unfold within_window. apply List.filter_app. Qed.

Lemma within_window_length_le (t : Date) (l : list Date) :
  (length (within_window t l) <= length l)%nat.
Proof. apply filter_length_le. Qed.

Lemma within_window_recent_later (now t : Date) (l : list Date) :
  now <= t ->
  within_window t (RateLimit.recent now l) = within_window t l.
Proof.
  intros Hle. unfold within_window, RateLimit.recent.
  apply filter_filter_imp. intros a Ha.
  apply andb_true_iff in Ha as [Ha _].
  apply Z.ltb_lt in Ha. apply Z.ltb_lt. lia.
Qed.

Lemma within_window_recent_le (now t : Date) (l : list Date) :
  (length (within_window t (RateLimit.recent now l)) <= length (within_window t l))%nat.
Proof.
  unfold within_window, RateLimit.recent.
  induction l as [| a l IH]; simpl; [lia |].
  destruct (now - a <? RateLimit.windowMs); simpl;
    destruct ((t - RateLimit.windowMs <? a) && (a <=? t)); simpl; lia.
Qed.

Lemma within_window_earlier (t : Date) (l : list Date) :
  Forall (fun a => t < a) l -> within_window t l = [].
Proof.
  intros Hl. apply filter_none. intros a Ha.
  rewrite Forall_forall in Hl. apply list_elem_of_In in Ha. apply Hl in Ha.
  apply andb_false_iff. right. apply Z.leb_gt. exact Ha.
Qed.

Lemma limited_later (ip : option string) (user : option User.t) (times : list Date)
    (store : gmap string (list Date)) (b : Date) :
  Forall (Z.le b) times -> Forall (Z.le b) (fst (limited ip user times store)).
Proof.
  revert store. induction times as [| now rest IH]; intros store Hb; simpl.
  - constructor.
  - apply Forall_cons in Hb as [Hnow Hrest].
    destruct (RateLimit.sensitiveOperationLimit now ip user store) as [ok store'].
    specialize (IH store' Hrest).
    destruct (limited ip user rest store') as [later store'']. simpl in *.
    destruct ok; [constructor |]; assumption.
Qed.

Lemma limited_sparse (ip : option string) (user : option User.t) (times : list Date)
    (store : gmap string (list Date)) :
  StronglySorted Z.le times ->
  sparse (default [] (store !! RateLimit.key ip user)) ->
  sparse (default [] (store !! RateLimit.key ip user)
          ++ fst (limited ip user times store)).
Proof.
  revert store. induction times as [| now rest IH]; intros store Hsorted Hsparse.
  - simpl. rewrite app_nil_r. exact Hsparse.
  - apply StronglySorted_inv in Hsorted as [Hsorted Hnow].
    simpl. unfold RateLimit.sensitiveOperationLimit.
    set (k := RateLimit.key ip user) in *.
    set (L := default [] (store !! k)) in *.
    destruct (RateLimit.maxAttempts <=? length (RateLimit.recent now L))%nat eqn:Hfull.
    + specialize (IH store Hsorted Hsparse).
      destruct (limited ip user rest store) as [later store'']. exact IH.
    + apply Nat.leb_gt in Hfull. unfold RateLimit.maxAttempts in Hfull.
      set (store' := <[k := RateLimit.recent now L ++ [now]]> store).
      assert (Hk : default [] (store' !! k) = RateLimit.recent now L ++ [now]).
      { unfold store'. rewrite lookup_insert_eq. reflexivity. }
      assert (Hsparse' : sparse (RateLimit.recent now L ++ [now])).
      { intros t. rewrite within_window_app.
        rewrite length_app.
        destruct (Z.le_gt_cases now t) as [Hle | Hgt].
        - pose proof (within_window_length_le t (RateLimit.recent now L)) as H1.
          pose proof (within_window_length_le t [now]) as H2.
          change (length [now]) with 1%nat in H2. unfold Date in *. lia.
        - rewrite (within_window_earlier t [now]) by (constructor; [lia | constructor]).
          pose proof (within_window_recent_le now t L) as H1.
          specialize (Hsparse t). simpl. lia. }
      pose proof (limited_later ip user rest store' now Hnow) as Hlater.
      specialize (IH store' Hsorted). fold k in IH. rewrite Hk in IH.
      specialize (IH Hsparse').
      destruct (limited ip user rest store') as [later store'']. simpl in *.
      intros t. specialize (IH t).
      rewrite within_window_app. rewrite !within_window_app in IH.
      destruct (Z.le_gt_cases now t) as [Hle | Hgt].
      * rewrite within_window_recent_later in IH by exact Hle.
        change (now :: later) with ([now] ++ later).
        rewrite within_window_app. rewrite !length_app in *. lia.
      * rewrite (within_window_earlier t (now :: later)).
        { rewrite app_nil_r. apply Hsparse. }
        constructor; [lia |].
        eapply Forall_impl; [exact Hlater |]. simpl. intros a Ha. lia.
Qed.

(** Looking forward from [now], the stored list and the list of all
    admitted instants show the same recent attempts. *)
Lemma limited_recent (ip : option string) (user : option User.t) (times : list Date)
    (store : gmap string (list Date)) (t : Date) :
  StronglySorted Z.le times ->
  Forall (fun a => a <= t) times ->
  RateLimit.recent t
    (default [] (snd (limited ip user times store) !! RateLimit.key ip user))
  = RateLimit.recent t
      (default [] (store !! RateLimit.key ip user)
       ++ fst (limited ip user times store)).
Proof.
  revert store. induction times as [| now rest IH]; intros store Hsorted Hle.
  - simpl. rewrite app_nil_r. reflexivity.
  - apply StronglySorted_inv in Hsorted as [Hsorted Hnow].
    apply Forall_cons in Hle as [Hnowt Hle].
    simpl. unfold RateLimit.sensitiveOperationLimit.
    set (k := RateLimit.key ip user) in *.
    set (L := default [] (store !! k)) in *.
    destruct (RateLimit.maxAttempts <=? length (RateLimit.recent now L))%nat eqn:Hfull.
    + specialize (IH store Hsorted Hle).
      destruct (limited ip user rest store) as [later store'']. exact IH.
    + set (store' := <[k := RateLimit.recent now L ++ [now]]> store).
      assert (Hk : default [] (store' !! k) = RateLimit.recent now L ++ [now]).
      { unfold store'. rewrite lookup_insert_eq. reflexivity. }
      specialize (IH store' Hsorted Hle). fold k in IH. rewrite Hk in IH.
      destruct (limited ip user rest store') as [later store'']. simpl in *.
      rewrite IH. unfold RateLimit.recent.
      rewrite !List.filter_app.
      rewrite (filter_filter_imp (fun time => t - time <? RateLimit.windowMs)
                 (fun time => now - time <? RateLimit.windowMs)).
      * simpl. rewrite <- app_assoc. destruct (t - now <? RateLimit.windowMs); reflexivity.
      * intros a Ha. apply Z.ltb_lt in Ha. apply Z.ltb_lt. lia.
Qed.

End Limiter.

(** X1: of the requests that one client sends in order of time to a limiter
    that holds nothing under the client's key, at most five are admitted
    within any window of fifteen minutes. *)
Theorem limiter_admits_five_per_window (ip : option string) (user : option User.t)
    (times : list Date) (store : gmap string (list Date)) (t : Date) :
  StronglySorted Z.le times ->
  store !! RateLimit.key ip user = None ->
  (length (within_window t (fst (limited ip user times store))) <= 5)%nat.
Proof.
  intros Hsorted Hfresh.
  pose proof (limited_sparse ip user times store Hsorted) as H.
  rewrite Hfresh in H. simpl in H. apply H.
  intros t'. simpl. lia.
Qed.

(** X2: after such a run the limiter decides on the next request by the
    admitted requests alone: it refuses when five of them lie less than
    fifteen minutes back, and otherwise admits the request and stores
    those of them that lie less than fifteen minutes back, followed by
    the new instant.  A refused request leaves no trace in the store. *)
Theorem limiter_counts_admitted_only (ip : option string) (user : option User.t)
    (times : list Date) (store : gmap string (list Date)) (now : Date) :
  StronglySorted Z.le times ->
  Forall (fun a => a <= now) times ->
  store !! RateLimit.key ip user = None ->
  let '(admitted, store') := limited ip user times store in
  RateLimit.sensitiveOperationLimit now ip user store'
  = if (5 <=? length (RateLimit.recent now admitted))%nat
    then (false, store')
    else (true, <[RateLimit.key ip user := RateLimit.recent now admitted ++ [now]]> store').
Proof.
  intros Hsorted Hle Hfresh.
  pose proof (limited_recent ip user times store now Hsorted Hle) as H.
  rewrite Hfresh in H. simpl in H.
  destruct (limited ip user times store) as [admitted store']. simpl in H.
  unfold RateLimit.sensitiveOperationLimit. rewrite H. reflexivity.
Qed.

(** ** Sessions *)

Section Frames.

Lemma preserves_ret {A} (P : DB -> Prop) (a : A) : preserves P (ret a).
Proof. intros db HP. exact HP. Qed.

Lemma preserves_throw {A} (P : DB -> Prop) (e : JsError) : preserves P (@throw A e).
Proof. intros db HP. exact HP. Qed.

Lemma preserves_bind {A B} (P : DB -> Prop) (m : M A) (k : A -> M B) :
  preserves P m -> (forall a, preserves P (k a)) -> preserves P (bind m k).
Proof.
  intros Hm Hk db HP. unfold bind. specialize (Hm db HP).
  destruct (m db) as [[a | e] db']; cbn [snd] in *; [apply Hk |]; exact Hm.
Qed.

Lemma preserves_try_catch {A} (P : DB -> Prop) (m : M A) (h : JsError -> A) (db : DB) :
  preserves P m -> P db -> P (snd (try_catch m h db)).
Proof.
  intros Hm HP. unfold try_catch. specialize (Hm db HP).
  destruct (m db) as [[a | e] db']; exact Hm.
Qed.

Lemma preserves_read {A} (P : DB -> Prop) (f : DB -> A) :
  preserves P (fun db => (Returned (f db), db)).
Proof. intros db HP. exact HP. Qed.

(** A property of the users and tasks alone survives an audit write. *)
Lemma preserves_logAction (P : DB -> Prop) (w : World) (l : AuditLog.logData) :
  (forall db coll, P db -> P (mkDB (users db) (tasks db) coll)) ->
  preserves P (logAction w l).
Proof.
  intros Haudit db HP.
  destruct (logAction_returns w l db) as (r & coll & ->). cbn [snd].
  apply Haudit. exact HP.
Qed.

Lemma fmap_update_first {A B} (g : A -> B) (p : A -> bool) (f : A -> A) (l : list A) :
  (forall d, g (f d) = g d) -> g <$> update_first p f l = g <$> l.
Proof.
  intros Hg. induction l as [| a l IH]; [reflexivity |].
  cbn [update_first]. destruct (p a); cbn [fmap list_fmap].
  - rewrite Hg. reflexivity.
  - f_equal. exact IH.
Qed.

End Frames.

Section Sessions.

Context `{Externals} `{Bcrypt} `{Jwt}.

Ltac settle_logAction :=
  repeat match goal with
         | |- context [logAction ?w1 ?l ?d] =>
             let r := fresh "r" in
             let c := fresh "c" in
             destruct (logAction_returns w1 l d) as (r & c & ->)
         end.

Lemma substring_all (s : string) : String.substring 0 (String.length s) s = s.
Proof. induction s as [| c s IH]; [reflexivity |]. cbn. rewrite IH. reflexivity. Qed.

Lemma replace_Bearer (token : string) :
  String_replace "Bearer " "" ("Bearer " +:+ token) = token.
Proof.
  unfold String_replace.
  assert (Hi : String.index 0 "Bearer " ("Bearer " +:+ token) = Some 0%nat).
  { cbn. destruct token; reflexivity. }
  rewrite Hi. simpl. rewrite Nat.sub_0_r. apply substring_all.
Qed.

(** The stored user with the id of a stored user is that user, when ids
    are unique. *)
Lemma find_by_own_id (l : list User.t) (u : User.t) :
  NoDup (User._id <$> l) -> In u l -> List.find (has_id (User._id u)) l = Some u.
Proof.
  induction l as [| a l IH]; intros Hnd Hin; [destruct Hin |].
  cbn [fmap list_fmap] in Hnd. apply NoDup_cons in Hnd as [Hfresh Hnd].
  cbn [List.find]. unfold has_id at 1.
  destruct (String.eqb_spec (User._id a) (User._id u)) as [E | NE].
  - destruct Hin as [-> | Hin]; [reflexivity |].
    exfalso. apply Hfresh. rewrite E.
    apply list_elem_of_fmap. exists u. split; [reflexivity |].
    apply list_elem_of_In. exact Hin.
  - destruct Hin as [-> | Hin]; [contradiction |]. apply IH; assumption.
Qed.

Lemma find_some_In {A} (p : A -> bool) (l : list A) (a : A) :
  List.find p l = Some a -> In a l.
Proof. intros Hf. apply List.find_some in Hf. tauto. Qed.

(** The right password on an unlocked, active account, with or without
    failures on record. *)
Lemma login_admits (w : World) (ip ua : option string)
    (body : Auth.loginBody) (db : DB) (u : User.t) :
  isEmail (Auth.email body) = true ->
  Auth.password body <> "" ->
  user_by_email (normalizeEmail (Auth.email body)) db = Some u ->
  User.isLocked w u = false ->
  User.isActive u = true ->
  User.comparePassword u (Auth.password body) = true ->
  exists coll,
    Auth.login w ip ua body db
    = (mkResponse 200 true "Login successful" (Some (User._id u)),
       mkDB (update_first (has_id (User._id u))
               (fun d => User.set_session (Some (now w))
                           (if truthy (Auth.fcmToken body) then Auth.fcmToken body
                            else User.fcmToken d) d)
               (if 0 <? User.get_loginAttempts u
                then update_first (has_id (User._id u)) User.resetLoginAttempts (users db)
                else users db))
            (tasks db) coll).
Proof.
  intros He Hp Hf Hl Ha Hc. unfold Auth.login, try_catch. rewrite He. cbn [negb orb].
  destruct (String.eqb_spec (Auth.password body) "") as [E | _]; [contradiction |].
  unfold bind at 1. unfold User_findOne_email.
  unfold user_by_email in Hf. rewrite Hf. rewrite Hl, Ha, Hc. cbn [negb].
  destruct (0 <? User.get_loginAttempts u);
    unfold bind, User_updateOne, ret; cbn [users tasks auditlogs];
    settle_logAction; eexists; reflexivity.
Qed.

(** The stored user after a successful login. *)
Lemma login_stamps (w : World) (ip ua : option string)
    (body : Auth.loginBody) (db : DB) (u : User.t) :
  well_keyed db ->
  isEmail (Auth.email body) = true ->
  Auth.password body <> "" ->
  user_by_email (normalizeEmail (Auth.email body)) db = Some u ->
  User.isLocked w u = false ->
  User.isActive u = true ->
  User.comparePassword u (Auth.password body) = true ->
  let result := Auth.login w ip ua body db in
  fst result = mkResponse 200 true "Login successful" (Some (User._id u))
  /\ well_keyed (snd result)
  /\ user_by_id (User._id u) (snd result)
     = Some (User.set_session (Some (now w))
               (if truthy (Auth.fcmToken body) then Auth.fcmToken body
                else User.fcmToken u)
               (if 0 <? User.get_loginAttempts u then User.resetLoginAttempts u else u)).
Proof.
  intros Hkeys He Hp Hf Hl Ha Hc result. subst result.
  destruct (login_admits w ip ua body db u He Hp Hf Hl Ha Hc) as [coll ->].
  cbn [fst snd]. split; [reflexivity |].
  assert (Hid : List.find (has_id (User._id u)) (users db) = Some u).
  { apply find_by_own_id; [exact Hkeys |]. eapply find_some_In. exact Hf. }
  unfold well_keyed, user_by_id. cbn [users].
  destruct (0 <? User.get_loginAttempts u).
  - split.
    + rewrite !update_first_ids by reflexivity. exact Hkeys.
    + pose proof (find_update_first_self (User._id u) User.resetLoginAttempts
                    (users db) u Hid eq_refl) as Hreset.
      apply (find_update_first_self (User._id u)
               (fun d => User.set_session (Some (now w))
                           (if truthy (Auth.fcmToken body) then Auth.fcmToken body
                            else User.fcmToken d) d)) in Hreset; [| reflexivity].
      exact Hreset.
  - split.
    + rewrite update_first_ids by reflexivity. exact Hkeys.
    + apply (find_update_first_self (User._id u)
               (fun d => User.set_session (Some (now w))
                           (if truthy (Auth.fcmToken body) then Auth.fcmToken body
                            else User.fcmToken d) d)) in Hid; [| reflexivity].
      exact Hid.
Qed.

Lemma authenticate_stored (w : World) (ST : option Z) (token : string)
    (ip ua : option string) (db : DB) (u : User.t) :
  token <> "" ->
  jwt_verify token = Payload (User._id u) ->
  user_by_id (User._id u) db = Some u ->
  User.isActive u = true ->
  User.isLocked w u = false ->
  authenticate w ST (Some ("Bearer " +:+ token)) ip ua db
  = if match User.lastLogin u with
       | Some lastLogin => sessionTimeout ST <? now w - lastLogin
       | None => false
       end
    then
      (inl (reply 401 false "Session expired. Please login again."),
       snd (logAction w
              (AuditLog.mkData (Some (User._id u)) "logout" "auth" None
                 [("reason", MStr "session_timeout")]
                 ip ua None None (Some security)) db))
    else (inr u, db).
Proof.
  intros Htok Hjwt Hfind Hactive Hlocked.
  unfold authenticate, try_catch. cbn [fmap option_fmap option_map].
  rewrite replace_Bearer. cbn [truthy default from_option id].
  destruct (String.eqb_spec token "") as [E | _]; [contradiction |]. cbn [negb].
  rewrite Hjwt. unfold bind at 1. unfold User_findById.
  unfold user_by_id in Hfind. rewrite Hfind. rewrite Hactive, Hlocked. cbn [negb].
  destruct (match User.lastLogin u with
            | Some lastLogin => sessionTimeout ST <? now w - lastLogin
            | None => false
            end).
  - unfold bind. destruct (logAction_returns w
              (AuditLog.mkData (Some (User._id u)) "logout" "auth" None
                 [("reason", MStr "session_timeout")]
                 ip ua None None (Some security)) db) as (r & coll & ->).
    reflexivity.
  - reflexivity.
Qed.

End Sessions.

(** X3: when [authenticate] calls [next()], [req.user] is a stored user
    whose id the verified token of the [Authorization] header names, who
    is active and not locked and whose last login lies at most
    [sessionTimeout] back, and the database is as it was. *)
Theorem authenticate_admits_only_live_sessions `{Jwt} (w : World) (ST : option Z)
    (authorization ip ua : option string) (db db' : DB) (u : User.t) :
  authenticate w ST authorization ip ua db = (inr u, db') ->
  db' = db
  /\ user_by_id (User._id u) db = Some u
  /\ User.isActive u = true
  /\ User.isLocked w u = false
  /\ (forall lastLogin, User.lastLogin u = Some lastLogin ->
        now w - lastLogin <= sessionTimeout ST)
  /\ (exists header,
        authorization = Some header
        /\ jwt_verify (String_replace "Bearer " "" header) = Payload (User._id u)).
Proof.
  unfold authenticate, try_catch. intros Hrun.
  destruct authorization as [header |]; cbn [fmap option_fmap option_map] in Hrun;
    [| cbn in Hrun; discriminate].
  destruct (negb (truthy (Some (String_replace "Bearer " "" header))));
    [cbn in Hrun; discriminate |].
  cbn [default from_option id] in Hrun.
  destruct (jwt_verify (String_replace "Bearer " "" header)) as [userId | | |] eqn:Hjwt;
    try (cbn in Hrun; discriminate).
  unfold bind at 1 in Hrun. unfold User_findById in Hrun.
  destruct (List.find (has_id userId) (users db)) as [user |] eqn:Hfind;
    [| cbn in Hrun; discriminate].
  destruct (User.isActive user) eqn:Hactive; cbn [negb] in Hrun;
    [| cbn in Hrun; discriminate].
  destruct (User.isLocked w user) eqn:Hlocked; [cbn in Hrun; discriminate |].
  destruct (match User.lastLogin user with
            | Some lastLogin => sessionTimeout ST <? now w - lastLogin
            | None => false
            end) eqn:Hsession.
  - unfold bind in Hrun.
    destruct (logAction_returns w
                (AuditLog.mkData (Some (User._id user)) "logout" "auth" None
                   [("reason", MStr "session_timeout")]
                   ip ua None None (Some security)) db) as (r & coll & Hlog).
    rewrite Hlog in Hrun. cbn in Hrun. discriminate.
  - cbn in Hrun. injection Hrun as Hu Hdb. subst user db'.
    pose proof (find_has_id userId (users db) u Hfind) as Hid. subst userId.
    repeat split; try assumption.
    + intros lastLogin Hll. rewrite Hll in Hsession.
      apply Z.ltb_ge in Hsession. exact Hsession.
    + exists header. split; [reflexivity | exact Hjwt].
Qed.

(** X4: after a successful login, a request with the token of the user is
    admitted by [authenticate] as long as at most [sessionTimeout] has
    passed since the login, with [lastLogin] the instant of the login,
    and is answered 401 "Session expired" once more time has passed. *)
Theorem session_runs_from_login `{Externals} `{Bcrypt} `{Jwt} (w w' : World)
    (ST : option Z) (ip ua ip' ua' : option string) (body : Auth.loginBody)
    (token : string) (db : DB) (u : User.t) :
  tracks db (normalizeEmail (Auth.email body)) u ->
  isEmail (Auth.email body) = true ->
  Auth.password body <> "" ->
  User.isLocked w u = false ->
  User.isActive u = true ->
  User.comparePassword u (Auth.password body) = true ->
  token <> "" ->
  jwt_verify token = Payload (User._id u) ->
  now w <= now w' ->
  let logged_in := Auth.login w ip ua body db in
  let request := authenticate w' ST (Some ("Bearer " +:+ token)) ip' ua' (snd logged_in) in
  code (fst logged_in) = 200
  /\ (now w' - now w <= sessionTimeout ST ->
        exists u', request = (inr u', snd logged_in)
                   /\ User._id u' = User._id u
                   /\ User.lastLogin u' = Some (now w))
  /\ (sessionTimeout ST < now w' - now w ->
        fst request = inl (reply 401 false "Session expired. Please login again.")).
Proof.
  intros [Hkeys Hfind] He Hp Hlocked Hactive Hpw Htok Hjwt Hlater logged_in request.
  destruct (login_stamps w ip ua body db u Hkeys He Hp Hfind Hlocked Hactive Hpw)
    as (Hres & _ & Hstored).
  fold logged_in in Hres, Hstored.
  set (u' := User.set_session (Some (now w))
               (if truthy (Auth.fcmToken body) then Auth.fcmToken body
                else User.fcmToken u)
               (if 0 <? User.get_loginAttempts u then User.resetLoginAttempts u else u))
    in *.
  assert (Hid : User._id u' = User._id u).
  { unfold u'. destruct (0 <? User.get_loginAttempts u); reflexivity. }
  assert (Hlocked' : User.isLocked w' u' = false).
  { unfold u', User.isLocked. destruct (0 <? User.get_loginAttempts u); [reflexivity |].
    cbn. unfold User.isLocked in Hlocked.
    destruct (User.lockUntil u) as [l |]; [| reflexivity].
    apply Z.ltb_ge in Hlocked. apply Z.ltb_ge. lia. }
  assert (Hactive' : User.isActive u' = true).
  { unfold u'. destruct (0 <? User.get_loginAttempts u); exact Hactive. }
  assert (Hjwt' : jwt_verify token = Payload (User._id u')) by (rewrite Hid; exact Hjwt).
  rewrite <- Hid in Hstored.
  pose proof (authenticate_stored w' ST token ip' ua' (snd logged_in) u'
                Htok Hjwt' Hstored Hactive' Hlocked') as Hauth.
  fold request in Hauth.
  assert (Hll : User.lastLogin u' = Some (now w)) by reflexivity.
  rewrite Hll in Hauth.
  split; [rewrite Hres; reflexivity |]. split.
  - intros Hin. apply Z.ltb_ge in Hin. rewrite Hin in Hauth.
    exists u'. split; [exact Hauth |]. split; [exact Hid | exact Hll].
  - intros Hout. apply Z.ltb_lt in Hout. rewrite Hout in Hauth.
    rewrite Hauth. reflexivity.
Qed.

(** ** Logging in and out, passwords and registration *)

Section LoginFrame.

Context `{Externals} `{Bcrypt}.

Lemma preserves_updateOne (P : DB -> Prop) (id : ObjectId) (f : User.t -> User.t) :
  (forall db, P db ->
     P (mkDB (update_first (has_id id) f (users db)) (tasks db) (auditlogs db))) ->
  preserves P (User_updateOne id f).
Proof. intros Hf db HP. cbn [User_updateOne snd]. apply Hf. exact HP. Qed.

Lemma incLoginAttempts_identity (w : World) (this d : User.t) :
  identity (User.incLoginAttempts w this d) = identity d.
Proof. unfold User.incLoginAttempts. repeat case_match; reflexivity. Qed.

Lemma identities_update (X : list (ObjectId * string * string * Role * option ObjectId * bool))
    (T : list Task.t) (id : ObjectId) (f : User.t -> User.t) :
  (forall d, identity (f d) = identity d) ->
  preserves (fun db => identities db = X /\ tasks db = T) (User_updateOne id f).
Proof.
  intros Hf. apply preserves_updateOne. intros db [HX HT]. split; [| exact HT].
  unfold identities. cbn [users]. rewrite fmap_update_first by exact Hf. exact HX.
Qed.

End LoginFrame.

(** X5: a login request, whatever its outcome, changes no user's id, e-mail
    address, password, role, manager or activity flag, adds and removes
    no user, and changes no task. *)
Theorem login_leaves_identities `{Externals} `{Bcrypt} (w : World)
    (ip ua : option string) (body : Auth.loginBody) (db : DB) :
  identities (snd (Auth.login w ip ua body db)) = identities db
  /\ tasks (snd (Auth.login w ip ua body db)) = tasks db.
Proof.
  unfold Auth.login.
  apply (preserves_try_catch
           (fun db' => identities db' = identities db /\ tasks db' = tasks db));
    [| split; reflexivity].
  repeat first
    [ apply preserves_ret
    | apply preserves_logAction; intros ? ? ?; assumption
    | apply (preserves_read _ (fun db => List.find _ (users db)))
    | apply identities_update; intros ?; first [apply incLoginAttempts_identity | reflexivity]
    | apply preserves_bind; [| intros ?]
    | case_match ].
Qed.

(** X6: a wrong password for an active account that has a lock on record.
    Before the lock runs out the answer is 423 and no user changes.
    After it has run out the answer is 401, the counter of failures
    restarts at 1 and the lock is removed.  At the very instant at which
    the lock runs out the answer is 401 and the counter goes on from its
    old value, with a new lock when it reaches the maximum. *)
Theorem wrong_password_against_lock `{Externals} `{Bcrypt} (w : World)
    (ip ua : option string) (body : Auth.loginBody) (db : DB) (u : User.t)
    (lock : Date) :
  tracks db (normalizeEmail (Auth.email body)) u ->
  isEmail (Auth.email body) = true ->
  Auth.password body <> "" ->
  User.isActive u = true ->
  User.comparePassword u (Auth.password body) = false ->
  User.lockUntil u = Some lock ->
  let result := Auth.login w ip ua body db in
  let stored := user_by_email (normalizeEmail (Auth.email body)) (snd result) in
  (now w < lock ->
     code (fst result) = 423 /\ users (snd result) = users db)
  /\ (lock < now w ->
        code (fst result) = 401
        /\ stored = Some (User.set_lockout (Some 1) None u))
  /\ (lock = now w ->
        code (fst result) = 401
        /\ stored
           = Some (User.set_lockout (Some (User.get_loginAttempts u + 1))
                     (if User.maxAttempts w <=? User.get_loginAttempts u + 1
                      then Some (now w + User.lockoutTime w)
                      else Some lock)
                     u)).
Proof.
  intros Ht He Hp Ha Hc Hlock result stored. subst result stored.
  split; [| split].
  - intros Hlt.
    assert (Hl : User.isLocked w u = true).
    { unfold User.isLocked. rewrite Hlock. apply Z.ltb_lt. exact Hlt. }
    destruct (login_locked _ w ip ua body db u He Hp (proj2 Ht) Hl) as [coll ->].
    split; reflexivity.
  - intros Hlt.
    assert (Hl : User.isLocked w u = false).
    { unfold User.isLocked. rewrite Hlock. apply Z.ltb_ge. lia. }
    destruct (login_wrong_password w ip ua body db u He Hp (proj2 Ht) Hl Ha Hc)
      as [coll ->].
    split; [reflexivity |]. cbn [snd].
    assert (Hf : User.incLoginAttempts w u = fun d => User.set_lockout (Some 1) None d).
    { unfold User.incLoginAttempts. rewrite Hlock.
      apply Z.ltb_lt in Hlt. rewrite Hlt. reflexivity. }
    rewrite Hf.
    apply (tracks_update db _ u (fun d => User.set_lockout (Some 1) None d) coll Ht);
      reflexivity.
  - intros ->.
    assert (Hl : User.isLocked w u = false).
    { unfold User.isLocked. rewrite Hlock. apply Z.ltb_irrefl. }
    destruct (login_wrong_password w ip ua body db u He Hp (proj2 Ht) Hl Ha Hc)
      as [coll ->].
    split; [reflexivity |]. cbn [snd].
    replace (User.set_lockout _ _ u) with (User.incLoginAttempts w u u).
    + apply (tracks_update db _ u (User.incLoginAttempts w u) coll Ht);
        intros d; unfold User.incLoginAttempts; repeat case_match; reflexivity.
    + unfold User.incLoginAttempts. rewrite Hlock, Hl, Z.ltb_irrefl.
      cbn [negb]. rewrite andb_true_r.
      destruct (User.maxAttempts w <=? User.get_loginAttempts u + 1); cbn beta.
      * reflexivity.
      * rewrite Hlock. reflexivity.
Qed.

Section AuthRoutesFacts.

Context {E : Externals} {B : Bcrypt} {Hh : BcryptHash} {V : Validator} {J : Jwt}.

Lemma logout_runs (w : World) (req : Request) (db : DB) :
  exists coll,
    AuthRoutes.logout w req db
    = (reply 200 true "Logout successful",
       mkDB (update_first (has_id (User._id (user req)))
               (fun d => User.set_session (User.lastLogin d) None d) (users db))
            (tasks db) coll).
Proof.
  unfold AuthRoutes.logout, try_catch, bind, User_updateOne.
  match goal with
  | |- context [logAction ?w1 ?l ?d] =>
      destruct (logAction_returns w1 l d) as (r & c & ->)
  end.
  eexists. reflexivity.
Qed.

(** A valid audit entry is appended when the driver accepts it. *)
Lemma logAction_appends (w : World) (l : AuditLog.logData) (db : DB) :
  AuditLog.validate (AuditLog.construct w l) = true ->
  audit_write_fails w (AuditLog.construct w l) = false ->
  logAction w l db
  = (Returned (Some (AuditLog.construct w l)),
     mkDB (users db) (tasks db) (auditlogs db ++ [AuditLog.construct w l])).
Proof.
  intros Hv Hw. unfold logAction, AuditLog.logAction, AuditLog.save.
  rewrite Hv, Hw. reflexivity.
Qed.

(** An entry that the schema rejects leaves no trace. *)
Lemma logAction_drops (w : World) (l : AuditLog.logData) (db : DB) :
  AuditLog.validate (AuditLog.construct w l) = false ->
  logAction w l db = (Returned None, db).
Proof.
  intros Hv. unfold logAction, AuditLog.logAction, AuditLog.save.
  rewrite Hv. destruct db; reflexivity.
Qed.

Lemma change_password_done (w : World) (req : Request)
    (body : AuthRoutes.passwordBody) (db : DB) (u : User.t) :
  user_by_id (User._id (user req)) db = Some u ->
  AuthRoutes.currentPassword body <> "" ->
  AuthRoutes.strong (AuthRoutes.newPassword body) = true ->
  User.comparePassword u (AuthRoutes.currentPassword body) = true ->
  AuthRoutes.newPassword body <> User.password u ->
  exists coll,
    AuthRoutes.change_password w req body db
    = (reply 200 true "Password changed successfully",
       mkDB (update_first (has_id (User._id u))
               (set_password (bcrypt_hash (AuthRoutes.newPassword body))) (users db))
            (tasks db) coll).
Proof.
  intros Hfind Hcur Hstrong Hpw Hnew.
  unfold AuthRoutes.change_password, try_catch.
  destruct (String.eqb_spec (AuthRoutes.currentPassword body) "") as [E0 | _];
    [contradiction |].
  rewrite Hstrong. cbn [negb orb].
  unfold bind at 1. unfold User_findById. unfold user_by_id in Hfind. rewrite Hfind.
  unfold bind at 1. cbn [deref ret]. rewrite Hpw. cbn [negb].
  destruct (String.eqb_spec (AuthRoutes.newPassword body) (User.password u)) as [E1 | _];
    [contradiction |].
  unfold bind, User_updateOne. cbn [users tasks auditlogs].
  match goal with
  | |- context [logAction ?w1 ?l ?d] =>
      destruct (logAction_returns w1 l d) as (r & c & ->)
  end.
  eexists. reflexivity.
Qed.

End AuthRoutesFacts.

(** X7: a logout answers 200, clears the FCM token of the user and changes
    nothing else of the user, no identity and no task; [authenticate]
    admits the token of the session afterwards as it did before. *)
Theorem logout_keeps_the_session {J : Jwt} (w w' : World) (ST : option Z)
    (req : Request) (token : string) (ip ua : option string) (db : DB) (u : User.t) :
  well_keyed db ->
  user_by_id (User._id (user req)) db = Some u ->
  token <> "" ->
  jwt_verify token = Payload (User._id u) ->
  User.isActive u = true ->
  User.isLocked w' u = false ->
  (forall lastLogin, User.lastLogin u = Some lastLogin ->
     now w' - lastLogin <= sessionTimeout ST) ->
  let left := AuthRoutes.logout w req db in
  let u' := User.set_session (User.lastLogin u) None u in
  code (fst left) = 200
  /\ identities (snd left) = identities db
  /\ tasks (snd left) = tasks db
  /\ user_by_id (User._id u) (snd left) = Some u'
  /\ authenticate w' ST (Some ("Bearer " +:+ token)) ip ua (snd left)
     = (inr u', snd left).
Proof.
  intros Hkeys Hfind Htok Hjwt Hactive Hlocked Hsession left u'. subst left.
  pose proof (find_has_id _ _ _ Hfind) as Hid.
  destruct (logout_runs w req db) as [coll ->]. cbn [fst snd].
  rewrite <- Hid.
  assert (Hstored : user_by_id (User._id u)
                      (mkDB (update_first (has_id (User._id u))
                               (fun d => User.set_session (User.lastLogin d) None d)
                               (users db)) (tasks db) coll) = Some u').
  { unfold user_by_id. cbn [users]. rewrite <- Hid in Hfind.
    apply (find_update_first_self (User._id u)
             (fun d => User.set_session (User.lastLogin d) None d) (users db) u Hfind).
    reflexivity. }
  split; [reflexivity |]. split.
  { unfold identities. cbn [users]. apply fmap_update_first. reflexivity. }
  split; [reflexivity |]. split; [exact Hstored |].
  rewrite (authenticate_stored w' ST token ip ua _ u' Htok Hjwt Hstored Hactive Hlocked).
  change (User.lastLogin u') with (User.lastLogin u).
  destruct (User.lastLogin u) as [l |]; [| reflexivity].
  specialize (Hsession l eq_refl). apply Z.ltb_ge in Hsession. rewrite Hsession.
  reflexivity.
Qed.

(** X8: a change of password with the right current password and a strong
    new one answers 200 and replaces the stored hash of that user alone;
    from then on a login with the new password answers 200 and a login
    with the old one 401. *)
Theorem password_change_takes_effect {E : Externals} {B : Bcrypt} {Hh : BcryptHash}
    (w w' : World) (req : Request) (body : AuthRoutes.passwordBody)
    (address : string) (ip ua : option string) (fcm : option string)
    (db : DB) (u : User.t) :
  tracks db (normalizeEmail address) u ->
  user_by_id (User._id (user req)) db = Some u ->
  isEmail address = true ->
  User.isActive u = true ->
  User.isLocked w' u = false ->
  AuthRoutes.currentPassword body <> "" ->
  AuthRoutes.strong (AuthRoutes.newPassword body) = true ->
  User.comparePassword u (AuthRoutes.currentPassword body) = true ->
  AuthRoutes.newPassword body <> User.password u ->
  bcrypt_hash (AuthRoutes.newPassword body) <> "" ->
  bcrypt_compare (AuthRoutes.newPassword body)
    (bcrypt_hash (AuthRoutes.newPassword body)) = true ->
  bcrypt_compare (AuthRoutes.currentPassword body)
    (bcrypt_hash (AuthRoutes.newPassword body)) = false ->
  let changed := AuthRoutes.change_password w req body db in
  let login p := Auth.login w' ip ua (Auth.mkBody address p fcm) (snd changed) in
  code (fst changed) = 200
  /\ users (snd changed)
     = update_first (has_id (User._id u))
         (set_password (bcrypt_hash (AuthRoutes.newPassword body))) (users db)
  /\ code (fst (login (AuthRoutes.newPassword body))) = 200
  /\ code (fst (login (AuthRoutes.currentPassword body))) = 401.
Proof.
  intros Ht Hfind He Hactive Hlocked Hcur Hstrong Hpw Hnew Hhash Hgood Hbad changed login.
  subst changed login.
  destruct (change_password_done w req body db u Hfind Hcur Hstrong Hpw Hnew)
    as [coll ->].
  cbn [fst snd].
  set (u' := set_password (bcrypt_hash (AuthRoutes.newPassword body)) u).
  assert (Ht' : tracks (mkDB (update_first (has_id (User._id u))
                                (set_password (bcrypt_hash (AuthRoutes.newPassword body)))
                                (users db)) (tasks db) coll)
                  (normalizeEmail address) u').
  { apply tracks_update; [exact Ht | |]; reflexivity. }
  assert (Hstrong' : AuthRoutes.newPassword body <> "").
  { intros E0. rewrite E0 in Hstrong. unfold AuthRoutes.strong in Hstrong.
    cbn in Hstrong. discriminate. }
  split; [reflexivity |]. split; [reflexivity |]. split.
  - assert (Hc : User.comparePassword u' (AuthRoutes.newPassword body) = true).
    { unfold User.comparePassword, u'. cbn [User.password set_password].
      destruct (String.eqb_spec (bcrypt_hash (AuthRoutes.newPassword body)) "");
        [contradiction | exact Hgood]. }
    destruct (login_admits w' ip ua (Auth.mkBody address (AuthRoutes.newPassword body) fcm)
                _ u' He Hstrong' (proj2 Ht') Hlocked Hactive Hc) as [coll' ->].
    reflexivity.
  - assert (Hc : User.comparePassword u' (AuthRoutes.currentPassword body) = false).
    { unfold User.comparePassword, u'. cbn [User.password set_password].
      destruct (String.eqb_spec (bcrypt_hash (AuthRoutes.newPassword body)) "");
        [reflexivity | exact Hbad]. }
    destruct (login_wrong_password w' ip ua
                (Auth.mkBody address (AuthRoutes.currentPassword body) fcm)
                _ u' He Hcur (proj2 Ht') Hlocked Hactive Hc) as [coll' ->].
    reflexivity.
Qed.

Section LimitedRoute.

Context {E : Externals} {B : Bcrypt} {Hh : BcryptHash}.

Lemma password_changes_store (req : Request) (req_ip : option string)
    (attempts : list (World * AuthRoutes.passwordBody))
    (store : gmap string (list Date)) (db : DB) :
  snd (password_changes req req_ip attempts store db)
  = snd (limited req_ip (Some (user req)) ((fun a : World * AuthRoutes.passwordBody => now (fst a)) <$> attempts) store).
Proof.
  revert store db. induction attempts as [| [w body] rest IH]; intros store db.
  - reflexivity.
  - cbn [password_changes fmap list_fmap limited fst].
    unfold AuthRoutes.change_password_route.
    destruct (RateLimit.sensitiveOperationLimit (now w) req_ip (Some (user req)) store)
      as [[|] store'] eqn:Hlim.
    + destruct (AuthRoutes.change_password w req body db) as [resp db'].
      cbv iota beta. rewrite IH.
      destruct (limited req_ip (Some (user req))
                  ((fun a : World * AuthRoutes.passwordBody => now (fst a)) <$> rest)
                  store').
      reflexivity.
    + cbv iota beta. rewrite IH.
      destruct (limited req_ip (Some (user req))
                  ((fun a : World * AuthRoutes.passwordBody => now (fst a)) <$> rest)
                  store').
      reflexivity.
Qed.

Lemma recent_length_le (t : Date) (l : list Date) :
  (length (RateLimit.recent t l) <= length l)%nat.
Proof. apply filter_length_le. Qed.

Lemma limited_all_admitted (ip : option string) (user : option User.t)
    (times : list Date) (store : gmap string (list Date)) :
  (length (default [] (store !! RateLimit.key ip user)) + length times <= 5)%nat ->
  fst (limited ip user times store) = times.
Proof.
  revert store. induction times as [| t rest IH]; intros store Hlen; [reflexivity |].
  cbn [limited]. unfold RateLimit.sensitiveOperationLimit.
  set (k := RateLimit.key ip user) in *.
  set (L := default [] (store !! k)) in *.
  pose proof (recent_length_le t L) as Hrec. cbn [length] in Hlen.
  destruct (RateLimit.maxAttempts <=? length (RateLimit.recent t L))%nat eqn:Hfull.
  { apply Nat.leb_le in Hfull. unfold RateLimit.maxAttempts in Hfull. lia. }
  specialize (IH (<[k := RateLimit.recent t L ++ [t]]> store)).
  fold k in IH. rewrite lookup_insert_eq in IH. cbn [default from_option id] in IH.
  rewrite length_app in IH. cbn [length] in IH.
  destruct (limited ip user rest (<[k := RateLimit.recent t L ++ [t]]> store)).
  cbn [fst] in *. f_equal. apply IH. lia.
Qed.

Lemma recent_all (t : Date) (l : list Date) :
  Forall (fun a => t - a < RateLimit.windowMs) l -> RateLimit.recent t l = l.
Proof.
  induction 1 as [| a l Ha _ IH]; [reflexivity |].
  unfold RateLimit.recent in *. cbn [List.filter].
  apply Z.ltb_lt in Ha. rewrite Ha, IH. reflexivity.
Qed.

End LimitedRoute.

(** X9: after five requests of one client for a change of password that
    lie less than fifteen minutes back, whatever they were answered, the
    limiter answers the next one 429 before the handler runs, and
    neither the database nor the store of the limiter changes. *)
Theorem sixth_password_change_is_refused {E : Externals} {B : Bcrypt}
    {Hh : BcryptHash} (req : Request) (req_ip : option string)
    (attempts : list (World * AuthRoutes.passwordBody)) (w : World)
    (body : AuthRoutes.passwordBody) (store : gmap string (list Date)) (db : DB) :
  length attempts = 5%nat ->
  StronglySorted Z.le ((fun a : World * AuthRoutes.passwordBody => now (fst a)) <$> attempts) ->
  Forall (fun a : World * AuthRoutes.passwordBody =>
            now (fst a) <= now w /\ now w - now (fst a) < RateLimit.windowMs)
         attempts ->
  store !! RateLimit.key req_ip (Some (user req)) = None ->
  let '(db5, store5) := password_changes req req_ip attempts store db in
  AuthRoutes.change_password_route w req req_ip body store5 db5
  = (reply 429 false "Too many attempts. Please try again later.", db5, store5).
Proof.
  intros Hlen Hsorted Hwindow Hfresh.
  pose proof (password_changes_store req req_ip attempts store db) as Hstore.
  destruct (password_changes req req_ip attempts store db) as [db5 store5].
  cbn [snd] in Hstore.
  set (times := (fun a : World * AuthRoutes.passwordBody => now (fst a)) <$> attempts) in *.
  assert (Hle : Forall (fun a => a <= now w) times).
  { unfold times. apply Forall_fmap. eapply Forall_impl; [exact Hwindow |].
    intros a [Ha _]. exact Ha. }
  assert (Hin : Forall (fun a => now w - a < RateLimit.windowMs) times).
  { unfold times. apply Forall_fmap. eapply Forall_impl; [exact Hwindow |].
    intros a [_ Ha]. exact Ha. }
  pose proof (limited_recent req_ip (Some (user req)) times store (now w) Hsorted Hle)
    as Hrecent.
  rewrite <- Hstore in Hrecent. rewrite Hfresh in Hrecent.
  cbn [default from_option id app] in Hrecent.
  rewrite limited_all_admitted in Hrecent.
  2:{ rewrite Hfresh. cbn [default from_option id length]. unfold times.
      rewrite length_fmap. lia. }
  rewrite (recent_all _ _ Hin) in Hrecent.
  unfold AuthRoutes.change_password_route, RateLimit.sensitiveOperationLimit.
  rewrite Hrecent. unfold times. rewrite length_fmap, Hlen. reflexivity.
Qed.

(** X10: a change of password with a wrong current password answers 400,
    leaves users and tasks as they are and appends one audit entry: a
    failure of severity medium and of action [password_change], of the
    user and of the instant of the request, which the security view
    covers (the request has an address and the audit write goes
    through). *)
Theorem wrong_current_password_is_recorded {E : Externals} {B : Bcrypt}
    {Hh : BcryptHash} (w : World) (req : Request) (body : AuthRoutes.passwordBody)
    (db : DB) (u : User.t) :
  user_by_id (User._id (user req)) db = Some u ->
  AuthRoutes.currentPassword body <> "" ->
  AuthRoutes.strong (AuthRoutes.newPassword body) = true ->
  User.comparePassword u (AuthRoutes.currentPassword body) = false ->
  truthy (ip req) = true ->
  (forall e, audit_write_fails w e = false) ->
  exists entry,
    AuthRoutes.change_password w req body db
    = (reply 400 false "Current password is incorrect",
       mkDB (users db) (tasks db) (auditlogs db ++ [entry]))
    /\ AuditLog.user entry = Some (User._id u)
    /\ AuditLog.action entry = "password_change"
    /\ AuditLog.success entry = false
    /\ AuditLog.severity entry = medium
    /\ AuditLog.createdAt entry = now w
    /\ security_relevant entry = true.
Proof.
  intros Hfind Hcur Hstrong Hpw Hip Hwrite.
  unfold AuthRoutes.change_password, try_catch.
  destruct (String.eqb_spec (AuthRoutes.currentPassword body) "") as [E0 | _];
    [contradiction |].
  rewrite Hstrong. cbn [negb orb].
  unfold bind at 1. unfold User_findById. unfold user_by_id in Hfind. rewrite Hfind.
  unfold bind at 1. cbn [deref ret]. rewrite Hpw. cbn [negb].
  unfold bind. rewrite logAction_appends.
  - eexists. split; [reflexivity |]. repeat split.
  - unfold AuditLog.validate, AuditLog.construct. cbn. rewrite Hip. reflexivity.
  - apply Hwrite.
Qed.

Section Accounts.

Context {E : Externals} {Hh : BcryptHash}.

(** [User_create] on data that the schema accepts and the indexes admit. *)
Lemma User_create_inserts (newId : ObjectId) (name email password : string)
    (role : Role) (managerId : option ObjectId) (department phoneNumber : option string)
    (db : DB) :
  trim name <> "" ->
  (String.length (trim name) <= 50)%nat ->
  trim (UserRoutes.toLowerCase email) <> "" ->
  RegExp_test User.email_pattern (trim (UserRoutes.toLowerCase email)) = true ->
  (6 <= String.length password)%nat ->
  Forall (fun u => User.email u <> trim (UserRoutes.toLowerCase email)
                   /\ User._id u <> newId) (users db) ->
  let user :=
    User.mk newId (trim name) (trim (UserRoutes.toLowerCase email))
      (bcrypt_hash password) role managerId true None (Some 0) None None
      phoneNumber department in
  User_create newId name email password role managerId department phoneNumber db
  = (Returned user, mkDB (users db ++ [user]) (tasks db) (auditlogs db)).
Proof.
  intros Hname Hlen Hemail Hmatch Hpw Hfresh user. unfold User_create.
  destruct (String.eqb_spec (trim name) "") as [E0 | _]; [contradiction |].
  destruct (String.eqb_spec (trim (UserRoutes.toLowerCase email)) "") as [E1 | _];
    [contradiction |].
  apply Nat.leb_le in Hlen, Hpw. rewrite Hlen, Hmatch, Hpw. cbn [negb orb].
  assert (Hnone : existsb (fun u => String.eqb (User.email u)
                                      (trim (UserRoutes.toLowerCase email))
                                    || has_id newId u) (users db) = false).
  { induction Hfresh as [| u l [Hu1 Hu2] _ IH]; [reflexivity |].
    cbn [existsb]. rewrite IH. unfold has_id.
    destruct (String.eqb_spec (User.email u) (trim (UserRoutes.toLowerCase email)));
      [contradiction |].
    destruct (String.eqb_spec (User._id u) newId); [contradiction |]. reflexivity. }
  rewrite Hnone. reflexivity.
Qed.

Lemma trim_length_nonempty (s : string) :
  (2 <= String.length s)%nat -> s <> "".
Proof. intros Hlen ->. cbn in Hlen. lia. Qed.

Lemma ltrim_chars_length (l : list ascii) :
  (length (ltrim_chars l) <= length l)%nat.
Proof.
  induction l as [| c l IH]; cbn; [lia |]. destruct (is_space c); cbn; lia.
Qed.

Lemma ltrim_chars_suffix (l : list ascii) : exists p, l = p ++ ltrim_chars l.
Proof.
  induction l as [| c l [p IH]]; [exists []; reflexivity |].
  cbn. destruct (is_space c).
  - exists (c :: p). cbn. f_equal. exact IH.
  - exists []. reflexivity.
Qed.

Lemma ltrim_chars_idem (l : list ascii) : ltrim_chars (ltrim_chars l) = ltrim_chars l.
Proof.
  induction l as [| c l IH]; [reflexivity |]. cbn.
  destruct (is_space c) eqn:Hc; [exact IH |]. cbn. rewrite Hc. reflexivity.
Qed.

Lemma ltrim_chars_fixed (c : ascii) (l : list ascii) :
  ltrim_chars (c :: l) = c :: l -> is_space c = false.
Proof.
  cbn. destruct (is_space c); [| reflexivity]. intros Heq.
  pose proof (ltrim_chars_length l) as Hlen. rewrite Heq in Hlen. cbn in Hlen. lia.
Qed.

(** A prefix of a list without leading white space has none either. *)
Lemma ltrim_chars_prefix (a p q : list ascii) :
  ltrim_chars a = a -> a = p ++ q -> ltrim_chars p = p.
Proof.
  intros Ha ->. destruct p as [| c p]; [reflexivity |].
  cbn [app] in Ha. apply ltrim_chars_fixed in Ha. cbn. rewrite Ha. reflexivity.
Qed.

Lemma trim_idempotent (s : string) : trim (trim s) = trim s.
Proof.
  unfold trim. rewrite list_ascii_of_string_of_list_ascii.
  set (a := ltrim_chars (list_ascii_of_string s)).
  set (b := ltrim_chars (rev a)).
  assert (Ha : ltrim_chars a = a) by apply ltrim_chars_idem.
  destruct (ltrim_chars_suffix (rev a)) as [p Hp]. fold b in Hp.
  assert (Hsplit : a = rev b ++ rev p).
  { rewrite <- rev_app_distr, <- Hp, rev_involutive. reflexivity. }
  rewrite (ltrim_chars_prefix a (rev b) (rev p) Ha Hsplit).
  rewrite rev_involutive. unfold b at 1. rewrite ltrim_chars_idem. reflexivity.
Qed.

End Accounts.

(** X11: the public registration, which no middleware guards, stores the
    role that the body names, [super_admin] included, and [employee] when
    the body names none: it answers 201 with the new user without
    password and appends the user, active and with the hashed password. *)
Theorem registration_grants_the_requested_role {E : Externals} {Hh : BcryptHash}
    {V : Validator} (w : World) (ip ua : option string) (newId : ObjectId)
    (body : AuthRoutes.registerBody) (requested : option Role) (db : DB) :
  let name := trim (AuthRoutes.name body) in
  let email := trim (UserRoutes.toLowerCase (normalizeEmail (AuthRoutes.email body))) in
  (2 <= String.length name <= 50)%nat ->
  isEmail (AuthRoutes.email body) = true ->
  AuthRoutes.strong (AuthRoutes.password body) = true ->
  AuthRoutes.role body = role_name <$> requested ->
  AuthRoutes.managerId body = None ->
  user_by_email (normalizeEmail (AuthRoutes.email body)) db = None ->
  email <> "" ->
  RegExp_test User.email_pattern email = true ->
  Forall (fun u => User.email u <> email /\ User._id u <> newId) (users db) ->
  let user :=
    User.mk newId name email (bcrypt_hash (AuthRoutes.password body))
      (default employee requested) None true None (Some 0) None None None None in
  exists coll,
    AuthRoutes.register w ip ua newId body db
    = (mkResponse 201 true "User registered successfully" (Some (toSafeObject user)),
       mkDB (users db ++ [user]) (tasks db) coll).
Proof.
  intros name email [Hmin Hmax] He Hstrong Hrole Hmgr Hnew Hemail Hmatch Hfresh user.
  unfold AuthRoutes.register, try_catch. fold name.
  apply Nat.leb_le in Hmin as Hmin', Hmax as Hmax'.
  rewrite Hmin', Hmax', He, Hstrong, Hrole, Hmgr. cbn [negb orb andb].
  assert (Hin : match role_name <$> requested with
                | Some r => negb (includes ["super_admin"; "manager"; "employee"] r)
                | None => false
                end = false).
  { destruct requested as [[| |] |]; reflexivity. }
  rewrite Hin. cbn [negb orb andb].
  assert (Hro : default employee ((role_name <$> requested) ≫= role_of_string)
                = default employee requested).
  { destruct requested as [[| |] |]; reflexivity. }
  rewrite Hro.
  erewrite bind_step
    by (unfold User_findOne_email; unfold user_by_email in Hnew; rewrite Hnew;
        reflexivity).
  cbn [truthy]. erewrite bind_step by reflexivity. cbn [negb].
  pose proof (trim_length_nonempty name Hmin) as Hne.
  assert (Hname : trim name = name) by apply trim_idempotent.
  rewrite <- Hname in Hne, Hmax.
  erewrite bind_step.
  2:{ apply (User_create_inserts newId name (normalizeEmail (AuthRoutes.email body))
               (AuthRoutes.password body) (default employee requested) None None None db
               Hne Hmax Hemail Hmatch); [| exact Hfresh].
      unfold AuthRoutes.strong in Hstrong. apply andb_true_iff in Hstrong as [Hs _].
      apply Nat.leb_le in Hs. exact Hs. }
  rewrite Hname. unfold bind.
  match goal with
  | |- context [logAction ?w1 ?l ?d] =>
      destruct (logAction_returns w1 l d) as (r & c & ->)
  end.
  eexists. reflexivity.
Qed.

(** ** Tasks: history, creation, reading and listing *)

Section History.




End History.


Section StatusAudit.

Lemma notify_quiet (w : World) (status : Status) (b a : Populated.t) (db : DB) :
  gateway w = Quiet ->
  TaskRoutes.notify w status (Some b) (Some a) db = (Returned tt, db).
Proof.
  intros Hg. unfold TaskRoutes.notify, bind, deref, ret, sendNotification.
  rewrite Hg. destruct status; reflexivity.
Qed.

Lemma update_status_quiet (w : World) (req : Request) (taskId : ObjectId)
    (body : TaskRoutes.statusBody) (db : DB)
    (status : Status) (c r : option string) (t : Task.t) (by_ to_ : User.t) :
  status_of_string (TaskRoutes.status body) = Some status ->
  TaskRoutes.optional_trim_max 200 (TaskRoutes.comment body) = Some c ->
  TaskRoutes.optional_trim_max 500 (TaskRoutes.rejectionReason body) = Some r ->
  task_by_id taskId db = Some t ->
  user_by_id (Task.assignedBy t) db = Some by_ ->
  user_by_id (Task.assignedTo t) db = Some to_ ->
  gateway w = Quiet ->
  permitted (user req) status (project TaskRoutes.selected by_)
            (project TaskRoutes.selected to_) = true ->
  let saved := transition w t status (User._id (user req)) c r in
  TaskRoutes.update_status w req taskId body db
  = (mkResponse 200 true ("Task " +:+ status_name status +:+ " successfully")
       (Some saved),
     snd (logAction w (status_entry req saved status c)
            (mkDB (users db)
               (update_first (task_has_id taskId) (fun _ => saved) (tasks db))
               (auditlogs db)))).
Proof.
  intros Hs Hc Hr Ht Hby Hto Hg Hperm saved.
  unfold TaskRoutes.update_status, try_catch. rewrite Hs, Hc, Hr.
  cbv beta iota.
  rewrite (bind_step _ _ db (Some t) db)
    by (unfold Task_findById; f_equal; f_equal; exact Ht).
  rewrite (bind_step _ _ db (Some (project TaskRoutes.selected by_)) db)
    by (unfold populate; f_equal; f_equal; unfold user_by_id in Hby;
        rewrite Hby; reflexivity).
  rewrite (bind_step _ _ db (Some (project TaskRoutes.selected to_)) db)
    by (unfold populate; f_equal; f_equal; unfold user_by_id in Hto;
        rewrite Hto; reflexivity).
  rewrite (bind_step _ _ db _ db (hasPermission_resolved _ _ _ _ _)).
  rewrite Hperm. cbn [negb]. cbv zeta.
  change (Task.updateStatus w _ status (User._id (user req)) c)
    with (transition w t status (User._id (user req)) c r).
  fold saved.
  pose proof (transition_status w t status (User._id (user req)) c r) as [_ Hid].
  fold saved in Hid.
  fold (status_entry req saved status c).
  erewrite bind_step by (unfold Task_store; reflexivity).
  rewrite Hid, (find_task_has_id _ _ _ Ht).
  erewrite bind_step by (apply notify_quiet; exact Hg).
  unfold bind.
  destruct (logAction_returns w (status_entry req saved status c)
              (mkDB (users db)
                 (update_first (task_has_id taskId) (fun _ => saved) (tasks db))
                 (auditlogs db))) as (r2 & c2 & ->).
  reflexivity.
Qed.

End StatusAudit.

(** X13: an admitted change of status answers 200 and stores the new
    status; it appends one audit entry of action [task_completed],
    [task_approved] or [task_rejected] when the new status is one of
    these three, and leaves the audit trail as it is when the new status
    is [in_progress] or [pending], whose actions the schema does not
    know (the request has an address, the audit write goes through and
    no notification is sent). *)
Theorem start_and_reset_leave_no_audit_entry (w : World) (req : Request)
    (taskId : ObjectId) (body : TaskRoutes.statusBody) (db : DB)
    (status : Status) (c r : option string) (t : Task.t) (by_ to_ : User.t) :
  status_of_string (TaskRoutes.status body) = Some status ->
  TaskRoutes.optional_trim_max 200 (TaskRoutes.comment body) = Some c ->
  TaskRoutes.optional_trim_max 500 (TaskRoutes.rejectionReason body) = Some r ->
  task_by_id taskId db = Some t ->
  user_by_id (Task.assignedBy t) db = Some by_ ->
  user_by_id (Task.assignedTo t) db = Some to_ ->
  gateway w = Quiet ->
  allowed_directly status (user req) t ->
  truthy (ip req) = true ->
  (forall e, audit_write_fails w e = false) ->
  let result := TaskRoutes.update_status w req taskId body db in
  code (fst result) = 200
  /\ (Task.status <$> task_by_id taskId (snd result)) = Some status
  /\ (status = pending \/ status = in_progress ->
        auditlogs (snd result) = auditlogs db)
  /\ (status = completed \/ status = approved \/ status = rejected ->
        exists entry,
          auditlogs (snd result) = auditlogs db ++ [entry]
          /\ AuditLog.user entry = Some (User._id (user req))
          /\ AuditLog.action entry = "task_" +:+ status_name status
          /\ AuditLog.resourceId entry = Some taskId).
Proof.
  intros Hs Hc Hr Ht Hby Hto Hg Hallowed Hip Hwrite result. subst result.
  assert (Hperm : permitted (user req) status (project TaskRoutes.selected by_)
                    (project TaskRoutes.selected to_) = true).
  { apply (permitted_iff (user req) status t by_ to_ db Hby Hto). exact Hallowed. }
  rewrite (update_status_quiet w req taskId body db status c r t by_ to_
             Hs Hc Hr Ht Hby Hto Hg Hperm).
  cbv zeta. cbn [fst].
  set (saved := transition w t status (User._id (user req)) c r).
  pose proof (transition_status w t status (User._id (user req)) c r) as [Hst Hid].
  fold saved in Hst, Hid.
  pose proof (find_task_has_id _ _ _ Ht) as Htid.
  assert (Hstored : forall coll,
            Task.status <$> task_by_id taskId
              (mkDB (users db)
                 (update_first (task_has_id taskId) (fun _ => saved) (tasks db)) coll)
            = Some status).
  { intros coll. unfold task_by_id. cbn [tasks].
    rewrite (find_replace (task_has_id taskId) saved t).
    - cbn. rewrite Hst. reflexivity.
    - exact Ht.
    - unfold task_has_id. rewrite Hid, Htid. apply String.eqb_refl. }
  split; [reflexivity |]. split; [| split].
  - destruct (logAction_returns w (status_entry req saved status c)
                (mkDB (users db)
                   (update_first (task_has_id taskId) (fun _ => saved) (tasks db))
                   (auditlogs db))) as (r2 & c2 & ->).
    cbn [snd]. apply Hstored.
  - intros Hquiet. rewrite logAction_drops; [reflexivity |].
    destruct Hquiet as [-> | ->]; reflexivity.
  - intros Hloud. rewrite logAction_appends.
    + cbn [snd auditlogs]. eexists. split; [reflexivity |].
      cbn. rewrite Hid, Htid. repeat split.
    + unfold AuditLog.validate, AuditLog.construct, status_entry.
      cbn [AuditLog.user AuditLog.action AuditLog.resource AuditLog.ipAddress
           AuditLog.d_user AuditLog.d_action AuditLog.d_resource AuditLog.d_ipAddress].
      rewrite Hip. destruct Hloud as [-> | [-> | ->]]; reflexivity.
    + apply Hwrite.
Qed.

Section Creation.

Context {E : Externals} {V : Validator}.

Lemma authorize_passes (w : World) (req : Request) (roles : list Role) (db : DB) :
  User.role (user req) ∈ roles ->
  authorize w req roles db = (Returned true, db).
Proof.
  intros Hin. unfold authorize. rewrite bool_decide_eq_true_2 by exact Hin. reflexivity.
Qed.

Lemma authorize_refuses (w : World) (req : Request) (roles : list Role) (db : DB) :
  User.role (user req) ∉ roles ->
  exists coll,
    authorize w req roles db = (Returned false, mkDB (users db) (tasks db) coll).
Proof.
  intros Hout. unfold authorize. rewrite bool_decide_eq_false_2 by exact Hout.
  match goal with
  | |- context [bind (logAction ?w1 ?l) _ ?d] =>
      destruct (logAction_returns w1 l d) as (r & c & Hl)
  end.
  rewrite (bind_step _ _ _ _ _ Hl). exists c. reflexivity.
Qed.


Lemma existsb_find_none {A} (p : A -> bool) (l : list A) :
  existsb p l = false -> List.find p l = None.
Proof.
  induction l as [| a l IH]; [reflexivity |]. cbn.
  destruct (p a); [discriminate | exact IH].
Qed.

(** What a 201 of [POST /api/tasks] means. *)
Lemma create_task_inv (w : World) (req : Request) (newId : ObjectId)
    (body : TaskCollection.taskBody) (db db' : DB) (m : string) (t : Task.t) :
  TaskCollection.create_task w req newId body db
  = (mkResponse 201 true m (Some t), db') ->
  exists due assignee coll,
    parseDate (TaskCollection.deadline body) = Some due
    /\ now w < due
    /\ User.role (user req) ∈ [super_admin; manager]
    /\ user_by_id (TaskCollection.assignedTo body) db = Some assignee
    /\ (User.role (user req) = manager ->
          User.managerId assignee = Some (User._id (user req))
          \/ TaskCollection.assignedTo body = User._id (user req))
    /\ task_by_id newId db = None
    /\ t = Task.mk newId (trim (trim (TaskCollection.title body)))
             (trim (trim (TaskCollection.description body)))
             (if truthy (TaskCollection.priority body)
              then default "" (TaskCollection.priority body) else "medium")
             pending (User._id (user req)) (TaskCollection.assignedTo body) due
             None None None (TaskCollection.estimatedHours body) None [] None
    /\ db' = mkDB (users db) (tasks db ++ [t]) coll.
Proof.
  intros Hrun. unfold TaskCollection.create_task, try_catch in Hrun.
  destruct (decide (User.role (user req) ∈ [super_admin; manager])) as [Hrole | Hrole].
  2:{ destruct (authorize_refuses w req [super_admin; manager] db Hrole) as [c Ha].
      rewrite (bind_step _ _ _ _ _ Ha) in Hrun. cbn in Hrun. discriminate. }
  rewrite (bind_step _ _ _ _ _ (authorize_passes w req _ db Hrole)) in Hrun.
  cbn [negb] in Hrun.
  destruct (parseDate (TaskCollection.deadline body)) as [due |] eqn:Hdue;
    [| cbn in Hrun; discriminate].
  match type of Hrun with
  | context [if negb ?b then _ else _] => destruct b eqn:Hvalid
  end; cbn [negb] in Hrun; [| cbn in Hrun; discriminate].
  unfold bind at 1 in Hrun. unfold User_findById at 1 in Hrun.
  destruct (List.find (has_id (TaskCollection.assignedTo body)) (users db))
    as [assignee |] eqn:Hassignee; [| cbn in Hrun; discriminate].
  match type of Hrun with
  | context [if ?b then ret (reply 403 _ _) else _] => destruct b eqn:Hteam
  end; [cbn in Hrun; discriminate |].
  destruct (due <=? now w) eqn:Hfuture; [cbn in Hrun; discriminate |].
  unfold bind at 1 in Hrun. unfold TaskCollection.Task_create at 1 in Hrun.
  match type of Hrun with
  | context [if ?b then throw ValidationError else _] => destruct b eqn:Hschema
  end; [cbn in Hrun; discriminate |].
  destruct (existsb (task_has_id newId) (tasks db)) eqn:Hfresh;
    [cbn in Hrun; discriminate |].
  unfold bind at 1 in Hrun. unfold sendNotification in Hrun.
  destruct (gateway w) as [| messageId |]; [| | cbn in Hrun; discriminate].
  - cbn [ret] in Hrun. unfold bind in Hrun.
    match type of Hrun with
    | context [logAction ?w1 ?l ?d] =>
        destruct (logAction_returns w1 l d) as (r & c & Hl)
    end.
    rewrite Hl in Hrun. cbn [ret users tasks] in Hrun.
    injection Hrun as _ Ht Hdb.
    exists due, assignee, c. subst t db'.
    repeat split; try assumption; try reflexivity.
    + apply Z.leb_gt in Hfuture. exact Hfuture.
    + intros Hm. rewrite bool_decide_eq_true_2 in Hteam by exact Hm.
      cbn [andb] in Hteam. apply andb_false_iff in Hteam as [Hteam | Hteam].
      * left. apply negb_false_iff in Hteam.
        apply bool_decide_eq_true_1 in Hteam. exact Hteam.
      * right. apply negb_false_iff in Hteam. apply String.eqb_eq in Hteam. exact Hteam.
    + apply existsb_find_none. exact Hfresh.
  - unfold bind in Hrun.
    match type of Hrun with
    | context [logAction ?w1 ?l ?d] =>
        destruct (logAction_returns w1 l d) as (r & c & Hl)
    end.
    rewrite Hl in Hrun. cbn [ret users tasks] in Hrun.
    match type of Hrun with
    | context [logAction ?w1 ?l ?d] =>
        destruct (logAction_returns w1 l d) as (r' & c' & Hl')
    end.
    rewrite Hl' in Hrun. cbn [ret users tasks] in Hrun.
    injection Hrun as _ Ht Hdb.
    exists due, assignee, c'. subst t db'.
    repeat split; try assumption; try reflexivity.
    + apply Z.leb_gt in Hfuture. exact Hfuture.
    + intros Hm. rewrite bool_decide_eq_true_2 in Hteam by exact Hm.
      cbn [andb] in Hteam. apply andb_false_iff in Hteam as [Hteam | Hteam].
      * left. apply negb_false_iff in Hteam.
        apply bool_decide_eq_true_1 in Hteam. exact Hteam.
      * right. apply negb_false_iff in Hteam. apply String.eqb_eq in Hteam. exact Hteam.
    + apply existsb_find_none. exact Hfresh.
Qed.

End Creation.

(** X14: when [POST /api/tasks] answers 201, the task of the answer is the
    one appended to the tasks: pending, with an empty history and no
    completion or approval, assigned by the requester, who is no
    Employee, with a deadline after the instant of the request, under an
    id that no task had, and assigned to a stored user who, for a
    Manager, is the Manager or one of the team.  No user changes. *)
Theorem created_task_is_pending_and_due_later {E : Externals} {V : Validator}
    (w : World) (req : Request) (newId : ObjectId) (body : TaskCollection.taskBody)
    (db db' : DB) (m : string) (t : Task.t) :
  TaskCollection.create_task w req newId body db
  = (mkResponse 201 true m (Some t), db') ->
  Task.status t = pending
  /\ Task.statusHistory t = []
  /\ Task.completedAt t = None
  /\ Task.approvedAt t = None
  /\ Task.assignedBy t = User._id (user req)
  /\ now w < Task.deadline t
  /\ User.role (user req) <> employee
  /\ (exists assignee,
        user_by_id (Task.assignedTo t) db = Some assignee
        /\ (User.role (user req) = manager ->
              User.managerId assignee = Some (User._id (user req))
              \/ User._id assignee = User._id (user req)))
  /\ task_by_id (Task._id t) db = None
  /\ users db' = users db
  /\ tasks db' = tasks db ++ [t].
Proof.
  intros Hrun.
  destruct (create_task_inv w req newId body db db' m t Hrun)
    as (due & assignee & coll & Hdue & Hfuture & Hrole & Hassignee & Hteam & Hfresh
        & -> & ->).
  cbn [Task.status Task.statusHistory Task.completedAt Task.approvedAt Task.assignedBy
       Task.deadline Task.assignedTo Task._id users tasks].
  repeat split; try reflexivity; try assumption.
  - intros Hemp. rewrite Hemp in Hrole.
    apply elem_of_cons in Hrole as [Hr | Hr]; [discriminate |].
    apply elem_of_cons in Hr as [Hr | Hr]; [discriminate |].
    apply elem_of_nil in Hr. exact Hr.
  - exists assignee. split; [exact Hassignee |].
    intros Hm. destruct (Hteam Hm) as [Hl | Hr]; [left; exact Hl |].
    right. rewrite <- Hr. apply (find_has_id _ _ _ Hassignee).
Qed.


Section Reading.

Context {V : Validator} {R : Regex}.

Lemma hasAccess_resolved (user : User.t) (b a : Populated.t) (db : DB) :
  TaskCollection.hasAccess user (Some b) (Some a) db
  = (Returned (TaskRoutes.is_role super_admin user
               || TaskRoutes.same_id (Populated._id a) (User._id user)
               || TaskRoutes.same_id (Populated._id b) (User._id user)
               || (TaskRoutes.is_role manager user && TaskRoutes.managed_by a user)),
     db).
Proof.
  unfold TaskCollection.hasAccess, bind, deref, ret.
  destruct (TaskRoutes.is_role super_admin user);
    destruct (TaskRoutes.same_id (Populated._id a) (User._id user));
    destruct (TaskRoutes.same_id (Populated._id b) (User._id user));
    reflexivity.
Qed.

(** Every entry of a filter holds of a document that matches it. *)
Lemma matches_lookup (doc : string -> Query.Value) (query : gmap string Filter.Entry)
    (key : string) (e : Filter.Entry) :
  Filter.matches doc query = true ->
  query !! key = Some e ->
  Filter.entry_matches doc key e = true.
Proof.
  unfold Filter.matches. intros Hall Hlook.
  rewrite forallb_forall in Hall.
  apply (Hall (key, e)). apply list_elem_of_In. apply elem_of_map_to_list. exact Hlook.
Qed.

Lemma matches_all (doc : string -> Query.Value) (query : gmap string Filter.Entry) :
  (forall key e, query !! key = Some e -> Filter.entry_matches doc key e = true) ->
  Filter.matches doc query = true.
Proof.
  intros Hall. unfold Filter.matches. apply forallb_forall. intros [key e] Hin.
  apply Hall. apply elem_of_map_to_list. apply list_elem_of_In. exact Hin.
Qed.

(** Assigning to a key hides what the object had under it. *)
Lemma insert_over {A} (key : string) (e : A) (m1 m2 : gmap string A) :
  (forall k, k <> key -> m1 !! k = m2 !! k) ->
  <[key := e]> m1 = <[key := e]> m2.
Proof.
  intros Hoff. apply map_eq. intros k.
  destruct (decide (k = key)) as [-> | Hne].
  - rewrite !lookup_insert_eq. reflexivity.
  - rewrite !lookup_insert_ne by (intros E0; apply Hne; symmetry; exact E0).
    apply Hoff. exact Hne.
Qed.

Lemma set_if_off (b : bool) (key key' : string) (e : Filter.Entry)
    (m1 m2 : gmap string Filter.Entry) :
  (forall k, k <> key -> m1 !! k = m2 !! k) ->
  forall k, k <> key ->
    TaskCollection.set_if b key' e m1 !! k = TaskCollection.set_if b key' e m2 !! k.
Proof.
  intros Hoff k Hk. unfold TaskCollection.set_if. destruct b; [| apply Hoff; exact Hk].
  destruct (decide (k = key')) as [-> | Hne].
  - rewrite !lookup_insert_eq. reflexivity.
  - rewrite !lookup_insert_ne by (intros E0; apply Hne; symmetry; exact E0).
    apply Hoff. exact Hk.
Qed.

Lemma set_if_ext (b : bool) (key : string) (e : Filter.Entry)
    (m1 m2 : gmap string Filter.Entry) :
  m1 = m2 -> TaskCollection.set_if b key e m1 = TaskCollection.set_if b key e m2.
Proof. intros ->. reflexivity. Qed.

End Reading.

(** X16: [GET /api/tasks/:id] of a task whose two references resolve
    answers 200 with the task to a SuperAdmin, the assignee and the
    assigner, and 403 to everybody else, the Manager of the assignee
    included; it changes nothing. *)
Theorem task_is_read_by_admin_assignee_and_assigner (req : Request)
    (taskId : ObjectId) (db : DB) (t : Task.t) (by_ to_ : User.t) :
  task_by_id taskId db = Some t ->
  user_by_id (Task.assignedBy t) db = Some by_ ->
  user_by_id (Task.assignedTo t) db = Some to_ ->
  (allowed_directly pending (user req) t ->
     TaskCollection.get_task req taskId db = (mkResponse 200 true "" (Some t), db))
  /\ (~ allowed_directly pending (user req) t ->
        TaskCollection.get_task req taskId db
        = (reply 403 false "Access denied", db)).
Proof.
  intros Ht Hby Hto.
  assert (Hrun : TaskCollection.get_task req taskId db
                 = (if TaskRoutes.is_role super_admin (user req)
                       || TaskRoutes.same_id (User._id to_) (User._id (user req))
                       || TaskRoutes.same_id (User._id by_) (User._id (user req))
                    then mkResponse 200 true "" (Some t)
                    else reply 403 false "Access denied", db)).
  { unfold TaskCollection.get_task, try_catch.
    rewrite (bind_step _ _ db (Some t) db)
      by (unfold Task_findById; f_equal; f_equal; exact Ht).
    rewrite (bind_step _ _ db (Some (project TaskRoutes.selected by_)) db)
      by (unfold populate; f_equal; f_equal; unfold user_by_id in Hby;
          rewrite Hby; reflexivity).
    rewrite (bind_step _ _ db (Some (project TaskRoutes.selected to_)) db)
      by (unfold populate; f_equal; f_equal; unfold user_by_id in Hto;
          rewrite Hto; reflexivity).
    rewrite (bind_step _ _ db _ db (hasAccess_resolved _ _ _ _)).
    rewrite managed_by_unselected, andb_false_r, orb_false_r.
    cbn [project Populated._id].
    destruct (TaskRoutes.is_role super_admin (user req)
              || TaskRoutes.same_id (User._id to_) (User._id (user req))
              || TaskRoutes.same_id (User._id by_) (User._id (user req)));
      reflexivity. }
  rewrite Hrun.
  rewrite (find_has_id _ _ _ Hby), (find_has_id _ _ _ Hto).
  unfold allowed_directly, TaskRoutes.is_role, TaskRoutes.same_id.
  split.
  - intros [Hadmin | [Hassigner | Hassignee]].
    + rewrite bool_decide_eq_true_2 by exact Hadmin. reflexivity.
    + rewrite <- Hassigner, String.eqb_refl, !orb_true_r. reflexivity.
    + rewrite <- Hassignee, String.eqb_refl, orb_true_r. reflexivity.
  - intros Hnone.
    destruct (bool_decide_reflect (User.role (user req) = super_admin)) as [Ha | _].
    { exfalso. apply Hnone. left. exact Ha. }
    destruct (String.eqb_spec (Task.assignedTo t) (User._id (user req))) as [Hb | _].
    { exfalso. apply Hnone. right. right. symmetry. exact Hb. }
    destruct (String.eqb_spec (Task.assignedBy t) (User._id (user req))) as [Hc | _].
    { exfalso. apply Hnone. right. left. symmetry. exact Hc. }
    reflexivity.
Qed.

Section Listing.

Context {V : Validator} {R : Regex}.

Lemma insert_desc_In {A} (key : A -> Date) (a b : A) (l : list A) :
  In b (Filter.insert_desc key a l) <-> b = a \/ In b l.
Proof.
  induction l as [| c l IH]; cbn.
  - split; [intros [<- | []]; left; reflexivity | intros [-> | []]; left; reflexivity].
  - destruct (key c <? key a); cbn.
    + split.
      * intros [<- | [<- | Hin]]; [left | right; left | right; right]; auto.
      * intros [-> | [<- | Hin]]; [left | right; left | right; right]; auto.
    + rewrite IH. split.
      * intros [<- | [-> | Hin]]; [right; left | left | right; right]; auto.
      * intros [-> | [<- | Hin]]; [right; left | left | right; right]; auto.
Qed.

Lemma sort_desc_In {A} (key : A -> Date) (b : A) (l : list A) :
  In b (Filter.sort_desc key l) <-> In b l.
Proof.
  unfold Filter.sort_desc. induction l as [| a l IH]; cbn; [reflexivity |].
  rewrite insert_desc_In, IH. split; intros [H | H]; auto.
Qed.

Lemma page_In {A} (skip limit : Z) (b : A) (l : list A) :
  In b (Filter.page skip limit l) -> In b l.
Proof.
  unfold Filter.page. intros Hin. apply list_elem_of_In in Hin.
  apply list_elem_of_In.
  eapply elem_of_sublist; [exact Hin |].
  etransitivity; [apply sublist_take | apply sublist_drop].
Qed.

(** The answer to a well-formed request. *)
Lemma list_tasks_runs (createdAt : Task.t -> Date) (w : World) (req : Request)
    (q : TaskCollection.listQuery) (db : DB) :
  TaskCollection.valid_list q = true ->
  let query :=
    TaskCollection.list_filter w (user req)
      (if bool_decide (User.role (user req) = manager)
       then team_of (user req) db else []) q in
  let found :=
    List.filter (fun t => Filter.matches (TaskCollection.get t) query) (tasks db) in
  let page := parseInt_or (TaskCollection.q_page q) 1 in
  let limit := parseInt_or (TaskCollection.q_limit q) 10 in
  TaskCollection.list_tasks createdAt w req q db
  = (mkResponse 200 true ""
       (Some (TaskCollection.mkListData
                (Filter.page ((page - 1) * limit) limit
                   (Filter.sort_desc createdAt found))
                (Z.of_nat (length found)) page limit)),
     db).
Proof.
  intros Hvalid. cbv zeta.
  unfold TaskCollection.list_tasks, try_catch. rewrite Hvalid. cbn [negb].
  destruct (bool_decide (User.role (user req) = manager)); reflexivity.
Qed.

Lemma list_tasks_answers (createdAt : Task.t -> Date) (w : World) (req : Request)
    (q : TaskCollection.listQuery) (db : DB) (data : TaskCollection.listData) :
  payload (fst (TaskCollection.list_tasks createdAt w req q db)) = Some data ->
  TaskCollection.valid_list q = true.
Proof.
  unfold TaskCollection.list_tasks, try_catch.
  destruct (TaskCollection.valid_list q); [reflexivity |]. cbn. discriminate.
Qed.

(** What the filter holds under a key that no parameter sets. *)
Lemma list_filter_base (w : World) (user : User.t) (team : list ObjectId)
    (q : TaskCollection.listQuery) (key : string) :
  key <> "status" -> key <> "priority" -> key <> "$and" -> key <> "deadline" ->
  (key = "assignedTo" -> truthy (TaskCollection.q_assignedTo q) = false) ->
  TaskCollection.list_filter w user team q !! key
  = match User.role user with
    | super_admin => None
    | manager =>
        if decide (key = "$or") then
          Some (Filter.Alternatives
                  [ ("assignedTo", Filter.Plain (Query.Eq (Query.VStr (User._id user))));
                    ("assignedBy", Filter.Plain (Query.Eq (Query.VStr (User._id user))));
                    ("assignedTo", Filter.Plain (Query.In_ (Query.VStr <$> team))) ])
        else None
    | employee =>
        if decide (key = "assignedTo") then Some (Filter.equals (User._id user))
        else None
    end.
Proof.
  intros H1 H2 H3 H4 H5. unfold TaskCollection.list_filter, TaskCollection.set_if.
  assert (Hne : forall k' (e : Filter.Entry) m, k' <> key ->
                  <[k' := e]> m !! key = m !! key)
    by (intros; apply lookup_insert_ne; assumption).
  destruct (bool_decide (TaskCollection.q_overdue q = Some "true"));
    rewrite ?Hne by (intros E0; subst key; contradiction);
    (destruct (truthy (TaskCollection.q_search q));
     rewrite ?Hne by (intros E0; subst key; contradiction));
    (destruct (truthy (TaskCollection.q_assignedTo q)) eqn:Hto;
     [ assert (key <> "assignedTo") by (intros E0; specialize (H5 E0); discriminate);
       rewrite ?Hne by (intros E0; subst key; contradiction)
     | ]);
    (destruct (truthy (TaskCollection.q_priority q));
     rewrite ?Hne by (intros E0; subst key; contradiction));
    (destruct (truthy (TaskCollection.q_status q));
     rewrite ?Hne by (intros E0; subst key; contradiction));
    destruct (User.role user);
    try (rewrite lookup_empty; reflexivity);
    try (destruct (decide (key = "$or")) as [-> | Hk];
         [apply lookup_singleton_eq | apply lookup_singleton_ne; congruence]);
    try (destruct (decide (key = "assignedTo")) as [-> | Hk];
         [apply lookup_singleton_eq | apply lookup_singleton_ne; congruence]).
Qed.

End Listing.

(** X17: what the role of the requester means for [GET /api/tasks].  For
    an Employee who sends no [assignedTo] every listed task is assigned
    to the Employee; an Employee who sends [assignedTo] gets the answer
    that a SuperAdmin gets for the same parameters; for a Manager every
    listed task is assigned to or by the Manager or assigned to a user
    of the team, whatever the parameters. *)
Theorem task_list_scopes {V : Validator} {R : Regex} (createdAt : Task.t -> Date)
    (w : World) (req : Request) (q : TaskCollection.listQuery) (db : DB) :
  let me := User._id (user req) in
  let answer := TaskCollection.list_tasks createdAt w req q db in
  (User.role (user req) = employee ->
   truthy (TaskCollection.q_assignedTo q) = false ->
   forall data, payload (fst answer) = Some data ->
     Forall (fun t => Task.assignedTo t = me) (TaskCollection.listed data))
  /\ (User.role (user req) = employee ->
      truthy (TaskCollection.q_assignedTo q) = true ->
      forall admin, User.role (user admin) = super_admin ->
        answer = TaskCollection.list_tasks createdAt w admin q db)
  /\ (User.role (user req) = manager ->
      forall data, payload (fst answer) = Some data ->
        Forall (fun t => Task.assignedTo t = me \/ Task.assignedBy t = me
                         \/ Task.assignedTo t ∈ team_of (user req) db)
               (TaskCollection.listed data)).
Proof.
  intros me answer. subst answer. split; [| split].
  - intros Hrole Hparam data Hdata.
    pose proof (list_tasks_answers createdAt w req q db data Hdata) as Hvalid.
    rewrite (list_tasks_runs createdAt w req q db Hvalid) in Hdata.
    cbn [fst payload] in Hdata. injection Hdata as <-. cbn [TaskCollection.listed].
    apply Forall_forall. intros t Hin. apply list_elem_of_In in Hin.
    apply page_In, sort_desc_In, filter_In in Hin as [_ Hmatch].
    eapply matches_lookup in Hmatch.
    2:{ rewrite (list_filter_base w (user req) _ q "assignedTo");
          [| discriminate | discriminate | discriminate | discriminate
           | intros _; exact Hparam].
        rewrite Hrole. reflexivity. }
    cbn in Hmatch. apply String.eqb_eq in Hmatch. exact Hmatch.
  - intros Hrole Hparam admin Hadmin.
    destruct (TaskCollection.valid_list q) eqn:Hvalid.
    2:{ unfold TaskCollection.list_tasks, try_catch. rewrite Hvalid. reflexivity. }
    rewrite (list_tasks_runs createdAt w req q db Hvalid).
    rewrite (list_tasks_runs createdAt w admin q db Hvalid).
    rewrite Hrole, Hadmin.
    rewrite !bool_decide_eq_false_2 by discriminate.
    assert (Hfilter : TaskCollection.list_filter w (user req) [] q
                      = TaskCollection.list_filter w (user admin) [] q).
    { unfold TaskCollection.list_filter. rewrite Hrole, Hadmin, Hparam.
      assert (Hcore :
        TaskCollection.set_if true "assignedTo"
          (Filter.equals (default "" (TaskCollection.q_assignedTo q)))
          (TaskCollection.set_if (truthy (TaskCollection.q_priority q)) "priority"
             (Filter.equals (default "" (TaskCollection.q_priority q)))
             (TaskCollection.set_if (truthy (TaskCollection.q_status q)) "status"
                (Filter.equals (default "" (TaskCollection.q_status q)))
                {[ "assignedTo" := Filter.equals (User._id (user req)) ]}))
        = TaskCollection.set_if true "assignedTo"
            (Filter.equals (default "" (TaskCollection.q_assignedTo q)))
            (TaskCollection.set_if (truthy (TaskCollection.q_priority q)) "priority"
               (Filter.equals (default "" (TaskCollection.q_priority q)))
               (TaskCollection.set_if (truthy (TaskCollection.q_status q)) "status"
                  (Filter.equals (default "" (TaskCollection.q_status q))) ∅))).
      { cbn [TaskCollection.set_if]. apply insert_over.
        apply set_if_off. apply set_if_off.
        intros k Hk. rewrite lookup_empty. apply lookup_singleton_ne.
        intros E0. apply Hk. symmetry. exact E0. }
      rewrite Hcore. reflexivity. }
    rewrite Hfilter. reflexivity.
  - intros Hrole data Hdata.
    pose proof (list_tasks_answers createdAt w req q db data Hdata) as Hvalid.
    rewrite (list_tasks_runs createdAt w req q db Hvalid) in Hdata.
    cbn [fst payload] in Hdata. injection Hdata as <-. cbn [TaskCollection.listed].
    apply Forall_forall. intros t Hin. apply list_elem_of_In in Hin.
    apply page_In, sort_desc_In, filter_In in Hin as [_ Hmatch].
    eapply matches_lookup in Hmatch.
    2:{ rewrite (list_filter_base w (user req) _ q "$or");
          [| discriminate | discriminate | discriminate | discriminate
           | intros E0; discriminate].
        rewrite Hrole. reflexivity. }
    rewrite bool_decide_eq_true_2 in Hmatch by reflexivity.
    cbn in Hmatch. rewrite orb_false_r in Hmatch.
    apply orb_true_iff in Hmatch as [Hmatch | Hmatch].
    + left. apply String.eqb_eq. exact Hmatch.
    + apply orb_true_iff in Hmatch as [Hmatch | Hmatch].
      * right. left. apply String.eqb_eq. exact Hmatch.
      * right. right. apply existsb_exists in Hmatch as (v & Hv & Heq).
        apply list_elem_of_In, list_elem_of_fmap in Hv as (id & -> & Hid).
        cbn in Heq. apply String.eqb_eq in Heq. rewrite Heq. exact Hid.
Qed.

(** X18: with [overdue=true], every task that [GET /api/tasks] lists is
    overdue, and a [status] parameter has no effect on the answer. *)
Theorem overdue_parameter_selects_overdue_tasks {V : Validator} {R : Regex}
    (createdAt : Task.t -> Date) (w : World) (req : Request)
    (q : TaskCollection.listQuery) (db : DB) (data : TaskCollection.listData) :
  TaskCollection.q_overdue q = Some "true" ->
  payload (fst (TaskCollection.list_tasks createdAt w req q db)) = Some data ->
  Forall (fun t => isOverdue w t = true) (TaskCollection.listed data)
  /\ TaskCollection.list_tasks createdAt w req (without_status q) db
     = TaskCollection.list_tasks createdAt w req q db.
Proof.
  intros Hover Hdata.
  pose proof (list_tasks_answers createdAt w req q db data Hdata) as Hvalid.
  split.
  - rewrite (list_tasks_runs createdAt w req q db Hvalid) in Hdata.
    cbn [fst payload] in Hdata. injection Hdata as <-. cbn [TaskCollection.listed].
    apply Forall_forall. intros t Hin. apply list_elem_of_In in Hin.
    apply page_In, sort_desc_In, filter_In in Hin as [_ Hmatch].
    assert (Hstatus : forall team,
              TaskCollection.list_filter w (user req) team q !! "status"
              = Some (Filter.On (Filter.Plain
                         (Query.Nin [Query.VStr "completed"; Query.VStr "approved"])))).
    { intros team. unfold TaskCollection.list_filter.
      rewrite bool_decide_eq_true_2 by exact Hover. apply lookup_insert_eq. }
    assert (Hdeadline : forall team,
              TaskCollection.list_filter w (user req) team q !! "deadline"
              = Some (Filter.On (Filter.Plain (Query.Lt (Query.VDate (now w)))))).
    { intros team. unfold TaskCollection.list_filter.
      rewrite bool_decide_eq_true_2 by exact Hover.
      rewrite lookup_insert_ne by discriminate. apply lookup_insert_eq. }
    pose proof (matches_lookup _ _ _ _ Hmatch (Hstatus _)) as Hs.
    pose proof (matches_lookup _ _ _ _ Hmatch (Hdeadline _)) as Hd.
    cbn in Hs, Hd. unfold isOverdue. rewrite Hd. cbn [andb].
    destruct (Task.status t); cbn in Hs; try discriminate; reflexivity.
  - assert (Hvalid' : TaskCollection.valid_list (without_status q) = true).
    { unfold TaskCollection.valid_list in *. cbn [without_status
        TaskCollection.q_status TaskCollection.q_priority TaskCollection.q_page
        TaskCollection.q_limit TaskCollection.q_search TaskCollection.q_assignedTo
        TaskCollection.q_overdue TaskCollection.optional].
      repeat (apply andb_true_iff in Hvalid as [Hvalid ?]).
      repeat (apply andb_true_iff; split); try assumption. reflexivity. }
    rewrite (list_tasks_runs createdAt w req q db Hvalid).
    rewrite (list_tasks_runs createdAt w req (without_status q) db Hvalid').
    assert (Hfilter : forall team,
              TaskCollection.list_filter w (user req) team (without_status q)
              = TaskCollection.list_filter w (user req) team q).
    { intros team. unfold TaskCollection.list_filter.
      cbn [without_status TaskCollection.q_status TaskCollection.q_priority
           TaskCollection.q_search TaskCollection.q_assignedTo TaskCollection.q_overdue
           truthy].
      rewrite bool_decide_eq_true_2 by exact Hover.
      apply insert_over. intros k Hk.
      destruct (decide (k = "deadline")) as [-> | Hk'].
      { rewrite !lookup_insert_eq. reflexivity. }
      rewrite !(lookup_insert_ne _ "deadline") by (intros E0; apply Hk'; symmetry; exact E0).
      apply (set_if_off _ "status"); [| exact Hk].
      apply set_if_off. apply set_if_off.
      intros k0 Hk0.
      destruct (truthy (TaskCollection.q_status q)); cbn [TaskCollection.set_if];
        [| reflexivity].
      rewrite lookup_insert_ne by (intros E0; apply Hk0; symmetry; exact E0).
      reflexivity. }
    cbn [without_status TaskCollection.q_page TaskCollection.q_limit].
    rewrite Hfilter. reflexivity.
Qed.

(** ** Users: creation, activation and listing *)

Section UserCreation.

Context {E : Externals} {Hh : BcryptHash}.

Lemma User_create_inv (newId : ObjectId) (name email password : string)
    (role : Role) (managerId : option ObjectId) (department phoneNumber : option string)
    (db db' : DB) (u : User.t) :
  User_create newId name email password role managerId department phoneNumber db
  = (Returned u, db') ->
  u = User.mk newId (trim name) (trim (UserRoutes.toLowerCase email))
        (bcrypt_hash password) role managerId true None (Some 0) None None
        phoneNumber department
  /\ db' = mkDB (users db ++ [u]) (tasks db) (auditlogs db)
  /\ Forall (fun v => User.email v <> User.email u /\ User._id v <> newId) (users db).
Proof.
  unfold User_create.
  match goal with
  | |- context [if ?b then throw ValidationError else _] => destruct b
  end; [cbn; discriminate |].
  destruct (existsb _ (users db)) eqn:Hex; [discriminate |].
  intros Hrun. injection Hrun as <- <-.
  split; [reflexivity |]. split; [reflexivity |].
  cbn [User.email]. apply Forall_forall. intros v Hv.
  assert (Hnot : String.eqb (User.email v) (trim (UserRoutes.toLowerCase email))
                 || has_id newId v = false).
  { destruct (String.eqb (User.email v) (trim (UserRoutes.toLowerCase email))
              || has_id newId v) eqn:Hb; [| reflexivity].
    assert (existsb (fun u0 => String.eqb (User.email u0)
                                 (trim (UserRoutes.toLowerCase email))
                               || has_id newId u0) (users db) = true).
    { apply existsb_exists. exists v. split; [apply list_elem_of_In; exact Hv | exact Hb]. }
    congruence. }
  apply orb_false_iff in Hnot as [H1 H2]. unfold has_id in H2.
  split; intros E0.
  - rewrite E0, String.eqb_refl in H1. discriminate.
  - rewrite E0, String.eqb_refl in H2. discriminate.
Qed.

(** What a 201 of [POST /api/users] means. *)
Lemma create_user_inv (w : World) (req : Request) (newId : ObjectId)
    (body : UserCollection.userBody) (db db' : DB) (m : string) (safe : User.t) :
  UserCollection.create_user w req newId body db
  = (mkResponse 201 true m (Some safe), db') ->
  exists u coll,
    safe = toSafeObject u
    /\ db' = mkDB (users db ++ [u]) (tasks db) coll
    /\ User.role (user req) ∈ [super_admin; manager]
    /\ includes ["manager"; "employee"] (UserCollection.role body) = true
    /\ User.role u = default employee (role_of_string (UserCollection.role body))
    /\ User.managerId u
       = (if bool_decide (User.role (user req) = manager)
          then Some (User._id (user req)) else None)
    /\ (User.role (user req) = manager -> UserCollection.role body = "employee")
    /\ User._id u = newId
    /\ User.isActive u = true
    /\ User.password u = bcrypt_hash (UserCollection.password body)
    /\ AuthRoutes.strong (UserCollection.password body) = true
    /\ Forall (fun v => User.email v <> User.email u /\ User._id v <> newId) (users db).
Proof.
  intros Hrun. unfold UserCollection.create_user, try_catch in Hrun.
  destruct (decide (User.role (user req) ∈ [super_admin; manager])) as [Hrole | Hrole].
  2:{ destruct (authorize_refuses w req [super_admin; manager] db Hrole) as [c Ha].
      rewrite (bind_step _ _ _ _ _ Ha) in Hrun. cbn in Hrun. discriminate. }
  rewrite (bind_step _ _ _ _ _ (authorize_passes w req _ db Hrole)) in Hrun.
  cbn [negb] in Hrun.
  destruct (TaskRoutes.optional_trim_max 50 (UserCollection.department body))
    as [department |]; [| cbn in Hrun; discriminate].
  match type of Hrun with
  | context [if negb ?b then _ else _] => destruct b eqn:Hvalid
  end; cbn [negb] in Hrun; [| cbn in Hrun; discriminate].
  unfold bind at 1 in Hrun. unfold User_findOne_email at 1 in Hrun.
  destruct (List.find _ (users db)) as [existing |]; [cbn in Hrun; discriminate |].
  match type of Hrun with
  | context [if ?b then ret (reply 403 _ _) else _] => destruct b eqn:Honly
  end; [cbn in Hrun; discriminate |].
  unfold bind at 1 in Hrun.
  match type of Hrun with
  | context [User_create ?a ?b ?c ?d ?e ?f ?g ?h ?x] =>
      destruct (User_create a b c d e f g h x) as [[u | err] db1] eqn:Hcreate
  end; [| cbn in Hrun; discriminate].
  apply User_create_inv in Hcreate as (Hu & Hdb1 & Hfresh).
  unfold bind in Hrun.
  match type of Hrun with
  | context [logAction ?w1 ?l ?d] =>
      destruct (logAction_returns w1 l d) as (r & c & Hl)
  end.
  rewrite Hl in Hrun. cbn [ret] in Hrun. injection Hrun as _ Hsafe Hdb.
  repeat (apply andb_true_iff in Hvalid as [Hvalid ?]).
  exists u, c. subst db' safe. rewrite Hdb1. cbn [users tasks].
  split; [reflexivity |]. split; [reflexivity |]. split; [exact Hrole |].
  split; [assumption |].
  rewrite Hu. cbn [User.role User.managerId User._id User.isActive User.password].
  split; [reflexivity |]. split.
  { destruct (bool_decide (User.role (user req) = manager)) eqn:Hm; cbn [andb] in *.
    - apply negb_false_iff in Honly. rewrite Honly. reflexivity.
    - reflexivity. }
  split.
  { intros Hm. rewrite bool_decide_eq_true_2 in Honly by exact Hm. cbn [andb] in Honly.
    apply negb_false_iff, String.eqb_eq in Honly. exact Honly. }
  split; [reflexivity |]. split; [reflexivity |]. split; [reflexivity |].
  split; [assumption |]. rewrite Hu in Hfresh. exact Hfresh.
Qed.

End UserCreation.

(** X19: when [POST /api/users] answers 201, one user was appended, active
    and no SuperAdmin, whose e-mail address and id no user had, and the
    answer is this user without password; the requester is no Employee;
    a Manager creates Employees of the own team only, and a user that a
    SuperAdmin creates has no manager.  No task changes. *)
Theorem created_user_joins_the_team_of_a_manager {E : Externals} {Hh : BcryptHash}
    (w : World) (req : Request) (newId : ObjectId) (body : UserCollection.userBody)
    (db db' : DB) (m : string) (safe : User.t) :
  UserCollection.create_user w req newId body db
  = (mkResponse 201 true m (Some safe), db') ->
  exists u,
    users db' = users db ++ [u]
    /\ tasks db' = tasks db
    /\ safe = toSafeObject u
    /\ User.isActive u = true
    /\ User.role u <> super_admin
    /\ User.role (user req) <> employee
    /\ (User.role (user req) = manager ->
          User.role u = employee /\ User.managerId u = Some (User._id (user req)))
    /\ (User.role (user req) = super_admin -> User.managerId u = None)
    /\ Forall (fun v => User.email v <> User.email u /\ User._id v <> User._id u)
              (users db).
Proof.
  intros Hrun.
  destruct (create_user_inv w req newId body db db' m safe Hrun)
    as (u & coll & Hsafe & -> & Hrole & Hin & Hr & Hm & Honly & Hid & Hact & _ & _
        & Hfresh).
  exists u. cbn [users tasks].
  split; [reflexivity |]. split; [reflexivity |]. split; [exact Hsafe |].
  split; [exact Hact |]. split.
  { rewrite Hr. unfold includes in Hin. apply bool_decide_eq_true_1 in Hin.
    apply elem_of_cons in Hin as [-> | Hin]; [discriminate |].
    apply elem_of_cons in Hin as [-> | Hin]; [discriminate |].
    apply elem_of_nil in Hin. destruct Hin. }
  split.
  { intros Hemp. rewrite Hemp in Hrole.
    apply elem_of_cons in Hrole as [Hx | Hx]; [discriminate |].
    apply elem_of_cons in Hx as [Hx | Hx]; [discriminate |].
    apply elem_of_nil in Hx. exact Hx. }
  split.
  { intros Hman. rewrite Hr, Hm, (Honly Hman).
    rewrite bool_decide_eq_true_2 by exact Hman. split; reflexivity. }
  split.
  { intros Hadm. rewrite Hm, Hadm. reflexivity. }
  rewrite Hid. exact Hfresh.
Qed.

Section Activation.

Lemma activate_runs (w : World) (req : Request) (userId : ObjectId) (v : JVal)
    (flag : bool) (db : DB) (u : User.t) :
  User.role (user req) = super_admin ->
  UserRoutes.isBoolean v = Some v ->
  UserRoutes.cast_bool v = Some flag ->
  user_by_id userId db = Some u ->
  exists coll,
    UserCollection.activate w req userId (Some v) db
    = (mkResponse 200 true
         ("User " +:+ (if js_truthy v then "activated" else "deactivated")
          +:+ " successfully")
         (Some (toSafeObject (set_isActive flag u))),
       mkDB (update_first (has_id userId) (set_isActive flag) (users db))
            (tasks db) coll).
Proof.
  intros Hrole Hvalid Hcast Hfind.
  unfold UserCollection.activate, try_catch.
  rewrite (bind_step _ _ db true db)
    by (apply authorize_passes; rewrite Hrole; apply elem_of_cons; left; reflexivity).
  cbn [negb mbind option_bind]. rewrite Hvalid, Hcast.
  rewrite (bind_step _ _ db (Some u) db)
    by (unfold User_findById; f_equal; f_equal; exact Hfind).
  erewrite bind_step by (unfold User_updateOne; reflexivity).
  unfold bind.
  match goal with
  | |- context [logAction ?w1 ?l ?d] =>
      destruct (logAction_returns w1 l d) as (r & c & ->)
  end.
  eexists. reflexivity.
Qed.

End Activation.

(** X20: [PUT /api/users/:id/activate] by a SuperAdmin with a value that
    the validator accepts answers 200 and stores Mongoose's cast of the
    value as the activity flag of that user alone, while the message
    follows the truthiness of the value: for a boolean the two agree,
    for the strings "false" and "0" the account is deactivated and the
    message says activated. *)
Theorem activation_stores_the_cast_flag (w : World) (req : Request)
    (userId : ObjectId) (v : JVal) (db : DB) (u : User.t) :
  User.role (user req) = super_admin ->
  UserRoutes.isBoolean v = Some v ->
  user_by_id userId db = Some u ->
  let result := UserCollection.activate w req userId (Some v) db in
  exists flag,
    UserRoutes.cast_bool v = Some flag
    /\ code (fst result) = 200
    /\ users (snd result) = update_first (has_id userId) (set_isActive flag) (users db)
    /\ tasks (snd result) = tasks db
    /\ message (fst result)
       = "User " +:+ (if js_truthy v then "activated" else "deactivated")
         +:+ " successfully"
    /\ (forall b, v = JBool b -> flag = b /\ js_truthy v = b)
    /\ (v = JStr "false" \/ v = JStr "0" -> flag = false /\ js_truthy v = true).
Proof.
  intros Hrole Hvalid Hfind result. subst result.
  assert (Hcast : exists flag, UserRoutes.cast_bool v = Some flag).
  { unfold UserRoutes.isBoolean in Hvalid. unfold UserRoutes.cast_bool.
    destruct v as [| b | n | s |]; try discriminate.
    - eexists. reflexivity.
    - destruct (n =? 1); [eexists; reflexivity |].
      destruct (n =? 0); [eexists; reflexivity |]. cbn in Hvalid. discriminate.
    - destruct (includes ["true"; "false"; "1"; "0"] s) eqn:Hin; [| discriminate].
      unfold includes in Hin. apply bool_decide_eq_true_1 in Hin.
      repeat (apply elem_of_cons in Hin as [-> | Hin]; [eexists; reflexivity |]).
      apply elem_of_nil in Hin. destruct Hin. }
  destruct Hcast as [flag Hcast]. exists flag.
  destruct (activate_runs w req userId v flag db u Hrole Hvalid Hcast Hfind)
    as [coll ->].
  cbn [fst snd code message users tasks].
  split; [exact Hcast |]. split; [reflexivity |]. split; [reflexivity |].
  split; [reflexivity |]. split; [reflexivity |]. split.
  - intros b ->. cbn in Hcast. injection Hcast as <-. split; reflexivity.
  - intros [-> | ->]; cbn in Hcast; injection Hcast as <-; split; reflexivity.
Qed.


Section UserListing.

Context {R : Regex}.

Lemma list_users_runs (createdAt : User.t -> Date) (w : World) (req : Request)
    (q : UserCollection.listQuery) (db : DB) :
  User.role (user req) ∈ [super_admin; manager] ->
  UserCollection.valid_list q = true ->
  let query := UserCollection.list_filter (user req) q in
  let found :=
    List.filter (fun u => Filter.matches (UserCollection.get u) query) (users db) in
  let page := parseInt_or (UserCollection.q_page q) 1 in
  let limit := parseInt_or (UserCollection.q_limit q) 10 in
  UserCollection.list_users createdAt w req q db
  = (mkResponse 200 true ""
       (Some (UserCollection.mkListData
                (set_password "" <$>
                 Filter.page ((page - 1) * limit) limit
                   (Filter.sort_desc createdAt found))
                (Z.of_nat (length found)) page limit)),
     db).
Proof.
  intros Hrole Hvalid. cbv zeta.
  unfold UserCollection.list_users, try_catch.
  rewrite (bind_step _ _ _ _ _ (authorize_passes w req _ db Hrole)).
  cbn [negb]. rewrite Hvalid. reflexivity.
Qed.

(** Without a target in the body or the query string,
    [authorizeTeamAccess] lets every request pass. *)
Lemma authorizeTeamAccess_without_target {A} (req : Request)
    (body : gmap string JVal) (db : DB) :
  body !! "assignedTo" = None ->
  query_userId req = None ->
  @authorizeTeamAccess A req body db = (None, db).
Proof.
  intros Hbody Hquery. unfold authorizeTeamAccess, try_catch.
  rewrite Hbody, Hquery.
  destruct (User.role (user req)); reflexivity.
Qed.

Lemma matches_singleton (doc : string -> Query.Value) (key : string)
    (e : Filter.Entry) :
  Filter.matches doc {[ key := e ]} = Filter.entry_matches doc key e.
Proof.
  unfold Filter.matches. rewrite map_to_list_singleton. cbn. apply andb_true_r.
Qed.

End UserListing.

(** X22: [GET /api/users] for a Manager.  Without a search term every
    listed user is the Manager or of the Manager's team; with a search
    term the Manager gets the answer that a SuperAdmin gets for the
    same parameters. *)
Theorem search_replaces_the_manager_scope {R : Regex} (createdAt : User.t -> Date)
    (w : World) (req admin : Request) (q : UserCollection.listQuery) (db : DB) :
  User.role (user req) = manager ->
  User.role (user admin) = super_admin ->
  let me := User._id (user req) in
  (truthy (UserCollection.q_search q) = true ->
     UserCollection.list_users createdAt w req q db
     = UserCollection.list_users createdAt w admin q db)
  /\ (truthy (UserCollection.q_search q) = false ->
        forall data,
          payload (fst (UserCollection.list_users createdAt w req q db)) = Some data ->
          Forall (fun u => User.managerId u = Some me \/ User._id u = me)
                 (UserCollection.listed data)).
Proof.
  intros Hrole Hadmin me.
  assert (Hin : User.role (user req) ∈ [super_admin; manager]).
  { rewrite Hrole. apply elem_of_cons. right. apply elem_of_cons. left. reflexivity. }
  assert (Hin' : User.role (user admin) ∈ [super_admin; manager]).
  { rewrite Hadmin. apply elem_of_cons. left. reflexivity. }
  split.
  - intros Hsearch.
    destruct (UserCollection.valid_list q) eqn:Hvalid.
    2:{ unfold UserCollection.list_users, try_catch.
        rewrite (bind_step _ _ _ _ _ (authorize_passes w req _ db Hin)).
        rewrite (bind_step _ _ _ _ _ (authorize_passes w admin _ db Hin')).
        rewrite Hvalid. reflexivity. }
    rewrite (list_users_runs createdAt w req q db Hin Hvalid).
    rewrite (list_users_runs createdAt w admin q db Hin' Hvalid).
    assert (Hfilter : UserCollection.list_filter (user req) q
                      = UserCollection.list_filter (user admin) q).
    { unfold UserCollection.list_filter. rewrite Hrole, Hadmin, Hsearch.
      change (bool_decide (manager = manager)) with true.
      change (bool_decide (super_admin = manager)) with false.
      cbn [TaskCollection.set_if]. apply insert_over.
      apply set_if_off. apply set_if_off.
      intros k Hk. rewrite lookup_empty. apply lookup_singleton_ne.
      intros E0. apply Hk. symmetry. exact E0. }
    rewrite Hfilter. reflexivity.
  - intros Hsearch data Hdata.
    assert (Hvalid : UserCollection.valid_list q = true).
    { unfold UserCollection.list_users, try_catch in Hdata.
      rewrite (bind_step _ _ _ _ _ (authorize_passes w req _ db Hin)) in Hdata.
      cbn [negb] in Hdata.
      destruct (UserCollection.valid_list q); [reflexivity |]. cbn in Hdata. discriminate. }
    rewrite (list_users_runs createdAt w req q db Hin Hvalid) in Hdata.
    cbn [fst payload] in Hdata. injection Hdata as <-. cbn [UserCollection.listed].
    apply Forall_fmap. apply Forall_forall. intros u Hu. apply list_elem_of_In in Hu.
    apply page_In, sort_desc_In, filter_In in Hu as [_ Hmatch].
    apply (matches_lookup _ _ "$or"
             (Filter.Alternatives
                [ ("managerId", Filter.Plain (Query.Eq (Query.VStr (User._id (user req)))));
                  ("_id", Filter.Plain (Query.Eq (Query.VStr (User._id (user req))))) ]))
      in Hmatch.
    2:{ unfold UserCollection.list_filter. rewrite Hrole, Hsearch.
        change (bool_decide (manager = manager)) with true.
        cbn [TaskCollection.set_if].
        unfold TaskCollection.set_if.
        destruct (bool_decide (is_Some (UserCollection.q_isActive q)));
          destruct (truthy (UserCollection.q_role q));
          rewrite ?lookup_insert_ne by discriminate;
          apply lookup_singleton_eq. }
    cbn in Hmatch. rewrite orb_false_r in Hmatch. cbn.
    apply orb_true_iff in Hmatch as [Hmatch | Hmatch].
    + left. destruct (User.managerId u) as [m |]; [| discriminate].
      cbn in Hmatch. apply String.eqb_eq in Hmatch. rewrite Hmatch. reflexivity.
    + right. apply String.eqb_eq. exact Hmatch.
Qed.

(** X23: [GET /api/users/:id] and [GET /api/users/:id/tasks], which
    [authorizeTeamAccess] guards, answer every authenticated user, of
    whatever role, who sends neither [assignedTo] nor [userId]: with the
    stored user of that id without password, and with the first page of
    the tasks assigned to that id and their number. *)
Theorem id_routes_do_not_check_the_target {R : Regex} (createdAt : Task.t -> Date)
    (req : Request) (body : gmap string JVal) (id : ObjectId) (db : DB) (u : User.t) :
  body !! "assignedTo" = None ->
  query_userId req = None ->
  user_by_id id db = Some u ->
  let assigned := List.filter (fun t => String.eqb (Task.assignedTo t) id) (tasks db) in
  UserCollection.get_user req body id db
  = (mkResponse 200 true "" (Some (set_password "" u)), db)
  /\ UserCollection.user_tasks createdAt req body id None None None db
     = (mkResponse 200 true ""
          (Some (UserCollection.mkTasksData
                   (Filter.page 0 10 (Filter.sort_desc createdAt assigned))
                   (Z.of_nat (length assigned)))),
        db).
Proof.
  intros Hbody Hquery Hfind assigned. split.
  - unfold UserCollection.get_user.
    rewrite authorizeTeamAccess_without_target by assumption.
    unfold try_catch.
    rewrite (bind_step _ _ db (Some u) db)
      by (unfold User_findById; f_equal; f_equal; exact Hfind).
    reflexivity.
  - unfold UserCollection.user_tasks.
    rewrite authorizeTeamAccess_without_target by assumption.
    unfold try_catch. cbn [TaskCollection.optional AuditRoutes.optional_int_min
                           AuditRoutes.optional_int andb negb truthy
                           TaskCollection.set_if parseInt_or].
    unfold bind, TaskCollection.Task_find, ret.
    assert (Hfilter : List.filter
                        (fun t => Filter.matches (TaskCollection.get t)
                                    {[ "assignedTo" := Filter.equals id ]}) (tasks db)
                      = assigned).
    { unfold assigned. apply filter_ext_eq. intros t.
      rewrite matches_singleton. reflexivity. }
    rewrite Hfilter. reflexivity.
Qed.

(** ** Statistics and messages of the audit trail *)

Section Summaries.

Lemma insert_desc_sorted {A} (key : A -> Z) (a : A) (l : list A) :
  StronglySorted (fun x y => key y <= key x) l ->
  StronglySorted (fun x y => key y <= key x) (Filter.insert_desc key a l).
Proof.
  induction l as [| b l IH]; intros Hs; cbn.
  - repeat constructor.
  - apply StronglySorted_inv in Hs as [Hs Hb].
    destruct (key b <? key a) eqn:Hlt.
    + apply Z.ltb_lt in Hlt. constructor; [constructor; assumption |].
      constructor; [lia |].
      eapply Forall_impl; [exact Hb |]. cbn. intros c Hc. lia.
    + apply Z.ltb_ge in Hlt. constructor; [apply IH; exact Hs |].
      apply Forall_forall. intros c Hc. apply list_elem_of_In in Hc.
      apply insert_desc_In in Hc as [-> | Hc]; [exact Hlt |].
      rewrite Forall_forall in Hb. apply Hb. apply list_elem_of_In. exact Hc.
Qed.

Lemma sort_desc_sorted {A} (key : A -> Z) (l : list A) :
  StronglySorted (fun x y => key y <= key x) (Filter.sort_desc key l).
Proof.
  unfold Filter.sort_desc. induction l as [| a l IH]; cbn; [constructor |].
  apply insert_desc_sorted. exact IH.
Qed.

Lemma insert_desc_Permutation {A} (key : A -> Z) (a : A) (l : list A) :
  Filter.insert_desc key a l ≡ₚ a :: l.
Proof.
  induction l as [| b l IH]; cbn; [reflexivity |].
  destruct (key b <? key a); [reflexivity |].
  rewrite IH. apply Permutation_swap.
Qed.

Lemma sort_desc_Permutation {A} (key : A -> Z) (l : list A) :
  Filter.sort_desc key l ≡ₚ l.
Proof.
  unfold Filter.sort_desc. induction l as [| a l IH]; cbn; [reflexivity |].
  rewrite insert_desc_Permutation, IH. reflexivity.
Qed.

Lemma sum_Permutation (l1 l2 : list Z) :
  l1 ≡ₚ l2 -> foldr Z.add 0 l1 = foldr Z.add 0 l2.
Proof. induction 1; cbn; lia. Qed.

(** Each entry falls into the group of its action and into no other. *)
Lemma groups_partition (actions : list string) (l : list AuditLog.t) :
  NoDup actions ->
  Forall (fun e => AuditLog.action e ∈ actions) l ->
  foldr Z.add 0 (AuditStatics.count <$> (AuditStatics.group l <$> actions))
  = Z.of_nat (length l).
Proof.
  intros Hnd. induction l as [| e l IH]; intros Hall.
  - clear. induction actions as [| a actions IH]; [reflexivity |].
    cbn in *. rewrite IH. reflexivity.
  - apply Forall_cons in Hall as [He Hall]. specialize (IH Hall).
    rewrite <- list_fmap_compose in *.
    assert (Hstep : forall acts, NoDup acts ->
              foldr Z.add 0 ((AuditStatics.count ∘ AuditStatics.group (e :: l)) <$> acts)
              = (if bool_decide (AuditLog.action e ∈ acts) then 1 else 0)
                + foldr Z.add 0 ((AuditStatics.count ∘ AuditStatics.group l) <$> acts)).
    { clear. intros acts Hnd. induction Hnd as [| a acts Hfresh Hnd IH].
      - reflexivity.
      - cbn [fmap list_fmap foldr]. rewrite IH.
        unfold compose at 1 3. unfold AuditStatics.group.
        cbn [AuditStatics.count List.filter].
        destruct (bool_decide_reflect (AuditLog.action e ∈ a :: acts)) as [Hin | Hout];
          destruct (bool_decide_reflect (AuditLog.action e ∈ acts)) as [Hin' | Hout'];
          destruct (String.eqb_spec (AuditLog.action e) a) as [E0 | NE];
          cbn [length]; try lia.
        + subst a. contradiction.
        + apply elem_of_cons in Hin as [Hin | Hin]; contradiction.
        + exfalso. apply Hout. apply elem_of_cons. right. exact Hin'.
        + exfalso. apply Hout. apply elem_of_cons. right. exact Hin'.
        + exfalso. apply Hout. apply elem_of_cons. left. exact E0. }
    rewrite (Hstep actions Hnd), IH.
    rewrite bool_decide_eq_true_2 by exact He. cbn [length]. lia.
Qed.

End Summaries.

(** X24: the groups of [getActivitySummary]: one group for each action
    that occurs in the time frame, whose count is the number of the
    entries of that action in the time frame, is positive and is the sum
    of the successes and the failures; the counts add up to the number of
    entries in the time frame; the groups come by descending count. *)
Theorem activity_summary_accounts_for_every_entry (env : Env) (timeframe : Z)
    (coll : list AuditLog.t) :
  let since := now env - timeframe * 60 * 60 * 1000 in
  let matched := List.filter (fun e => since <=? AuditLog.createdAt e) coll in
  let groups := AuditStatics.getActivitySummary env timeframe coll in
  Forall (fun g =>
            AuditStatics.count g
            = Z.of_nat (length (List.filter
                                  (fun e => String.eqb (AuditLog.action e)
                                              (AuditStatics._id g)) matched))
            /\ AuditStatics.count g
               = AuditStatics.successCount g + AuditStatics.failureCount g
            /\ 0 < AuditStatics.count g) groups
  /\ NoDup (AuditStatics._id <$> groups)
  /\ (forall e, In e matched -> AuditLog.action e ∈ AuditStatics._id <$> groups)
  /\ foldr Z.add 0 (AuditStatics.count <$> groups) = Z.of_nat (length matched)
  /\ StronglySorted (fun g h => AuditStatics.count h <= AuditStatics.count g) groups.
Proof.
  intros since matched groups.
  assert (Hmatched : AuditLog.find (Query.Field "createdAt" (Query.Gte (Query.VDate since)))
                       coll = matched).
  { unfold AuditLog.find, matched. apply filter_ext_eq. intros e. reflexivity. }
  set (actions := remove_dups (AuditLog.action <$> matched)).
  assert (Hgroups : groups ≡ₚ AuditStatics.group matched <$> actions).
  { unfold groups, AuditStatics.getActivitySummary. fold since. rewrite Hmatched.
    apply sort_desc_Permutation. }
  assert (Hnd : NoDup actions) by apply NoDup_remove_dups.
  assert (Hall : Forall (fun e => AuditLog.action e ∈ actions) matched).
  { apply Forall_forall. intros e He. unfold actions. apply elem_of_remove_dups.
    apply list_elem_of_fmap. exists e. split; [reflexivity | exact He]. }
  assert (Hids : AuditStatics._id <$> (AuditStatics.group matched <$> actions) = actions).
  { rewrite <- list_fmap_compose. clear. induction actions as [| a l IH]; [reflexivity |].
    cbn. f_equal. exact IH. }
  split; [| split; [| split; [| split]]].
  - rewrite Hgroups. apply Forall_fmap. apply Forall_forall. intros a Ha.
    unfold compose, AuditStatics.group.
    cbn [AuditStatics.count AuditStatics._id AuditStatics.successCount
         AuditStatics.failureCount].
    set (members := List.filter (fun e => String.eqb (AuditLog.action e) a) matched).
    split; [reflexivity |]. split.
    + clear. induction members as [| e l IH]; [reflexivity |].
      cbn [List.filter length]. destruct (AuditLog.success e); cbn [Bool.eqb length]; lia.
    + assert (Hsome : exists e, In e members).
      { unfold actions in Ha. apply elem_of_remove_dups, list_elem_of_fmap in Ha
          as (e & -> & He).
        exists e. apply filter_In. split; [apply list_elem_of_In; exact He |].
        apply String.eqb_refl. }
      destruct Hsome as [e He]. destruct members; [destruct He | cbn; lia].
  - rewrite Hgroups, Hids. exact Hnd.
  - intros e He. rewrite Hgroups, Hids.
    rewrite Forall_forall in Hall. apply Hall. apply list_elem_of_In. exact He.
  - rewrite (sum_Permutation _ (AuditStatics.count <$> (AuditStatics.group matched <$> actions)))
      by (apply fmap_Permutation; exact Hgroups).
    apply groups_partition; assumption.
  - unfold groups, AuditStatics.getActivitySummary. apply sort_desc_sorted.
Qed.

(** X25: every action that the schema admits has a display message of
    its own, so that [getDisplayMessage] of a valid entry never falls
    back to the name of the action. *)
Theorem stored_entries_have_a_display_message (e : AuditLog.t) :
  AuditLog.validate e = true ->
  exists message,
    In (AuditLog.action e, message) AuditStatics.actionMessages
    /\ AuditStatics.getDisplayMessage e = message
    /\ message <> AuditLog.action e.
Proof.
  intros Hvalid. unfold AuditLog.validate in Hvalid.
  repeat (apply andb_true_iff in Hvalid as [Hvalid ?]).
  match goal with
  | H : includes AuditLog.action_enum _ = true |- _ =>
      unfold includes in H; apply bool_decide_eq_true_1 in H; rename H into Hin
  end.
  unfold AuditStatics.getDisplayMessage.
  unfold AuditLog.action_enum in Hin.
  repeat (apply elem_of_cons in Hin as [-> | Hin];
          [eexists; split; [| split; [vm_compute; reflexivity | discriminate]];
           vm_compute; tauto |]).
  apply elem_of_nil in Hin. destruct Hin.
Qed.

Section Refusals.

Context {E : Externals} {B : Bcrypt}.

Lemma failed_login_valid (w : World) (ip ua : option string) (id : ObjectId)
    (email reason : string) (sev : Severity) :
  truthy ip = true ->
  AuditLog.validate (AuditLog.construct w
                       (Auth.failed_login ip ua (Some id) email reason sev)) = true.
Proof.
  intros Hip. unfold AuditLog.validate, AuditLog.construct, Auth.failed_login.
  cbn [AuditLog.user AuditLog.action AuditLog.resource AuditLog.ipAddress
       AuditLog.d_user AuditLog.d_action AuditLog.d_resource AuditLog.d_ipAddress].
  rewrite Hip. reflexivity.
Qed.

(** A login of a known user that does not succeed leaves a
    [failed_login] entry. *)
Lemma login_refusal (w : World) (ip ua : option string) (body : Auth.loginBody)
    (db : DB) (u : User.t) :
  user_by_email (normalizeEmail (Auth.email body)) db = Some u ->
  isEmail (Auth.email body) = true ->
  Auth.password body <> "" ->
  truthy ip = true ->
  (forall e, audit_write_fails w e = false) ->
  code (fst (Auth.login w ip ua body db)) <> 200 ->
  exists reason sev,
    auditlogs (snd (Auth.login w ip ua body db))
    = auditlogs db
      ++ [AuditLog.construct w
            (Auth.failed_login ip ua (Some (User._id u))
               (normalizeEmail (Auth.email body)) reason sev)].
Proof.
  intros Hf He Hp Hip Hwrite.
  remember (Auth.login w ip ua body db) as result eqn:Hrun.
  unfold Auth.login, try_catch in Hrun. rewrite He in Hrun. cbn [negb orb] in Hrun.
  destruct (String.eqb_spec (Auth.password body) "") as [E0 | _]; [contradiction |].
  unfold bind at 1 in Hrun. unfold User_findOne_email in Hrun.
  unfold user_by_email in Hf. rewrite Hf in Hrun.
  destruct (User.isLocked w u).
  { unfold bind in Hrun.
    rewrite logAction_appends in Hrun
      by (first [apply failed_login_valid; exact Hip | apply Hwrite]).
    cbn in Hrun. subst result. intros _. eexists _, _. reflexivity. }
  destruct (User.isActive u); cbn [negb] in Hrun.
  2:{ unfold bind in Hrun.
      rewrite logAction_appends in Hrun
        by (first [apply failed_login_valid; exact Hip | apply Hwrite]).
      cbn in Hrun. subst result. intros _. eexists _, _. reflexivity. }
  destruct (User.comparePassword u (Auth.password body)); cbn [negb] in Hrun.
  2:{ unfold bind, User_updateOne in Hrun.
      rewrite logAction_appends in Hrun
        by (first [apply failed_login_valid; exact Hip | apply Hwrite]).
      cbn in Hrun. subst result. intros _. eexists _, _. reflexivity. }
  intros Hcode. exfalso. apply Hcode. subst result.
  destruct (0 <? User.get_loginAttempts u);
    unfold bind, User_updateOne, ret; cbn [users tasks auditlogs];
    match goal with
    | |- context [logAction ?w1 ?l ?d] =>
        destruct (logAction_returns w1 l d) as (r & c & ->)
    end; reflexivity.
Qed.

End Refusals.

(** X26: a login for the address of a stored user that is not answered
    200 (locked, deactivated, or wrong password) appears in
    [getFailedLogins] of every time frame that contains the instant of
    the request, with the user, the address of the client and the
    instant (the request has an address and the audit write goes
    through). *)
Theorem refused_logins_of_known_users_are_listed {E : Externals} {B : Bcrypt}
    (w : World) (at_ : Env) (timeframe : Z) (ip ua : option string)
    (body : Auth.loginBody) (db : DB) (u : User.t) :
  user_by_email (normalizeEmail (Auth.email body)) db = Some u ->
  isEmail (Auth.email body) = true ->
  Auth.password body <> "" ->
  truthy ip = true ->
  (forall e, audit_write_fails w e = false) ->
  now at_ - timeframe * 60 * 60 * 1000 <= now w ->
  let result := Auth.login w ip ua body db in
  code (fst result) <> 200 ->
  exists entry,
    In entry (AuditStatics.getFailedLogins at_ timeframe (auditlogs (snd result)))
    /\ AuditLog.user entry = Some (User._id u)
    /\ AuditLog.ipAddress entry = ip
    /\ AuditLog.success entry = false
    /\ AuditLog.createdAt entry = now w.
Proof.
  intros Hf He Hp Hip Hwrite Hwindow result Hcode. subst result.
  destruct (login_refusal w ip ua body db u Hf He Hp Hip Hwrite Hcode)
    as (reason & sev & ->).
  exists (AuditLog.construct w
            (Auth.failed_login ip ua (Some (User._id u))
               (normalizeEmail (Auth.email body)) reason sev)).
  split; [| repeat split; reflexivity].
  unfold AuditStatics.getFailedLogins.
  apply list_elem_of_In. rewrite sort_desc_perm. apply list_elem_of_In.
  unfold AuditLog.find. apply filter_In. split.
  - apply in_or_app. right. left. reflexivity.
  - cbn. rewrite andb_true_r. apply Z.leb_le. exact Hwindow.
Qed.

(** X27: when [authorize] refuses a user whose role is not among the
    allowed ones, it appends one audit entry of the user: a failure of
    severity medium and category security, which the security view of
    every window that contains the instant of the request selects (the
    request has an address and the audit write goes through). *)
Theorem authorize_refusal_is_on_the_security_record (w : World) (req : Request)
    (roles : list Role) (db : DB) (since : Date) :
  User.role (user req) ∉ roles ->
  truthy (ip req) = true ->
  (forall e, audit_write_fails w e = false) ->
  since <= now w ->
  exists entry,
    authorize w req roles db
    = (Returned false, mkDB (users db) (tasks db) (auditlogs db ++ [entry]))
    /\ AuditLog.user entry = Some (User._id (user req))
    /\ AuditLog.success entry = false
    /\ AuditLog.severity entry = medium
    /\ AuditLog.category entry = security
    /\ In entry (AuditLog.find (AuditRoutes.security_filter since)
                   (auditlogs db ++ [entry])).
Proof.
  intros Hout Hip Hwrite Hsince. unfold authorize.
  rewrite bool_decide_eq_false_2 by exact Hout.
  erewrite bind_step.
  2:{ apply logAction_appends; [| apply Hwrite].
      unfold AuditLog.validate, AuditLog.construct.
      cbn [AuditLog.user AuditLog.action AuditLog.resource AuditLog.ipAddress
           AuditLog.d_user AuditLog.d_action AuditLog.d_resource AuditLog.d_ipAddress].
      rewrite Hip. reflexivity. }
  eexists. split; [reflexivity |].
  split; [reflexivity |]. split; [reflexivity |]. split; [reflexivity |].
  split; [reflexivity |].
  unfold AuditLog.find. apply filter_In. split.
  - apply in_or_app. right. left. reflexivity.
  - rewrite matches_security_filter. cbn. apply Z.leb_le. exact Hsince.
Qed.

(** ** Renaming by a Manager *)

Section Renaming.

Context {E : Externals}.


End Renaming.


(** ** Instances of the further properties *)

(** Seven requests, one second apart: the first five are admitted. *)
Lemma limiter_admits_five_per_window_witness :
  let admitted :=
    fst (limited Demo.address (Some Sample.worker)
           [1000; 2000; 3000; 4000; 5000; 6000; 7000] ∅) in
  admitted = [1000; 2000; 3000; 4000; 5000]
  /\ (length (within_window 7000%Z admitted) <= 5)%nat.
Proof.
  cbv zeta. split; [vm_compute; reflexivity |].
  apply (limiter_admits_five_per_window Demo.address (Some Sample.worker)
           [1000; 2000; 3000; 4000; 5000; 6000; 7000] ∅ 7000);
    [repeat constructor; lia | reflexivity].
Defined.

(** A refused request does not count: one second after the window of the
    first admitted request the next request is admitted. *)
Lemma limiter_counts_admitted_only_witness :
  let '(admitted, store') :=
    limited Demo.address (Some Sample.worker)
      [1000; 2000; 3000; 4000; 5000; 6000; 7000] ∅ in
  RateLimit.sensitiveOperationLimit 901000 Demo.address (Some Sample.worker) store'
  = if (5 <=? length (RateLimit.recent 901000%Z admitted))%nat
    then (false, store')
    else (true,
          <[RateLimit.key Demo.address (Some Sample.worker)
            := RateLimit.recent 901000 admitted ++ [901000]]> store').
Proof.
  apply (limiter_counts_admitted_only Demo.address (Some Sample.worker)
           [1000; 2000; 3000; 4000; 5000; 6000; 7000] ∅ 901000);
    [repeat constructor; lia | repeat constructor; lia | reflexivity].
Defined.

(** The token of [worker], logged in at instant 1000, ten minutes later. *)
Lemma authenticate_admits_only_live_sessions_witness :
  user_by_id "64b000000000000000000003" (Demo.with_worker Demo.logged_in)
  = Some Demo.logged_in
  /\ User.isLocked (Sample.world 601000) Demo.logged_in = false.
Proof.
  destruct (authenticate_admits_only_live_sessions (H := Demo.jwt)
              (Sample.world 601000) None
              (Some "Bearer tok:64b000000000000000000003") Demo.address None
              (Demo.with_worker Demo.logged_in) (Demo.with_worker Demo.logged_in)
              Demo.logged_in)
    as (_ & Hstored & _ & Hlocked & _); [vm_compute; reflexivity |].
  split; [exact Hstored | exact Hlocked].
Defined.

(** [worker] logs in at instant 1000 and asks again ten minutes later. *)
Lemma session_runs_from_login_witness :
  let logged_in :=
    Auth.login (H := Demo.externals) (H0 := Sample.bcrypt) (Sample.world 1000)
      Demo.address None (Auth.mkBody "eli@example.com" "hashE" None) Sample.db in
  code (fst logged_in) = 200
  /\ exists u',
       authenticate (H := Demo.jwt) (Sample.world 601000) None
         (Some "Bearer tok:64b000000000000000000003") Demo.address None
         (snd logged_in)
       = (inr u', snd logged_in)
       /\ User.lastLogin u' = Some 1000.
Proof.
  cbv zeta.
  destruct (session_runs_from_login (H := Demo.externals) (H0 := Sample.bcrypt)
              (H1 := Demo.jwt) (Sample.world 1000) (Sample.world 601000) None
              Demo.address None Demo.address None
              (Auth.mkBody "eli@example.com" "hashE" None)
              "tok:64b000000000000000000003" Sample.db Sample.worker)
    as (Hcode & Hin & _).
  - split; [| reflexivity]. unfold well_keyed.
    apply (bool_decide_unpack _). vm_compute. exact I.
  - reflexivity.
  - discriminate.
  - reflexivity.
  - reflexivity.
  - reflexivity.
  - discriminate.
  - reflexivity.
  - vm_compute. discriminate.
  - split; [exact Hcode |].
    destruct Hin as (u' & Hrun & _ & Hlast); [vm_compute; discriminate |].
    exists u'. split; [exact Hrun | exact Hlast].
Defined.

(** A wrong guess after the lock of [worker] has run out. *)
Lemma wrong_password_against_lock_witness :
  let result :=
    Auth.login (H := Demo.externals) (H0 := Sample.bcrypt) (Sample.world 1900000)
      Demo.address None (Auth.mkBody "eli@example.com" "guess" None)
      (Demo.with_worker Demo.locked) in
  code (fst result) = 401
  /\ user_by_email "eli@example.com" (snd result)
     = Some (User.set_lockout (Some 1) None Demo.locked).
Proof.
  cbv zeta.
  destruct (wrong_password_against_lock (H := Demo.externals) (H0 := Sample.bcrypt)
              (Sample.world 1900000) Demo.address None
              (Auth.mkBody "eli@example.com" "guess" None)
              (Demo.with_worker Demo.locked) Demo.locked 1805000)
    as (_ & Hpast & _).
  - split; [| reflexivity]. unfold well_keyed.
    apply (bool_decide_unpack _). vm_compute. exact I.
  - reflexivity.
  - discriminate.
  - reflexivity.
  - reflexivity.
  - reflexivity.
  - apply Hpast. vm_compute. reflexivity.
Defined.

(** [worker] logs out five minutes after the login and uses the token
    five minutes later. *)
Lemma logout_keeps_the_session_witness :
  let left :=
    AuthRoutes.logout (Sample.world 301000) (Sample.request Sample.worker)
      (Demo.with_worker Demo.logged_in) in
  code (fst left) = 200
  /\ authenticate (H := Demo.jwt) (Sample.world 601000) None
       (Some "Bearer tok:64b000000000000000000003") Demo.address None (snd left)
     = (inr (User.set_session (Some 1000) None Demo.logged_in), snd left).
Proof.
  cbv zeta.
  destruct (logout_keeps_the_session (J := Demo.jwt) (Sample.world 301000)
              (Sample.world 601000) None (Sample.request Sample.worker)
              "tok:64b000000000000000000003" Demo.address None
              (Demo.with_worker Demo.logged_in) Demo.logged_in)
    as (Hcode & _ & _ & _ & Hauth).
  - unfold well_keyed. apply (bool_decide_unpack _). vm_compute. exact I.
  - reflexivity.
  - discriminate.
  - reflexivity.
  - reflexivity.
  - reflexivity.
  - intros lastLogin Hlast. injection Hlast as <-. vm_compute. discriminate.
  - split; [exact Hcode | exact Hauth].
Defined.

(** [worker] replaces the password "hashE" by "Winter2031". *)
Lemma password_change_takes_effect_witness :
  let changed :=
    AuthRoutes.change_password (H := Demo.externals) (H0 := Sample.bcrypt)
      (H1 := Demo.hash) (Sample.world 1000) (Sample.request Sample.worker)
      (AuthRoutes.mkPasswordBody "hashE" "Winter2031") Sample.db in
  let login p :=
    Auth.login (H := Demo.externals) (H0 := Sample.bcrypt) (Sample.world 2000)
      Demo.address None (Auth.mkBody "eli@example.com" p None) (snd changed) in
  code (fst changed) = 200
  /\ code (fst (login "Winter2031")) = 200
  /\ code (fst (login "hashE")) = 401.
Proof.
  cbv zeta.
  destruct (password_change_takes_effect (E := Demo.externals) (B := Sample.bcrypt)
              (Hh := Demo.hash) (Sample.world 1000) (Sample.world 2000)
              (Sample.request Sample.worker)
              (AuthRoutes.mkPasswordBody "hashE" "Winter2031") "eli@example.com"
              Demo.address None None Sample.db Sample.worker)
    as (Hcode & _ & Hnew & Hold).
  - split; [| reflexivity]. unfold well_keyed.
    apply (bool_decide_unpack _). vm_compute. exact I.
  - reflexivity.
  - reflexivity.
  - reflexivity.
  - reflexivity.
  - discriminate.
  - reflexivity.
  - reflexivity.
  - discriminate.
  - discriminate.
  - reflexivity.
  - reflexivity.
  - split; [exact Hcode |]. split; [exact Hnew | exact Hold].
Defined.

(** Five requests with a wrong current password, one second apart, and
    a sixth with the right one. *)
Lemma sixth_password_change_is_refused_witness :
  let guess := AuthRoutes.mkPasswordBody "guess" "Winter2031" in
  let '(db5, store5) :=
    password_changes (H := Demo.externals) (H0 := Sample.bcrypt) (H1 := Demo.hash)
      (Sample.request Sample.worker) Demo.address
      [(Sample.world 1000, guess); (Sample.world 2000, guess);
       (Sample.world 3000, guess); (Sample.world 4000, guess);
       (Sample.world 5000, guess)] ∅ Sample.db in
  AuthRoutes.change_password_route (H := Demo.externals) (H0 := Sample.bcrypt)
    (H1 := Demo.hash) (Sample.world 6000) (Sample.request Sample.worker)
    Demo.address (AuthRoutes.mkPasswordBody "hashE" "Winter2031") store5 db5
  = (reply 429 false "Too many attempts. Please try again later.", db5, store5).
Proof.
  cbv zeta.
  apply (sixth_password_change_is_refused (E := Demo.externals) (B := Sample.bcrypt)
           (Hh := Demo.hash) (Sample.request Sample.worker) Demo.address
           [(Sample.world 1000, AuthRoutes.mkPasswordBody "guess" "Winter2031");
            (Sample.world 2000, AuthRoutes.mkPasswordBody "guess" "Winter2031");
            (Sample.world 3000, AuthRoutes.mkPasswordBody "guess" "Winter2031");
            (Sample.world 4000, AuthRoutes.mkPasswordBody "guess" "Winter2031");
            (Sample.world 5000, AuthRoutes.mkPasswordBody "guess" "Winter2031")]
           (Sample.world 6000) (AuthRoutes.mkPasswordBody "hashE" "Winter2031")
           ∅ Sample.db).
  - reflexivity.
  - repeat constructor; vm_compute; discriminate.
  - repeat constructor; vm_compute; try discriminate; reflexivity.
  - reflexivity.
Defined.

(** [worker] names a wrong current password. *)
Lemma wrong_current_password_is_recorded_witness :
  exists entry,
    AuthRoutes.change_password (H := Demo.externals) (H0 := Sample.bcrypt)
      (H1 := Demo.hash) (Sample.world 1000) (Sample.request Sample.worker)
      (AuthRoutes.mkPasswordBody "guess" "Winter2031") Sample.db
    = (reply 400 false "Current password is incorrect",
       mkDB (users Sample.db) (tasks Sample.db) [entry])
    /\ AuditLog.success entry = false
    /\ security_relevant entry = true.
Proof.
  destruct (wrong_current_password_is_recorded (E := Demo.externals)
              (B := Sample.bcrypt) (Hh := Demo.hash) (Sample.world 1000)
              (Sample.request Sample.worker)
              (AuthRoutes.mkPasswordBody "guess" "Winter2031") Sample.db
              Sample.worker)
    as (entry & Hrun & _ & _ & Hfail & _ & _ & Hsec);
    [reflexivity | discriminate | reflexivity | reflexivity | reflexivity
    | intros e; reflexivity |].
  exists entry. split; [exact Hrun |]. split; [exact Hfail | exact Hsec].
Defined.

(** A stranger registers as SuperAdmin. *)
Lemma registration_grants_the_requested_role_witness :
  exists coll,
    AuthRoutes.register (H := Demo.externals) (H0 := Demo.hash) (H1 := Demo.validator)
      (Sample.world 1000) Demo.address None "64b000000000000000000009"
      (AuthRoutes.mkRegisterBody " Noor " "noor@example.com" "Winter2031"
         (Some "super_admin") None)
      Sample.db
    = (mkResponse 201 true "User registered successfully"
         (Some (User.mk "64b000000000000000000009" "Noor" "noor@example.com" ""
                  super_admin None true None None None None None None)),
       mkDB (users Sample.db
             ++ [User.mk "64b000000000000000000009" "Noor" "noor@example.com"
                   "$2a$12$Winter2031" super_admin None true None (Some 0) None None
                   None None])
         (tasks Sample.db) coll).
Proof.
  apply (registration_grants_the_requested_role (E := Demo.externals)
           (Hh := Demo.hash) (V := Demo.validator) (Sample.world 1000) Demo.address
           None "64b000000000000000000009"
           (AuthRoutes.mkRegisterBody " Noor " "noor@example.com" "Winter2031"
              (Some "super_admin") None)
           (Some super_admin) Sample.db).
  - vm_compute. lia.
  - reflexivity.
  - reflexivity.
  - reflexivity.
  - reflexivity.
  - reflexivity.
  - discriminate.
  - reflexivity.
  - repeat constructor; discriminate.
Defined.


(** [worker] starts the pending task: the audit trail stays empty. *)
Lemma start_and_reset_leave_no_audit_entry_witness :
  let result :=
    TaskRoutes.update_status (Sample.world 1800000000000)
      (Sample.request Sample.worker) "64c000000000000000000001"
      (TaskRoutes.mkStatusBody "in_progress" None None) Sample.db in
  code (fst result) = 200 /\ auditlogs (snd result) = [].
Proof.
  cbv zeta.
  destruct (start_and_reset_leave_no_audit_entry (Sample.world 1800000000000)
              (Sample.request Sample.worker) "64c000000000000000000001"
              (TaskRoutes.mkStatusBody "in_progress" None None) Sample.db
              in_progress None None Sample.task Sample.lead Sample.worker)
    as (Hcode & _ & Hquiet & _);
    [reflexivity | reflexivity | reflexivity | reflexivity | reflexivity
    | reflexivity | reflexivity | reflexivity | reflexivity
    | intros e; reflexivity |].
  split; [exact Hcode |]. apply Hquiet. right. reflexivity.
Defined.

(** [lead] gives [worker] a task. *)
Lemma created_task_is_pending_and_due_later_witness :
  let created :=
    Task.mk "64c000000000000000000009" "Stocktaking" "Count the goods on the shelves"
      "medium" pending "64b000000000000000000002" "64b000000000000000000003"
      1900000000000 None None None None None [] None in
  fst (TaskCollection.create_task (H := Demo.externals) (H0 := Demo.validator)
         (Sample.world 1800000000000) (Sample.request Sample.lead)
         "64c000000000000000000009"
         (TaskCollection.mkTaskBody " Stocktaking " "Count the goods on the shelves"
            "64b000000000000000000003" "2030-03-17T17:46:40.000Z" None None)
         Sample.db)
  = mkResponse 201 true "Task created successfully" (Some created)
  /\ Task.status created = pending
  /\ 1800000000000 < Task.deadline created.
Proof.
  cbv zeta. split; [vm_compute; reflexivity |].
  destruct (created_task_is_pending_and_due_later (E := Demo.externals)
              (V := Demo.validator) (Sample.world 1800000000000)
              (Sample.request Sample.lead) "64c000000000000000000009"
              (TaskCollection.mkTaskBody " Stocktaking "
                 "Count the goods on the shelves" "64b000000000000000000003"
                 "2030-03-17T17:46:40.000Z" None None)
              Sample.db
              (snd (TaskCollection.create_task (H := Demo.externals)
                      (H0 := Demo.validator) (Sample.world 1800000000000)
                      (Sample.request Sample.lead) "64c000000000000000000009"
                      (TaskCollection.mkTaskBody " Stocktaking "
                         "Count the goods on the shelves" "64b000000000000000000003"
                         "2030-03-17T17:46:40.000Z" None None)
                      Sample.db))
              "Task created successfully"
              (Task.mk "64c000000000000000000009" "Stocktaking"
                 "Count the goods on the shelves" "medium" pending
                 "64b000000000000000000002" "64b000000000000000000003"
                 1900000000000 None None None None None [] None))
    as (Hstatus & _ & _ & _ & _ & Hdue & _); [vm_compute; reflexivity |].
  split; [exact Hstatus | exact Hdue].
Defined.


(** [admin] reads a task of [lead] and [worker]. *)
Lemma task_is_read_by_admin_assignee_and_assigner_witness :
  TaskCollection.get_task (Sample.request Sample.admin) "64c000000000000000000001"
    Sample.db
  = (mkResponse 200 true "" (Some Sample.task), Sample.db).
Proof.
  destruct (task_is_read_by_admin_assignee_and_assigner
              (Sample.request Sample.admin) "64c000000000000000000001" Sample.db
              Sample.task Sample.lead Sample.worker)
    as (Hread & _); [reflexivity | reflexivity | reflexivity |].
  apply Hread. left. reflexivity.
Defined.

(** After the deadline, [admin] asks for the completed tasks that are
    overdue: the answer is the pending task. *)
Lemma overdue_parameter_selects_overdue_tasks_witness :
  let q :=
    TaskCollection.mkListQuery (Some "completed") None None None (Some "true")
      None None in
  payload (fst (TaskCollection.list_tasks (H := Demo.validator) (H0 := Demo.regex)
                  Demo.createdAt (Sample.world 1950000000000)
                  (Sample.request Sample.admin) q Sample.db))
  = Some (TaskCollection.mkListData [Sample.task] 1 1 10)
  /\ Forall (fun t => isOverdue (Sample.world 1950000000000) t = true) [Sample.task].
Proof.
  cbv zeta. split; [vm_compute; reflexivity |].
  destruct (overdue_parameter_selects_overdue_tasks (V := Demo.validator)
              (R := Demo.regex) Demo.createdAt (Sample.world 1950000000000)
              (Sample.request Sample.admin)
              (TaskCollection.mkListQuery (Some "completed") None None None
                 (Some "true") None None)
              Sample.db (TaskCollection.mkListData [Sample.task] 1 1 10))
    as (Hover & _); [reflexivity | vm_compute; reflexivity |].
  exact Hover.
Defined.

(** [lead] creates an employee. *)
Lemma created_user_joins_the_team_of_a_manager_witness :
  exists u,
    users (snd (UserCollection.create_user (H := Demo.externals) (H0 := Demo.hash)
                  (Sample.world 1000) (Sample.request Sample.lead)
                  "64b000000000000000000009"
                  (UserCollection.mkUserBody " Noor " "noor@example.com" "Winter2031"
                     "employee" None None)
                  Sample.db))
    = users Sample.db ++ [u]
    /\ User.role u = employee
    /\ User.managerId u = Some "64b000000000000000000002".
Proof.
  destruct (created_user_joins_the_team_of_a_manager (E := Demo.externals)
              (Hh := Demo.hash) (Sample.world 1000) (Sample.request Sample.lead)
              "64b000000000000000000009"
              (UserCollection.mkUserBody " Noor " "noor@example.com" "Winter2031"
                 "employee" None None)
              Sample.db
              (snd (UserCollection.create_user (H := Demo.externals)
                      (H0 := Demo.hash) (Sample.world 1000)
                      (Sample.request Sample.lead) "64b000000000000000000009"
                      (UserCollection.mkUserBody " Noor " "noor@example.com"
                         "Winter2031" "employee" None None)
                      Sample.db))
              "User created successfully"
              (User.mk "64b000000000000000000009" "Noor" "noor@example.com" ""
                 employee (Some "64b000000000000000000002") true None None None None
                 None None))
    as (u & Husers & _ & _ & _ & _ & _ & Hteam & _); [vm_compute; reflexivity |].
  exists u. split; [exact Husers |]. apply Hteam. reflexivity.
Defined.

(** [admin] sends the string "false": the account is deactivated, and the
    answer says activated. *)
Lemma activation_stores_the_cast_flag_witness :
  let result :=
    UserCollection.activate (Sample.world 1000) (Sample.request Sample.admin)
      "64b000000000000000000003" (Some (JStr "false")) Sample.db in
  message (fst result) = "User activated successfully"
  /\ users (snd result)
     = update_first (has_id "64b000000000000000000003") (set_isActive false)
         (users Sample.db).
Proof.
  cbv zeta.
  destruct (activation_stores_the_cast_flag (Sample.world 1000)
              (Sample.request Sample.admin) "64b000000000000000000003"
              (JStr "false") Sample.db Sample.worker)
    as (flag & _ & _ & Husers & _ & Hmessage & _ & Hstring);
    [reflexivity | reflexivity | reflexivity |].
  destruct Hstring as [-> _]; [left; reflexivity |].
  split; [exact Hmessage | exact Husers].
Defined.


(** [lead] searches for "a" and gets what [admin] gets. *)
Lemma search_replaces_the_manager_scope_witness :
  let q := UserCollection.mkListQuery None (Some "a") None None None in
  UserCollection.list_users (H := Demo.regex) (fun _ => 0) (Sample.world 1000)
    (Sample.request Sample.lead) q Sample.db
  = UserCollection.list_users (H := Demo.regex) (fun _ => 0) (Sample.world 1000)
      (Sample.request Sample.admin) q Sample.db.
Proof.
  cbv zeta.
  destruct (search_replaces_the_manager_scope (R := Demo.regex) (fun _ => 0)
              (Sample.world 1000) (Sample.request Sample.lead)
              (Sample.request Sample.admin)
              (UserCollection.mkListQuery None (Some "a") None None None) Sample.db)
    as (Hsearch & _); [reflexivity | reflexivity |].
  apply Hsearch. reflexivity.
Defined.

(** [worker] reads the account of [admin]. *)
Lemma id_routes_do_not_check_the_target_witness :
  UserCollection.get_user (Sample.request Sample.worker) ∅
    "64b000000000000000000001" Sample.db
  = (mkResponse 200 true "" (Some (set_password "" Sample.admin)), Sample.db).
Proof.
  destruct (id_routes_do_not_check_the_target (R := Demo.regex) Demo.createdAt
              (Sample.request Sample.worker) ∅ "64b000000000000000000001" Sample.db
              Sample.admin)
    as (Hread & _); [reflexivity | reflexivity | reflexivity |].
  exact Hread.
Defined.

(** The message of a login. *)
Lemma stored_entries_have_a_display_message_witness :
  AuditStatics.getDisplayMessage Sample.old_login = "User logged in".
Proof.
  destruct (stored_entries_have_a_display_message Sample.old_login)
    as (message & Hin & <- & _); [reflexivity |].
  reflexivity.
Defined.

(** A wrong guess for [worker]. *)
Lemma refused_logins_of_known_users_are_listed_witness :
  exists entry,
    In entry
      (AuditStatics.getFailedLogins (mkEnv 3600000 None None) 1
         (auditlogs
            (snd (Auth.login (H := Demo.externals) (H0 := Sample.bcrypt)
                    (Sample.world 1000) Demo.address None
                    (Auth.mkBody "eli@example.com" "guess" None) Sample.db))))
    /\ AuditLog.user entry = Some "64b000000000000000000003"
    /\ AuditLog.success entry = false.
Proof.
  destruct (refused_logins_of_known_users_are_listed (E := Demo.externals)
              (B := Sample.bcrypt) (Sample.world 1000) (mkEnv 3600000 None None) 1
              Demo.address None (Auth.mkBody "eli@example.com" "guess" None)
              Sample.db Sample.worker)
    as (entry & Hin & Huser & _ & Hfail & _);
    [reflexivity | reflexivity | discriminate | reflexivity | intros e; reflexivity
    | vm_compute; discriminate | vm_compute; discriminate |].
  exists entry. split; [exact Hin |]. split; [exact Huser | exact Hfail].
Defined.

(** [worker] calls a route of Managers and SuperAdmins. *)
Lemma authorize_refusal_is_on_the_security_record_witness :
  exists entry,
    authorize (Sample.world 1000) (Sample.request Sample.worker)
      [super_admin; manager] Sample.db
    = (Returned false, mkDB (users Sample.db) (tasks Sample.db) [entry])
    /\ AuditLog.category entry = security.
Proof.
  destruct (authorize_refusal_is_on_the_security_record (Sample.world 1000)
              (Sample.request Sample.worker) [super_admin; manager] Sample.db 0)
    as (entry & Hrun & _ & _ & _ & Hcategory & _);
    [apply (bool_decide_unpack _); vm_compute; exact I | reflexivity
    | intros e; reflexivity | vm_compute; discriminate |].
  exists entry. split; [exact Hrun | exact Hcategory].
Defined.

